(** * The Nodes Configuration Manager of LogDevice

    A shallow embedding of
      - logdevice/common/configuration/nodes/NodesConfigurationManager.cpp
        (OperationMode and the NCM state machine), and
      - logdevice/admin/maintenance/SequencerWorkflow.h,
    followed by the properties of the specification that are stated about
    them.

    Conventions.
      - A [std::shared_ptr<const T>] is an [option T]; [nullptr] is [None].
      - Unsigned machine integers are [Z] with the wrap-around written out.
      - A method of the NCM is a computation in the monad [M]: it reads and
        writes the fields of the manager, emits the calls it makes to its
        collaborators as a list of [Effect]s, and may stop on a failed check.
      - Lambdas are defunctionalised: a closure is a constructor holding
        its captures, and a function ([invoke], [run_store_callback],
        [run_fanout_continuation]) gives its body.
      - Debug logging ([ld_debug], [ld_info]) and the thread checks
        ([dcheckOnNCM]) have no counterpart here. *)

From Stdlib Require Import ZArith List Bool Lia ZifyBool String.
Import ListNotations.
Open Scope Z_scope.

(** * Checks and outcomes *)

(** How a run can stop short of its end. *)
Inductive Failure : Type :=
| CheckFailure      (* a failed ld_check / ld_assert aborted the process *)
| NullDereference   (* a null shared_ptr was dereferenced *)
| OptionalEmpty.    (* value() was called on an empty folly::Optional *)

Inductive Outcome (A : Type) : Type :=
| Done (a : A)
| Fail (f : Failure).
Arguments Done {A} a.
Arguments Fail {A} f.

(** [ld_check], [ld_assert] and their [_eq]/[_gt] forms are macros of
    logdevice/common/checks.h, which is not among the sources.  What a
    failed one does depends on the build, so it is a parameter:
    [check_aborts] says whether a failed [ld_check] stops the process,
    [assert_aborts] the same for [ld_assert] (which release builds compile
    out), and [kIsDebug] is [folly::kIsDebug]. *)
Record Build : Type := {
  kIsDebug : bool;
  check_aborts : bool;
  assert_aborts : bool
}.

(** * OperationMode *)

Module OperationMode.

(** [NodeServiceDiscovery::RoleSet] is a bitset indexed by [NodeRole]; only
    [test] is used on it. *)
Inductive NodeRole : Type := SEQUENCER | STORAGE.

Definition RoleSet : Type := NodeRole -> bool.

Definition test (roles : RoleSet) (r : NodeRole) : bool := roles r.

Definition no_roles : RoleSet := fun _ => false.

(** The six flag constants are declared in NodesConfigurationManager.h,
    which is not among the sources.  Each is one bit of a [uint16_t]; the
    bit positions are parameters. *)
Record FlagBits : Type := {
  bitProposer : nat;
  bitCoordinator : nat;
  bitClient : nat;
  bitTooling : nat;
  bitStorageMember : nat;
  bitSequencer : nat
}.

Definition all_bits (K : FlagBits) : list nat :=
  [bitProposer K; bitCoordinator K; bitClient K; bitTooling K;
   bitStorageMember K; bitSequencer K].

Fixpoint distinct (l : list nat) : bool :=
  match l with
  | [] => true
  | x :: r => negb (existsb (Nat.eqb x) r) && distinct r
  end.

(** The declaration is well formed when the six bits are pairwise distinct
    and fit the 16-bit [Flags] type. *)
Definition well_formed (K : FlagBits) : bool :=
  distinct (all_bits K) && forallb (fun b => Nat.ltb b 16) (all_bits K).

Definition Flags : Type := Z.

Definition bit (b : nat) : Flags := Z.shiftl 1 (Z.of_nat b).

Record t : Type := { mode_ : Flags }.

Section WithFlags.

Variable K : FlagBits.

Definition kIsProposer : Flags := bit (bitProposer K).
Definition kIsCoordinator : Flags := bit (bitCoordinator K).
Definition kIsClient : Flags := bit (bitClient K).
Definition kIsTooling : Flags := bit (bitTooling K).
Definition kIsStorageMember : Flags := bit (bitStorageMember K).
Definition kIsSequencer : Flags := bit (bitSequencer K).

(** [OperationMode mode;] : no flag set. *)
Definition default_mode : t := {| mode_ := 0 |}.

(** [mode_ |= flags] *)
Definition setFlags (m : t) (flags : Flags) : t :=
  {| mode_ := Z.lor (mode_ m) flags |}.

(** [(mode_ & flags) != 0] *)
Definition hasFlags (m : t) (flags : Flags) : bool :=
  negb (Z.land (mode_ m) flags =? 0).

(** [mode_ == flags] *)
Definition onlyHasFlags (m : t) (flags : Flags) : bool :=
  mode_ m =? flags.

Definition isClient (m : t) : bool := hasFlags m kIsClient.
Definition isClientOnly (m : t) : bool := onlyHasFlags m kIsClient.
Definition isTooling (m : t) : bool := hasFlags m kIsTooling.
Definition isStorageMember (m : t) : bool := hasFlags m kIsStorageMember.
Definition isSequencer (m : t) : bool := hasFlags m kIsSequencer.
Definition isProposer (m : t) : bool := hasFlags m kIsProposer.
Definition isCoordinator (m : t) : bool := hasFlags m kIsCoordinator.

Definition isValid (m : t) : bool :=
  if isClient m && isCoordinator m then false
  else if negb (isClient m) && negb (isTooling m) &&
          negb (isStorageMember m) && negb (isSequencer m) then false
  else true.

(** [ld_assert(mode.isValid()); return mode;] *)
Definition assert_valid (b : Build) (m : t) : Outcome t :=
  if negb (isValid m) && assert_aborts b then Fail CheckFailure else Done m.

Definition forClient (b : Build) : Outcome t :=
  let mode := default_mode in
  let mode := setFlags mode kIsClient in
  assert_valid b mode.

Definition forTooling (b : Build) : Outcome t :=
  let mode := default_mode in
  let mode := setFlags mode (Z.lor kIsTooling kIsProposer) in
  assert_valid b mode.

Definition forNodeRoles (b : Build) (roles : RoleSet) : Outcome t :=
  let mode := default_mode in
  let mode := if test roles SEQUENCER then setFlags mode kIsSequencer
              else mode in
  let mode := if test roles STORAGE then setFlags mode kIsStorageMember
              else mode in
  assert_valid b mode.

Definition upgradeToProposer (m : t) : t := setFlags m kIsProposer.

End WithFlags.

(** The mutating operations of the class: [setFlags] (private) and
    [upgradeToProposer].  Everything else is [const] or a static factory. *)
Inductive Mutation : Type :=
| MSetFlags (flags : Flags)
| MUpgradeToProposer.

Definition mutate (K : FlagBits) (m : t) (op : Mutation) : t :=
  match op with
  | MSetFlags flags => setFlags m flags
  | MUpgradeToProposer => upgradeToProposer K m
  end.

End OperationMode.

(** * NodesConfigurationManager *)

Module NCM.

(** [Status] / [E] (logdevice/include/Err.h, not among the sources): the
    codes the manager names, and the remaining ones by number. *)
Inductive Status : Type :=
| OK
| SHUTDOWN
| ACCESS
| INVALID_PARAM
| VERSION_MISMATCH
| BADMSG
| AGAIN
| E_other (code : nat).

Definition is_OK (s : Status) : bool :=
  match s with OK => true | _ => false end.

Definition is_VERSION_MISMATCH (s : Status) : bool :=
  match s with VERSION_MISMATCH => true | _ => false end.

(** [membership::MembershipVersion::Type] and
    [NodesConfigurationStore::version_t] are 64-bit unsigned. *)
Definition version_t : Type := Z.

Definition u64 (x : Z) : Z := x mod 2 ^ 64.

Definition EMPTY_VERSION : version_t := 0.

(** The counters and gauges written with STAT_INCR / STAT_SET, without
    their common prefix [nodes_configuration_manager_]. *)
Inductive Stat : Type :=
| updates_requested
| overwrites_requested
| started
| config_received
| serialization_errors
| staged_version
| pending_version
| config_published
| published_version.

Inductive TraceSource : Type := NCM_UPDATE | NCM_OVERWRITE.

Inductive NCMReportType : Type := ADVANCE_INTERMEDIARY_SHARD_STATES_FAILED.

Definition string_empty (s : string) : bool :=
  match s with EmptyString => true | _ => false end.

Section Manager.

(** The collaborators of the manager that the sources leave out are
    parameters: the payload of a configuration and the updates applied to
    it, the codec, the ShardStateTracker, and the callbacks handed in by
    callers. *)
Variable Payload : Type.
Variable Update : Type.
Variable Tracker : Type.
Variable UserCb : Type.

(** Modelled from the spec: NodesConfiguration (NodesConfiguration.h is not
    among the sources) is an immutable value carrying a [u64] version, zero
    being EMPTY, and an opaque payload; it supports [version()],
    [with_version(v)] and [apply_update]. *)
Record NodesConfiguration : Type := {
  version : version_t;
  payload : Payload
}.

Definition getVersion (c : NodesConfiguration) : version_t := version c.

Definition withVersion (c : NodesConfiguration) (v : version_t)
  : NodesConfiguration :=
  {| version := v; payload := payload c |}.

Variable empty_payload : Payload.

(** [std::make_shared<const NodesConfiguration>()] *)
Definition empty_nc : NodesConfiguration :=
  {| version := EMPTY_VERSION; payload := empty_payload |}.

(** The functions below report failure through the thread-local [err]:
    each takes the value of [err] before the call and returns the value
    after it, next to its result. *)
Variable applyUpdate :
  NodesConfiguration -> Update -> Status -> option NodesConfiguration * Status.
Variable serialize : NodesConfiguration -> Status -> string * Status.
Variable deserialize : string -> Status -> option NodesConfiguration * Status.
Variable extractConfigVersion : string -> option version_t.

Variable tracker_onNewConfig : Tracker -> NodesConfiguration -> Tracker.
Variable extractNCUpdate : Tracker -> Z -> option Update.

(** ** Callbacks *)

(** What [NodesConfigurationTracer::Sample::nc_update_gen_] will print. *)
Inductive UpdateGen : Type :=
| GenUpdates (updates : list Update)
| GenDebugJson (configuration : NodesConfiguration).

Record Sample : Type := {
  nc_update_gen_ : UpdateGen;
  published_nc_ : option NodesConfiguration;
  source_ : TraceSource
}.

(** A [CompletionCb] is a caller's function or one of the three lambdas of
    the manager with the values it captured. *)
Inductive CompletionCb : Type :=
| Caller (k : UserCb)
| UpdateTraced (cb : CompletionCb) (updates : list Update)
| OverwriteTraced (cb : CompletionCb) (configuration : NodesConfiguration)
| AdvanceCb.

(** The lambda handed to [store_->updateConfig] by [onUpdateRequest]. *)
Inductive StoreCb : Type :=
| UpdateStoreCb (callback : CompletionCb) (new_config : NodesConfiguration).

(** ** Calls made to the collaborators *)

Inductive Effect : Type :=
| CallerInvoked (k : UserCb) (status : Status)
    (nc : option NodesConfiguration)
| StatIncr (s : Stat)
| StatSet (s : Stat) (v : Z)
| Trace (sample : Sample)
| RatelimitError (status : Status)
| ReportEvent (e : NCMReportType)
| PostUpdateRequest (updates : list Update) (cb : CompletionCb)
| DepsOverwrite (configuration : NodesConfiguration) (cb : CompletionCb)
| StoreUpdateConfig (serialized : string) (base_version : version_t)
    (cb : StoreCb)
| PostNewConfigRequest (nc : NodesConfiguration)
| ReportPropagationLatency (nc : NodesConfiguration)
| UpdateNCMNodesConfiguration (nc : NodesConfiguration)
| FulfillOnAllWorkers (config : NodesConfiguration)
| PostProcessingFinishedRequest (nc : NodesConfiguration)
| DepsInit (init_nc : option NodesConfiguration)
| DcheckNotOnProcessor
| TryWaitInitialized (seconds : Z)
| ReadFromStore (consistent : bool)
| ScheduleHeartBeat
| CheckAndReportConsistency.

(** Running a [CompletionCb].  [live] is what the closure finds when it
    asks for the manager: [ncm.lock()] gave a manager and that manager has
    [shutdownSignaled() == false].  The traced wrappers call the wrapped
    callback from SCOPE_EXIT, hence after tracing. *)
Fixpoint invoke (live : bool) (cb : CompletionCb) (status : Status)
    (nc : option NodesConfiguration) : list Effect :=
  match cb with
  | Caller k => [CallerInvoked k status nc]
  | UpdateTraced cb' updates =>
      (if is_OK status && live
       then [Trace {| nc_update_gen_ := GenUpdates updates;
                      published_nc_ := nc;
                      source_ := NCM_UPDATE |}]
       else [])
      ++ invoke live cb' status nc
  | OverwriteTraced cb' configuration =>
      (if is_OK status && live
       then [Trace {| nc_update_gen_ := GenDebugJson configuration;
                      published_nc_ := nc;
                      source_ := NCM_OVERWRITE |}]
       else [])
      ++ invoke live cb' status nc
  | AdvanceCb =>
      if is_OK status || is_VERSION_MISMATCH status then []
      else RatelimitError status ::
           (if live then [ReportEvent ADVANCE_INTERMEDIARY_SHARD_STATES_FAILED]
            else [])
  end.

(** ** The manager *)

Record Settings : Type := {
  server : bool;
  nodes_configuration_manager_intermediary_shard_state_timeout : Z
}.

Record t : Type := {
  mode_ : OperationMode.t;
  shutdown_signaled_ : bool;
  local_nodes_config_ : option NodesConfiguration;
  pending_nodes_config_ : option NodesConfiguration;
  staged_nodes_config_ : option NodesConfiguration;
  tracker_ : Tracker;
  initialized_ : bool;
  settings : Settings;
  err : Status
}.

Definition set_mode (st : t) (m : OperationMode.t) : t :=
  {| mode_ := m;
     shutdown_signaled_ := shutdown_signaled_ st;
     local_nodes_config_ := local_nodes_config_ st;
     pending_nodes_config_ := pending_nodes_config_ st;
     staged_nodes_config_ := staged_nodes_config_ st;
     tracker_ := tracker_ st;
     initialized_ := initialized_ st;
     settings := settings st;
     err := err st |}.

Definition set_local (st : t) (c : option NodesConfiguration) : t :=
  {| mode_ := mode_ st;
     shutdown_signaled_ := shutdown_signaled_ st;
     local_nodes_config_ := c;
     pending_nodes_config_ := pending_nodes_config_ st;
     staged_nodes_config_ := staged_nodes_config_ st;
     tracker_ := tracker_ st;
     initialized_ := initialized_ st;
     settings := settings st;
     err := err st |}.

Definition set_pending (st : t) (c : option NodesConfiguration) : t :=
  {| mode_ := mode_ st;
     shutdown_signaled_ := shutdown_signaled_ st;
     local_nodes_config_ := local_nodes_config_ st;
     pending_nodes_config_ := c;
     staged_nodes_config_ := staged_nodes_config_ st;
     tracker_ := tracker_ st;
     initialized_ := initialized_ st;
     settings := settings st;
     err := err st |}.

Definition set_staged (st : t) (c : option NodesConfiguration) : t :=
  {| mode_ := mode_ st;
     shutdown_signaled_ := shutdown_signaled_ st;
     local_nodes_config_ := local_nodes_config_ st;
     pending_nodes_config_ := pending_nodes_config_ st;
     staged_nodes_config_ := c;
     tracker_ := tracker_ st;
     initialized_ := initialized_ st;
     settings := settings st;
     err := err st |}.

Definition set_tracker (st : t) (tr : Tracker) : t :=
  {| mode_ := mode_ st;
     shutdown_signaled_ := shutdown_signaled_ st;
     local_nodes_config_ := local_nodes_config_ st;
     pending_nodes_config_ := pending_nodes_config_ st;
     staged_nodes_config_ := staged_nodes_config_ st;
     tracker_ := tr;
     initialized_ := initialized_ st;
     settings := settings st;
     err := err st |}.

Definition set_initialized (st : t) (i : bool) : t :=
  {| mode_ := mode_ st;
     shutdown_signaled_ := shutdown_signaled_ st;
     local_nodes_config_ := local_nodes_config_ st;
     pending_nodes_config_ := pending_nodes_config_ st;
     staged_nodes_config_ := staged_nodes_config_ st;
     tracker_ := tracker_ st;
     initialized_ := i;
     settings := settings st;
     err := err st |}.

Definition set_err (st : t) (e : Status) : t :=
  {| mode_ := mode_ st;
     shutdown_signaled_ := shutdown_signaled_ st;
     local_nodes_config_ := local_nodes_config_ st;
     pending_nodes_config_ := pending_nodes_config_ st;
     staged_nodes_config_ := staged_nodes_config_ st;
     tracker_ := tracker_ st;
     initialized_ := initialized_ st;
     settings := settings st;
     err := e |}.

(** ** The monad of the methods *)

Definition M (A : Type) : Type := t -> Outcome (A * t * list Effect).

Definition ret {A : Type} (a : A) : M A := fun st => Done (a, st, []).

Definition bind {A B : Type} (m : M A) (f : A -> M B) : M B :=
  fun st =>
    match m st with
    | Done (a, st1, es1) =>
        match f a st1 with
        | Done (b, st2, es2) => Done (b, st2, es1 ++ es2)
        | Fail x => Fail x
        end
    | Fail x => Fail x
    end.

Definition get : M t := fun st => Done (st, st, []).
Definition put (st' : t) : M unit := fun _ => Done (tt, st', []).
Definition emit (e : Effect) : M unit := fun st => Done (tt, st, [e]).
Definition emits (es : list Effect) : M unit := fun st => Done (tt, st, es).
Definition fail {A : Type} (x : Failure) : M A := fun _ => Fail x.

Definition ld_check (b : Build) (cond : bool) : M unit :=
  if negb cond && check_aborts b then fail CheckFailure else ret tt.

Definition ld_assert (b : Build) (cond : bool) : M unit :=
  if negb cond && assert_aborts b then fail CheckFailure else ret tt.

(** Calling one of the [err]-reporting functions. *)
Definition with_err {A : Type} (f : Status -> A * Status) : M A :=
  fun st => let (a, e) := f (err st) in Done (a, set_err st e, []).

(** [callback(status, nc)] from inside a method of the manager: the
    manager is there, so the closure only finds out whether shutdown was
    signaled. *)
Definition call (cb : CompletionCb) (status : Status)
    (nc : option NodesConfiguration) : M unit :=
  fun st => Done (tt, st, invoke (negb (shutdown_signaled_ st)) cb status nc).

Notation "x <- c1 ;; c2" := (bind c1 (fun x => c2))
  (at level 61, c1 at next level, right associativity).
Notation "c1 ;;; c2" := (bind c1 (fun _ => c2))
  (at level 61, right associativity).

(** ** Readers *)

Definition shutdownSignaled (st : t) : bool := shutdown_signaled_ st.

(** [getConfig()] loads [local_nodes_config_]. *)
Definition getConfig (st : t) : option NodesConfiguration :=
  local_nodes_config_ st.

Variable K : OperationMode.FlagBits.

Definition shouldDoConsistentConfigFetch (st : t) : bool :=
  OperationMode.isStorageMember K (mode_ st) &&
  match getConfig st with None => true | Some _ => false end.

Definition max (lhs rhs : option NodesConfiguration)
  : option NodesConfiguration :=
  match lhs, rhs with
  | None, _ => rhs
  | _, None => lhs
  | Some l, Some r => if getVersion l >? getVersion r then lhs else rhs
  end.

Definition getLatestKnownConfig (st : t) : NodesConfiguration :=
  let c := max (getConfig st) (pending_nodes_config_ st) in
  let c := max c (staged_nodes_config_ st) in
  match c with
  | Some c => c
  | None => empty_nc
  end.

Definition hasProcessedVersion (st : t) (v : version_t) : bool :=
  match local_nodes_config_ st with
  | Some l => getVersion l >=? v
  | None => false
  end.

Definition isProcessingEqualOrHigherVersion (st : t) (v : version_t) : bool :=
  match pending_nodes_config_ st with
  | Some p => getVersion p >=? v
  | None => false
  end.

Definition shouldStageVersion (st : t) (v : version_t) : bool :=
  match staged_nodes_config_ st with
  | None => true
  | Some s => getVersion s <? v
  end
  && negb (isProcessingEqualOrHigherVersion st v)
  && negb (hasProcessedVersion st v).

(** ** Lifecycle *)

(** [init]: [latch] is what [initialized_.try_wait_for(10s)] answers.
    [weak_from_this()] is not null for a manager made by its factory, so the
    [ld_check] on it has nothing to decide. *)
Definition init (init_nc : option NodesConfiguration)
    (wait_until_initialized : bool) (latch : bool) : M bool :=
  st <- get ;;
  if shutdownSignaled st then ret true
  else
    emit (DepsInit init_nc) ;;;
    if wait_until_initialized then
      emit DcheckNotOnProcessor ;;;
      emit (TryWaitInitialized 10) ;;;
      ret latch
    else ret true.

Definition upgradeToProposer : M unit :=
  st <- get ;;
  put (set_mode st (OperationMode.upgradeToProposer K (mode_ st))).

(** ** Proposing *)

(** [update(std::vector<Update>, CompletionCb)] *)
Definition update (updates : list Update) (callback : CompletionCb)
  : M unit :=
  st <- get ;;
  if shutdownSignaled st then call callback SHUTDOWN None
  else if negb (OperationMode.isProposer K (mode_ st)) then
    call callback ACCESS None
  else
    emit (StatIncr updates_requested) ;;;
    emit (PostUpdateRequest updates (UpdateTraced callback updates)).

(** [update(Update, CompletionCb)] *)
Definition update_single (u : Update) (callback : CompletionCb) : M unit :=
  st <- get ;;
  if shutdownSignaled st then call callback SHUTDOWN None
  else update [u] callback.

Definition overwrite (configuration : option NodesConfiguration)
    (callback : CompletionCb) : M unit :=
  st <- get ;;
  if shutdownSignaled st then call callback SHUTDOWN None
  else if negb (OperationMode.isTooling K (mode_ st)) then
    call callback ACCESS None
  else
    match configuration with
    | None => call callback INVALID_PARAM None
    | Some c =>
        emit (StatIncr overwrites_requested) ;;;
        emit (DepsOverwrite c (OverwriteTraced callback c))
    end.

(** The loop of [onUpdateRequest]: [None] when an [applyUpdate] returned
    null, which ends the loop. *)
Fixpoint apply_updates (new_config : NodesConfiguration)
    (updates : list Update) : M (option NodesConfiguration) :=
  match updates with
  | [] => ret (Some new_config)
  | u :: rest =>
      r <- with_err (applyUpdate new_config u) ;;
      match r with
      | None => ret None
      | Some c => apply_updates c rest
      end
  end.

(** [onUpdateRequest]: [getLatestKnownConfig] never answers null, so the
    [ld_assert] on its result has nothing to decide. *)
Definition onUpdateRequest (updates : list Update) (callback : CompletionCb)
  : M unit :=
  st <- get ;;
  if negb (OperationMode.isProposer K (mode_ st)) then
    call callback ACCESS None
  else
    let current_config := getLatestKnownConfig st in
    let current_version := getVersion current_config in
    r <- apply_updates current_config updates ;;
    match r with
    | None =>
        st1 <- get ;;
        call callback (err st1) None
    | Some new_config =>
        let new_config := withVersion new_config (u64 (current_version + 1)) in
        serialized <- with_err (serialize new_config) ;;
        if string_empty serialized then
          st1 <- get ;;
          call callback (err st1) None
        else
          emit (StoreUpdateConfig serialized current_version
                  (UpdateStoreCb callback new_config))
    end.

(** Applying a batch left to right, in the words of the specification:
    [applies c e us c' e'] when every update of [us] applies in turn,
    starting from [c] with [err = e] and ending in [c'] with [err = e']. *)
Inductive applies :
  NodesConfiguration -> Status -> list Update ->
  NodesConfiguration -> Status -> Prop :=
| applies_nil c e : applies c e [] c e
| applies_cons c e u c1 e1 us c2 e2 :
    applyUpdate c u e = (Some c1, e1) ->
    applies c1 e1 us c2 e2 ->
    applies c e (u :: us) c2 e2.

(** ** Code that runs away from the NCM thread *)

Definition W (A : Type) : Type := Outcome (A * list Effect).

Definition wret {A : Type} (a : A) : W A := Done (a, []).

Definition wbind {A B : Type} (m : W A) (f : A -> W B) : W B :=
  match m with
  | Done (a, es1) =>
      match f a with
      | Done (b, es2) => Done (b, es1 ++ es2)
      | Fail x => Fail x
      end
  | Fail x => Fail x
  end.

Definition wemits (es : list Effect) : W unit := Done (tt, es).

Definition w_check (b : Build) (cond : bool) : W unit :=
  if negb cond && check_aborts b then Fail CheckFailure else wret tt.

Definition w_assert (b : Build) (cond : bool) : W unit :=
  if negb cond && assert_aborts b then Fail CheckFailure else wret tt.

(** [notify_ncm_of_new_config]: the pointer is dereferenced only past the
    liveness test. *)
Definition notify_ncm_of_new_config (live : bool)
    (new_config_ptr : option NodesConfiguration) : W unit :=
  if negb live then wret tt
  else
    match new_config_ptr with
    | None => Fail NullDereference
    | Some c => wemits [PostNewConfigRequest c]
    end.

(** The [if (folly::kIsDebug)] block of the store callback. *)
Definition debug_asserts (b : Build) (new_config : NodesConfiguration)
    (stored_version : version_t) (stored_data : string) : W unit :=
  if kIsDebug b then
    let extracted_version_opt := extractConfigVersion stored_data in
    match extracted_version_opt with
    | None =>
        wbind (w_assert b false) (fun _ => Fail OptionalEmpty)
    | Some extracted =>
        wbind (w_assert b true) (fun _ =>
        wbind (w_assert b (stored_version =? extracted)) (fun _ =>
        w_assert b (stored_version >? getVersion new_config)))
    end
  else wret tt.

(** The callback of [store_->updateConfig], on the NCS callback thread;
    [thread_err] is the [err] of that thread before the call. *)
Definition run_store_callback (b : Build) (live : bool) (thread_err : Status)
    (cb : StoreCb) (status : Status) (stored_version : version_t)
    (stored_data : string) : W unit :=
  match cb with
  | UpdateStoreCb callback new_config =>
      if is_VERSION_MISMATCH status
         && negb (stored_version =? EMPTY_VERSION)
         && negb (string_empty stored_data)
      then
        wbind (debug_asserts b new_config stored_version stored_data) (fun _ =>
        let stored_config := fst (deserialize stored_data thread_err) in
        wbind (w_assert b
                 (match stored_config with Some _ => true | None => false end))
              (fun _ =>
        wbind (notify_ncm_of_new_config live stored_config) (fun _ =>
        wemits (invoke live callback VERSION_MISMATCH stored_config))))
      else if negb (is_OK status) then
        wemits (invoke live callback status None)
      else
        wbind (w_check b (stored_version =? getVersion new_config)) (fun _ =>
        wbind (notify_ncm_of_new_config live (Some new_config)) (fun _ =>
        wemits (invoke live callback OK (Some new_config))))
  end.

(** The continuation of the collected worker futures; [has_value] is
    [t.hasValue()]. *)
Definition run_fanout_continuation (b : Build) (live : bool)
    (pending_nodes_config : NodesConfiguration) (has_value : bool) : W unit :=
  wbind (w_assert b has_value) (fun _ =>
  if negb live then wret tt
  else wemits [PostProcessingFinishedRequest pending_nodes_config]).

(** ** The version pipeline *)

Definition maybeProcessStagedConfig (b : Build) : M unit :=
  st <- get ;;
  match staged_nodes_config_ st, pending_nodes_config_ st with
  | Some s, None =>
      ld_check b (negb (hasProcessedVersion st (getVersion s))) ;;;
      put (set_pending (set_staged st None) (Some s)) ;;;
      emit (StatSet pending_version (getVersion s)) ;;;
      emit (UpdateNCMNodesConfiguration s) ;;;
      emit (FulfillOnAllWorkers s)
  | _, _ => ret tt
  end.

Definition onProcessingFinished (b : Build)
    (new_config : option NodesConfiguration) : M unit :=
  ld_check b (match new_config with Some _ => true | None => false end) ;;;
  match new_config with
  | None => fail NullDereference
  | Some nc =>
      let new_version := getVersion nc in
      st <- get ;;
      ld_check b (match pending_nodes_config_ st with
                  | Some _ => true | None => false end) ;;;
      match pending_nodes_config_ st with
      | None => fail NullDereference
      | Some p =>
          ld_check b (new_version =? getVersion p) ;;;
          ld_check b (negb (hasProcessedVersion st new_version)) ;;;
          put (set_initialized
                 (set_pending (set_local st (Some p)) None) true) ;;;
          emit (StatIncr config_published) ;;;
          emit (StatSet published_version (getVersion p)) ;;;
          maybeProcessStagedConfig b
      end
  end.

(** [now] is what [SystemTimestamp::now()] answers; timestamps and the
    timeout count the same unit. *)
Definition advanceIntermediaryShardStates (now : Z) : M unit :=
  st <- get ;;
  if negb (OperationMode.isProposer K (mode_ st)) || shutdownSignaled st
  then ret tt
  else
    let till_timestamp :=
      now - nodes_configuration_manager_intermediary_shard_state_timeout
              (settings st) in
    match extractNCUpdate (tracker_ st) till_timestamp with
    | Some u => update_single u AdvanceCb
    | None => ret tt
    end.

(** [onNewConfig(std::shared_ptr<const NodesConfiguration>)] *)
Definition onNewConfig (b : Build) (now : Z)
    (new_config : option NodesConfiguration) : M unit :=
  ld_check b (match new_config with Some _ => true | None => false end) ;;;
  st <- get ;;
  if shutdownSignaled st then ret tt
  else
    match new_config with
    | None => fail NullDereference
    | Some nc =>
        let new_config_version := getVersion nc in
        if negb (shouldStageVersion st new_config_version) then ret tt
        else
          put (set_staged st (Some nc)) ;;;
          st1 <- get ;;
          put (set_tracker st1 (tracker_onNewConfig (tracker_ st1) nc)) ;;;
          advanceIntermediaryShardStates now ;;;
          emit (StatSet staged_version (getVersion nc)) ;;;
          maybeProcessStagedConfig b
    end.

(** [onNewConfig(std::string)] *)
Definition onNewConfig_serialized (b : Build) (now : Z) (new_config : string)
  : M unit :=
  emit (StatIncr config_received) ;;;
  st <- get ;;
  if shutdownSignaled st then ret tt
  else
    match extractConfigVersion new_config with
    | None =>
        emit (StatIncr serialization_errors) ;;;
        st1 <- get ;;
        put (set_err st1 BADMSG)
    | Some new_version =>
        if hasProcessedVersion st new_version then ret tt
        else
          parsed_config_ptr <- with_err (deserialize new_config) ;;
          match parsed_config_ptr with
          | None => emit (StatIncr serialization_errors)
          | Some c =>
              emit (ReportPropagationLatency c) ;;;
              onNewConfig b now (Some c)
          end
    end.

Definition onHeartBeat (now : Z) : M unit :=
  st <- get ;;
  emit (ReadFromStore (shouldDoConsistentConfigFetch st)) ;;;
  advanceIntermediaryShardStates now ;;;
  if server (settings st) then emit CheckAndReportConsistency else ret tt.

Definition initOnNCM (b : Build) (now : Z)
    (init_nc : option NodesConfiguration) : M unit :=
  onHeartBeat now ;;;
  emit ScheduleHeartBeat ;;;
  emit (StatSet started 1) ;;;
  ld_assert b (match init_nc with Some _ => true | None => false end) ;;;
  onNewConfig b now init_nc.

(** What [maybeProcessStagedConfig] does when it acts: the state after the
    staged configuration moved into the pending slot, and the calls that
    start the fan-out. *)
Definition moved (st : t) (s : NodesConfiguration) : t :=
  set_pending (set_staged st None) (Some s).

Definition fanout_effects (s : NodesConfiguration) : list Effect :=
  [StatSet pending_version (getVersion s);
   UpdateNCMNodesConfiguration s;
   FulfillOnAllWorkers s].

(** The state right after [onNewConfig] staged [nc] and told the
    tracker. *)
Definition stage (st : t) (nc : NodesConfiguration) : t :=
  set_tracker (set_staged st (Some nc))
    (tracker_onNewConfig (tracker_ st) nc).

(** The state right after [onProcessingFinished] moved the pending
    configuration [p] into the local slot. *)
Definition publish (st : t) (p : NodesConfiguration) : t :=
  set_initialized (set_pending (set_local st (Some p)) None) true.

(** ** Runs of the pipeline *)

(** The requests that drive the pipeline on the NCM thread. *)
Inductive Request : Type :=
| NewConfigRequest (now : Z) (nc : NodesConfiguration)
| ProcessingFinishedRequest (nc : NodesConfiguration).

Definition execute (b : Build) (r : Request) : M unit :=
  match r with
  | NewConfigRequest now nc => onNewConfig b now (Some nc)
  | ProcessingFinishedRequest nc => onProcessingFinished b (Some nc)
  end.

Fixpoint run (b : Build) (rs : list Request) : M unit :=
  match rs with
  | [] => ret tt
  | r :: rest => execute b r ;;; run b rest
  end.

(** How often a run staged, fanned out and published version [v]: each of
    the three leaves one gauge write. *)
Definition is_stat_set (s : Stat) (v : Z) (e : Effect) : bool :=
  match e with
  | StatSet s' v' =>
      match s, s' with
      | staged_version, staged_version
      | pending_version, pending_version
      | published_version, published_version => v' =? v
      | _, _ => false
      end
  | _ => false
  end.

Definition count_stat_set (s : Stat) (v : Z) (es : list Effect) : nat :=
  List.length (filter (is_stat_set s v) es).

Definition is_store_write (e : Effect) : bool :=
  match e with
  | StoreUpdateConfig _ _ _ | DepsOverwrite _ _ => true
  | _ => false
  end.

Definition is_post (e : Effect) : bool :=
  match e with
  | PostUpdateRequest _ _ | PostNewConfigRequest _
  | PostProcessingFinishedRequest _ => true
  | _ => false
  end.

(** Whether version [v] is past the stage that writes gauge [s]: known to
    the pipeline, handed to the workers, published. *)
Definition reached (s : Stat) (st : t) (v : version_t) : bool :=
  match s with
  | staged_version => negb (shouldStageVersion st v)
  | pending_version =>
      isProcessingEqualOrHigherVersion st v || hasProcessedVersion st v
  | published_version => hasProcessedVersion st v
  | _ => true
  end.

(** An effect that neither writes to the store nor posts a request. *)
Definition quiet (e : Effect) : Prop :=
  is_store_write e = false /\ is_post e = false.

(** ** The order of the three slots *)

Definition lt_version (a b : option NodesConfiguration) : Prop :=
  match a, b with
  | Some x, Some y => getVersion x < getVersion y
  | _, _ => True
  end.

Definition ordered (st : t) : Prop :=
  lt_version (local_nodes_config_ st) (pending_nodes_config_ st) /\
  lt_version (pending_nodes_config_ st) (staged_nodes_config_ st) /\
  lt_version (local_nodes_config_ st) (staged_nodes_config_ st).

Definition all_empty (st : t) : Prop :=
  local_nodes_config_ st = None /\
  pending_nodes_config_ st = None /\
  staged_nodes_config_ st = None.

(** The states the pipeline reaches from an empty one. *)
Inductive reachable (b : Build) : t -> Prop :=
| reach_empty st : all_empty st -> reachable b st
| reach_onNewConfig st now nc st' es :
    reachable b st ->
    onNewConfig b now nc st = Done (tt, st', es) ->
    reachable b st'
| reach_maybeProcessStagedConfig st st' es :
    reachable b st ->
    maybeProcessStagedConfig b st = Done (tt, st', es) ->
    reachable b st'
| reach_onProcessingFinished st nc st' es :
    reachable b st ->
    onProcessingFinished b nc st = Done (tt, st', es) ->
    reachable b st'.

(** ** Reading a trace of calls *)

(** The caller's function at the core of a callback, if there is one. *)
Fixpoint innermost (cb : CompletionCb) : option UserCb :=
  match cb with
  | Caller k => Some k
  | UpdateTraced cb' _ => innermost cb'
  | OverwriteTraced cb' _ => innermost cb'
  | AdvanceCb => None
  end.

Definition is_caller_invoked (e : Effect) : bool :=
  match e with CallerInvoked _ _ _ => true | _ => false end.

Definition is_trace (e : Effect) : bool :=
  match e with Trace _ => true | _ => false end.

(** [le_version a b]: whatever [a] holds, [b] holds a configuration that is
    not older. *)
Definition le_version (a b : option NodesConfiguration) : Prop :=
  match a, b with
  | Some x, Some y => getVersion x <= getVersion y
  | Some _, None => False
  | None, _ => True
  end.

(** The slot that holds the newest configuration when the slots are in
    order. *)
Definition newest_slot (st : t) : NodesConfiguration :=
  match staged_nodes_config_ st, pending_nodes_config_ st,
        local_nodes_config_ st with
  | Some s, _, _ => s
  | None, Some p, _ => p
  | None, None, Some l => l
  | None, None, None => empty_nc
  end.

End Manager.

Arguments version {Payload} _.
Arguments payload {Payload} _.
Arguments getVersion {Payload} _.
Arguments withVersion {Payload} _ _.
Arguments mode_ {Payload Tracker} _.
Arguments shutdown_signaled_ {Payload Tracker} _.
Arguments local_nodes_config_ {Payload Tracker} _.
Arguments pending_nodes_config_ {Payload Tracker} _.
Arguments staged_nodes_config_ {Payload Tracker} _.
Arguments tracker_ {Payload Tracker} _.
Arguments initialized_ {Payload Tracker} _.
Arguments settings {Payload Tracker} _.
Arguments err {Payload Tracker} _.
Arguments GenUpdates {Payload Update} updates.
Arguments GenDebugJson {Payload Update} configuration.
Arguments Caller {Payload Update UserCb} k.
Arguments UpdateTraced {Payload Update UserCb} cb updates.
Arguments OverwriteTraced {Payload Update UserCb} cb configuration.
Arguments AdvanceCb {Payload Update UserCb}.
Arguments UpdateStoreCb {Payload Update UserCb} callback new_config.
Arguments CallerInvoked {Payload Update UserCb} k status nc.
Arguments StatIncr {Payload Update UserCb} s.
Arguments StatSet {Payload Update UserCb} s v.
Arguments Trace {Payload Update UserCb} sample.
Arguments RatelimitError {Payload Update UserCb} status.
Arguments ReportEvent {Payload Update UserCb} e.
Arguments PostUpdateRequest {Payload Update UserCb} updates cb.
Arguments DepsOverwrite {Payload Update UserCb} configuration cb.
Arguments StoreUpdateConfig {Payload Update UserCb} serialized base_version cb.
Arguments PostNewConfigRequest {Payload Update UserCb} nc.
Arguments ReportPropagationLatency {Payload Update UserCb} nc.
Arguments UpdateNCMNodesConfiguration {Payload Update UserCb} nc.
Arguments FulfillOnAllWorkers {Payload Update UserCb} config.
Arguments PostProcessingFinishedRequest {Payload Update UserCb} nc.
Arguments DepsInit {Payload Update UserCb} init_nc.
Arguments DcheckNotOnProcessor {Payload Update UserCb}.
Arguments TryWaitInitialized {Payload Update UserCb} seconds.
Arguments ReadFromStore {Payload Update UserCb} consistent.
Arguments ScheduleHeartBeat {Payload Update UserCb}.
Arguments CheckAndReportConsistency {Payload Update UserCb}.
Arguments NewConfigRequest {Payload} now nc.
Arguments ProcessingFinishedRequest {Payload} nc.
Arguments set_mode {Payload Tracker} st m.
Arguments set_local {Payload Tracker} st c.
Arguments set_pending {Payload Tracker} st c.
Arguments set_staged {Payload Tracker} st c.
Arguments set_tracker {Payload Tracker} st tr.
Arguments set_initialized {Payload Tracker} st i.
Arguments set_err {Payload Tracker} st e.
Arguments hasProcessedVersion {Payload Tracker} st v.
Arguments isProcessingEqualOrHigherVersion {Payload Tracker} st v.
Arguments shouldStageVersion {Payload Tracker} st v.
Arguments max {Payload} lhs rhs.
Arguments getConfig {Payload Tracker} st.
Arguments shutdownSignaled {Payload Tracker} st.
Arguments lt_version {Payload} a b.
Arguments ordered {Payload Tracker} st.
Arguments all_empty {Payload Tracker} st.
Arguments count_stat_set {Payload Update UserCb} s v es.
Arguments is_stat_set {Payload Update UserCb} s v e.
Arguments quiet {Payload Update UserCb} e.
Arguments moved {Payload Tracker} st s.
Arguments innermost {Payload Update UserCb} cb.
Arguments is_caller_invoked {Payload Update UserCb} e.
Arguments is_trace {Payload Update UserCb} e.
Arguments le_version {Payload} a b.
Arguments empty_nc {Payload} empty_payload.
Arguments reached {Payload Tracker} s st v.
Arguments publish {Payload Tracker} st p.
Arguments fanout_effects {Payload Update UserCb} s.
Arguments ret {Payload Update Tracker UserCb A} a.
Arguments bind {Payload Update Tracker UserCb A B} m f.
Arguments get {Payload Update Tracker UserCb}.
Arguments put {Payload Update Tracker UserCb} st'.
Arguments emit {Payload Update Tracker UserCb} e.
Arguments emits {Payload Update Tracker UserCb} es.
Arguments fail {Payload Update Tracker UserCb A} x.
Arguments ld_check {Payload Update Tracker UserCb} b cond.
Arguments ld_assert {Payload Update Tracker UserCb} b cond.
Arguments with_err {Payload Update Tracker UserCb A} f.
Arguments call {Payload Update Tracker UserCb} cb status nc.
Arguments wret {Payload Update UserCb A} a.
Arguments wbind {Payload Update UserCb A B} m f.
Arguments wemits {Payload Update UserCb} es.
Arguments w_check {Payload Update UserCb} b cond.
Arguments w_assert {Payload Update UserCb} b cond.
Arguments notify_ncm_of_new_config {Payload Update UserCb} live new_config_ptr.

End NCM.

(** * SequencerWorkflow *)

Module SequencerWorkflow.

Section Workflow.

(** [SequencingState] comes from logdevice/admin/maintenance/types.h, which
    is not among the sources. *)
Variable SequencingState : Type.

(** [node_index_t] is a signed 16-bit index. *)
Definition node_index_t : Type := Z.

Record t : Type := {
  target_op_state_ : SequencingState;
  node_ : node_index_t;
  current_sequencing_state_ : SequencingState;
  skip_safety_check_ : bool
}.

(** Objects live in a store and are named by their address, so that a
    returned reference can be told from a copy. *)
Definition addr : Type := nat.
Definition Store : Type := addr -> option t.

Definition store_set (s : Store) (a : addr) (w : t) : Store :=
  fun x => if Nat.eqb x a then Some w else s x.

(** [explicit SequencerWorkflow(node_index_t node) : node_(node) {}]: the
    two states have no initialiser, [garbage1] and [garbage2] are whatever
    the memory held. *)
Definition construct (node : node_index_t)
    (garbage1 garbage2 : SequencingState) : t :=
  {| target_op_state_ := garbage1;
     node_ := node;
     current_sequencing_state_ := garbage2;
     skip_safety_check_ := false |}.

(** [SequencerWorkflow(SequencerWorkflow&&) = default]: member by member. *)
Definition move_construct (wf : t) : t :=
  {| target_op_state_ := target_op_state_ wf;
     node_ := node_ wf;
     current_sequencing_state_ := current_sequencing_state_ wf;
     skip_safety_check_ := skip_safety_check_ wf |}.

(** [SequencerWorkflow& operator=(SequencerWorkflow&& wf) { return *this; }]
    called on the object at [this]; the result is the store afterwards and
    the reference returned. *)
Definition move_assign (s : Store) (this wf : addr) : Store * addr :=
  (s, this).

(** What [operator=(SequencerWorkflow&&) = default] would have done. *)
Definition memberwise_move_assign (s : Store) (this wf : addr)
  : Store * addr :=
  match s wf with
  | Some w => (store_set s this (move_construct w), this)
  | None => (s, this)
  end.

Definition getNodeIndex (w : t) : node_index_t := node_ w.

End Workflow.

Arguments target_op_state_ {SequencingState} _.
Arguments node_ {SequencingState} _.
Arguments current_sequencing_state_ {SequencingState} _.
Arguments skip_safety_check_ {SequencingState} _.
Arguments store_set {SequencingState} s a w.
Arguments move_assign {SequencingState} s this wf.
Arguments memberwise_move_assign {SequencingState} s this wf.
Arguments move_construct {SequencingState} wf.
Arguments getNodeIndex {SequencingState} w.

End SequencerWorkflow.

(** * A small instance

    Updates are numbers, the payload is the list of the updates applied, a
    zero update is rejected; a blob is one character, the version. *)

Module Instance.

Definition Payload : Type := list nat.
Definition Update : Type := nat.
Definition Tracker : Type := list (Z * nat).
Definition UserCb : Type := nat.

Definition NC : Type := NCM.NodesConfiguration Payload.

Definition nc (v : Z) (p : Payload) : NC :=
  {| NCM.version := v; NCM.payload := p |}.

Definition applyUpdate (c : NC) (u : Update) (e : NCM.Status)
  : option NC * NCM.Status :=
  match u with
  | O => (None, NCM.INVALID_PARAM)
  | S _ => (Some (nc (NCM.u64 (NCM.version c + 1)) (u :: NCM.payload c)), e)
  end.

Definition blob_of (v : Z) : string :=
  String (Ascii.ascii_of_N (Z.to_N v)) EmptyString.

Definition serialize (c : NC) (e : NCM.Status) : string * NCM.Status :=
  if 255 <? NCM.version c then (EmptyString, NCM.E_other 7)
  else (blob_of (NCM.version c), e).

Definition extractConfigVersion (s : string) : option Z :=
  match s with
  | String a EmptyString => Some (Z.of_N (Ascii.N_of_ascii a))
  | _ => None
  end.

Definition deserialize (s : string) (e : NCM.Status)
  : option NC * NCM.Status :=
  match extractConfigVersion s with
  | Some v => (Some (nc v []), e)
  | None => (None, NCM.BADMSG)
  end.

Definition tracker_onNewConfig (tr : Tracker) (c : NC) : Tracker := tr.

Definition extractNCUpdate (tr : Tracker) (till : Z) : option Update :=
  match filter (fun p => fst p <=? till) tr with
  | [] => None
  | (_, u) :: _ => Some u
  end.

(** The bit positions of the flags in the LogDevice header. *)
Definition K : OperationMode.FlagBits :=
  {| OperationMode.bitProposer := 1;
     OperationMode.bitCoordinator := 2;
     OperationMode.bitClient := 4;
     OperationMode.bitTooling := 5;
     OperationMode.bitStorageMember := 6;
     OperationMode.bitSequencer := 7 |}.

Definition debug : Build :=
  {| kIsDebug := true; check_aborts := true; assert_aborts := true |}.

Definition release : Build :=
  {| kIsDebug := false; check_aborts := false; assert_aborts := false |}.

Definition t : Type := NCM.t Payload Tracker.

Definition manager (m : Z) (down : bool) (l p s : option NC) : t :=
  {| NCM.mode_ := {| OperationMode.mode_ := m |};
     NCM.shutdown_signaled_ := down;
     NCM.local_nodes_config_ := l;
     NCM.pending_nodes_config_ := p;
     NCM.staged_nodes_config_ := s;
     NCM.tracker_ := [(5, 3%nat)];
     NCM.initialized_ := false;
     NCM.settings :=
       {| NCM.server := true;
          NCM.nodes_configuration_manager_intermediary_shard_state_timeout
            := 30 |};
     NCM.err := NCM.OK |}.

(** A storage node that was upgraded to a proposer / a client. *)
Definition proposer_mode : Z := 66.
Definition client_mode : Z := 16.
Definition tooling_mode : Z := 34.

Definition onUpdateRequest :=
  @NCM.onUpdateRequest Payload Update Tracker UserCb [] applyUpdate
    serialize K.

Definition update :=
  @NCM.update Payload Update Tracker UserCb K.

Definition overwrite :=
  @NCM.overwrite Payload Update Tracker UserCb K.

Definition run_store_callback :=
  @NCM.run_store_callback Payload Update UserCb deserialize
    extractConfigVersion.

Definition onNewConfig :=
  @NCM.onNewConfig Payload Update Tracker UserCb tracker_onNewConfig
    extractNCUpdate K.

Definition onProcessingFinished :=
  @NCM.onProcessingFinished Payload Update Tracker UserCb.

Definition maybeProcessStagedConfig :=
  @NCM.maybeProcessStagedConfig Payload Update Tracker UserCb.

Definition advanceIntermediaryShardStates :=
  @NCM.advanceIntermediaryShardStates Payload Update Tracker UserCb
    extractNCUpdate K.

Definition init := @NCM.init Payload Update Tracker UserCb.

Definition run :=
  @NCM.run Payload Update Tracker UserCb tracker_onNewConfig
    extractNCUpdate K.

Definition invoke := @NCM.invoke Payload Update UserCb.

Definition update_single :=
  @NCM.update_single Payload Update Tracker UserCb K.

Definition upgradeToProposer :=
  @NCM.upgradeToProposer Payload Update Tracker UserCb K.

Definition onNewConfig_serialized :=
  @NCM.onNewConfig_serialized Payload Update Tracker UserCb deserialize
    extractConfigVersion tracker_onNewConfig extractNCUpdate K.

Definition onHeartBeat :=
  @NCM.onHeartBeat Payload Update Tracker UserCb extractNCUpdate K.

Definition initOnNCM :=
  @NCM.initOnNCM Payload Update Tracker UserCb tracker_onNewConfig
    extractNCUpdate K.

Definition run_fanout_continuation :=
  @NCM.run_fanout_continuation Payload Update UserCb.

Definition getLatestKnownConfig :=
  @NCM.getLatestKnownConfig Payload Tracker [].

Definition shouldDoConsistentConfigFetch :=
  @NCM.shouldDoConsistentConfigFetch Payload Tracker K.

(** Some states of the manager: version 7 published; the same with
    version 8 staged; version 7 being handed to the workers; a client
    that has been told to shut down. *)
Definition nc7 : NC := nc 7 [].
Definition nc8 : NC := nc 8 [].
Definition nc9 : NC := nc 9 [].

Definition proposer_v7 : t :=
  manager proposer_mode false (Some nc7) None None.
Definition client_v7 : t :=
  manager client_mode false (Some nc7) None None.
Definition client_v7_staged_v8 : t :=
  manager client_mode false (Some nc7) None (Some nc8).
Definition client_empty : t :=
  manager client_mode false None None None.
Definition client_v7_pending : t :=
  manager client_mode false None (Some nc7) None.
Definition client_down : t :=
  manager client_mode true None None None.

(** A storage node, still an observer, that has published nothing; a
    storage node with version 8 at the workers and version 7 published;
    a tooling manager with version 7 published. *)
Definition storage_mode : Z := 64.
Definition storage_empty : t :=
  manager storage_mode false None None None.
Definition client_v7_v8_pending : t :=
  manager client_mode false (Some nc7) (Some nc8) None.
Definition tooling_v7 : t :=
  manager tooling_mode false (Some nc7) None None.
Definition proposer_down : t :=
  manager proposer_mode true (Some nc7) None None.

(** A proposer whose published version is the greatest a [u64] holds; a
    storage node that has published version 7; a client that has
    published version 8 and posted the initialization latch. *)
Definition proposer_top : t :=
  manager proposer_mode false (Some (nc (2 ^ 64 - 1) [])) None None.
Definition storage_v7 : t :=
  manager storage_mode false (Some nc7) None None.
Definition client_v8_published : t :=
  NCM.set_initialized (manager client_mode false (Some nc8) None None) true.

(** The callback of caller 0 as [update] wraps it for the batch [3]. *)
Definition traced_caller : NCM.CompletionCb Payload Update UserCb :=
  NCM.UpdateTraced (NCM.Caller 0%nat) [3%nat].

(** The pipeline of the client as it fills: version 7 published; then
    version 8 with the workers; then version 9 staged behind it. *)
Definition client_v7_local : t :=
  NCM.set_initialized (manager client_mode false (Some nc7) None None) true.
Definition client_v7_v8 : t :=
  NCM.set_initialized
    (manager client_mode false (Some nc7) (Some nc8) None) true.
Definition client_v7_v8_v9 : t :=
  NCM.set_initialized
    (manager client_mode false (Some nc7) (Some nc8) (Some nc9)) true.

(** A blob of two characters: it has no readable version. *)
Definition bad_blob : string :=
  String (Ascii.ascii_of_N 97) (String (Ascii.ascii_of_N 98) EmptyString).

Definition storage_only : OperationMode.RoleSet :=
  fun r => match r with
           | OperationMode.STORAGE => true
           | OperationMode.SEQUENCER => false
           end.

Inductive SequencingState : Type := ENABLED | DISABLED.

Definition workflow (n : Z) (target : SequencingState) (skip : bool)
  : SequencerWorkflow.t SequencingState :=
  {| SequencerWorkflow.target_op_state_ := target;
     SequencerWorkflow.node_ := n;
     SequencerWorkflow.current_sequencing_state_ := ENABLED;
     SequencerWorkflow.skip_safety_check_ := skip |}.

(** Two workflows, at addresses 0 and 1. *)
Definition two_workflows : SequencerWorkflow.Store SequencingState :=
  SequencerWorkflow.store_set
    (SequencerWorkflow.store_set (fun _ => None) 0%nat
       (workflow 3 ENABLED false))
    1%nat (workflow 5 DISABLED true).

End Instance.

(** * Properties of OperationMode *)

Module OperationModeFacts.

Import OperationMode.

Lemma testbit_bit (i j : nat) :
  Z.testbit (bit i) (Z.of_nat j) = Nat.eqb i j.
Proof.
  unfold bit. rewrite Z.shiftl_1_l, Z.pow2_bits_eqb by lia.
  destruct (Nat.eqb_spec i j) as [->|Hne].
  - apply Z.eqb_refl.
  - apply Z.eqb_neq. lia.
Qed.

Lemma bit_nonneg (i : nat) : 0 <= bit i.
Proof. unfold bit. rewrite Z.shiftl_1_l. apply Z.pow_nonneg. lia. Qed.

(** Testing a one-bit flag is testing that bit. *)
Lemma hasFlags_bit (m : t) (i : nat) :
  hasFlags m (bit i) = Z.testbit (mode_ m) (Z.of_nat i).
Proof.
  unfold hasFlags.
  destruct (Z.testbit (mode_ m) (Z.of_nat i)) eqn:Hb.
  - apply negb_true_iff, Z.eqb_neq. intro H0.
    assert (Hl : Z.testbit (Z.land (mode_ m) (bit i)) (Z.of_nat i) = true).
    { rewrite Z.land_spec, Hb, testbit_bit, Nat.eqb_refl. reflexivity. }
    rewrite H0, Z.bits_0 in Hl. discriminate.
  - apply negb_false_iff, Z.eqb_eq. apply Z.bits_inj'. intros n Hn.
    rewrite Z.land_spec, Z.bits_0.
    destruct (Z.eq_dec n (Z.of_nat i)) as [->|Hne].
    + rewrite Hb. reflexivity.
    + unfold bit. rewrite Z.shiftl_1_l, Z.pow2_bits_eqb by lia.
      replace (Z.of_nat i =? n) with false.
      * apply andb_false_r.
      * symmetry. apply Z.eqb_neq. lia.
Qed.

Lemma hasFlags_setFlags_bit (m : t) (flags : Flags) (i : nat) :
  hasFlags (setFlags m flags) (bit i) =
  Z.testbit (mode_ m) (Z.of_nat i) || Z.testbit flags (Z.of_nat i).
Proof. rewrite hasFlags_bit. cbn. apply Z.lor_spec. Qed.

Lemma hasFlags_default (flags : Flags) : hasFlags default_mode flags = false.
Proof. reflexivity. Qed.

(** [setFlags] keeps every flag that was set. *)
Lemma setFlags_keeps (m : t) (flags : Flags) (i : nat) :
  hasFlags m (bit i) = true -> hasFlags (setFlags m flags) (bit i) = true.
Proof.
  rewrite hasFlags_setFlags_bit, hasFlags_bit. intros ->. reflexivity.
Qed.

Lemma mutate_keeps_proposer (K : FlagBits) (m : t) (op : Mutation) :
  isProposer K m = true -> isProposer K (mutate K m op) = true.
Proof.
  unfold isProposer, kIsProposer.
  destruct op; cbn [mutate]; unfold upgradeToProposer; apply setFlags_keeps.
Qed.

Lemma upgradeToProposer_isProposer (K : FlagBits) (m : t) :
  isProposer K (upgradeToProposer K m) = true.
Proof.
  unfold isProposer, upgradeToProposer, kIsProposer.
  rewrite hasFlags_setFlags_bit, testbit_bit, Nat.eqb_refl.
  apply orb_true_r.
Qed.

(** Range: the flags stay within the 16 bits of [Flags], so that [|=]
    never truncates. *)
Lemma setFlags_range (m : t) (flags : Flags) :
  0 <= mode_ m < 2 ^ 16 -> 0 <= flags < 2 ^ 16 ->
  0 <= mode_ (setFlags m flags) < 2 ^ 16.
Proof.
  intros [Hm0 Hm] [Hf0 Hf]. cbn [setFlags mode_].
  assert (Hnn : 0 <= Z.lor (mode_ m) flags) by (apply Z.lor_nonneg; lia).
  split; [assumption|].
  destruct (Z.eq_dec (Z.lor (mode_ m) flags) 0) as [->|Hnz]; [lia|].
  apply Z.log2_lt_pow2; [lia|].
  rewrite Z.log2_lor by assumption.
  apply Z.max_lub_lt.
  - destruct (Z.eq_dec (mode_ m) 0) as [->|]; [cbn; lia|].
    apply Z.log2_lt_pow2; lia.
  - destruct (Z.eq_dec flags 0) as [->|]; [cbn; lia|].
    apply Z.log2_lt_pow2; lia.
Qed.

Ltac flag_bits :=
  unfold isValid, isClient, isCoordinator, isTooling, isStorageMember,
    isSequencer, isProposer, kIsClient, kIsCoordinator, kIsTooling,
    kIsStorageMember, kIsSequencer, kIsProposer;
  repeat rewrite ?hasFlags_bit; cbn [mode_ setFlags default_mode];
  repeat rewrite ?Z.lor_spec, ?testbit_bit, ?Z.bits_0, ?Nat.eqb_refl.

Lemma well_formed_distinct (K : FlagBits) :
  well_formed K = true ->
  Nat.eqb (bitTooling K) (bitClient K) = false /\
  Nat.eqb (bitProposer K) (bitClient K) = false /\
  Nat.eqb (bitProposer K) (bitTooling K) = false /\
  Nat.eqb (bitTooling K) (bitProposer K) = false /\
  Nat.eqb (bitTooling K) (bitCoordinator K) = false /\
  Nat.eqb (bitProposer K) (bitCoordinator K) = false.
Proof.
  unfold well_formed, all_bits. intros H.
  apply andb_true_iff in H. destruct H as [H _]. cbn in H.
  repeat rewrite ?andb_true_iff, ?negb_true_iff, ?orb_false_iff in H.
  repeat match goal with
         | H : _ /\ _ |- _ => destruct H
         end.
  repeat split; rewrite ?(Nat.eqb_sym (bitTooling K)); try assumption;
    rewrite Nat.eqb_sym; assumption.
Qed.

(** C7.  OperationMode validity and monotonicity.  For every well-formed
    declaration of the flag bits and every build:
    (1) the mode built by [forNodeRoles] for the empty role set has no flag
        and is not valid, so [forNodeRoles] returns that invalid mode where
        its assertion does not abort, and stops on it where it does;
    (2) a mode with both the Client and the Coordinator flag is not valid,
        in particular the client mode with Coordinator added;
    (3) [forTooling] returns a mode with the Proposer flag;
    (4) no mutation clears Proposer: after [setFlags], after
        [upgradeToProposer], and after any sequence of both, a mode that
        was a proposer still is one; [upgradeToProposer] sets it; and a
        mutation leaves every bit that was set as it is. *)
Theorem operation_mode_validity (K : FlagBits) (b : Build) :
  well_formed K = true ->
  (isValid K default_mode = false /\
   forNodeRoles K b no_roles =
     if assert_aborts b then Fail CheckFailure else Done default_mode) /\
  ((forall m, isClient K m = true -> isCoordinator K m = true ->
              isValid K m = false) /\
   (forall m, forClient K b = Done m ->
              isValid K (setFlags m (kIsCoordinator K)) = false)) /\
  (exists m, forTooling K b = Done m /\ isProposer K m = true /\
             isTooling K m = true) /\
  ((forall m flags, isProposer K m = true ->
                    isProposer K (setFlags m flags) = true) /\
   (forall m, isProposer K (upgradeToProposer K m) = true) /\
   (forall ops m, isProposer K m = true ->
                  isProposer K (fold_left (mutate K) ops m) = true) /\
   (forall m op n, Z.testbit (mode_ m) n = true ->
                   Z.testbit (mode_ (mutate K m op)) n = true)).
Proof.
  intros Hwf.
  destruct (well_formed_distinct K Hwf) as (Htc & Hpc & Hpt & Htp & Hto & Hpo).
  split; [|split; [|split]].
  - split; reflexivity.
  - split.
    + intros m Hc Ho. unfold isValid. rewrite Hc, Ho. reflexivity.
    + intros m Hm. unfold forClient, assert_valid in Hm.
      destruct (negb _ && _); inversion Hm; subst m.
      unfold isValid.
      replace (isClient K _) with true.
      * replace (isCoordinator K _) with true; [reflexivity|].
        unfold isCoordinator, kIsCoordinator.
        rewrite hasFlags_setFlags_bit, testbit_bit, Nat.eqb_refl.
        symmetry. apply orb_true_r.
      * symmetry. apply setFlags_keeps. unfold kIsClient.
        rewrite hasFlags_setFlags_bit, testbit_bit, Nat.eqb_refl.
        apply orb_true_r.
  - exists (setFlags default_mode (Z.lor (kIsTooling K) (kIsProposer K))).
    assert (Hv : isValid K
              (setFlags default_mode (Z.lor (kIsTooling K) (kIsProposer K)))
              = true).
    { flag_bits. rewrite Htc, Hpc, Hpt. reflexivity. }
    unfold forTooling, assert_valid. cbv zeta. rewrite Hv. cbn [negb andb].
    split; [reflexivity|]. split.
    + flag_bits. apply orb_true_r.
    + flag_bits. reflexivity.
  - split; [|split; [|split]].
    + intros m flags. apply (mutate_keeps_proposer K m (MSetFlags flags)).
    + apply upgradeToProposer_isProposer.
    + intros ops. induction ops as [|op ops IH]; intros m Hm; cbn.
      * assumption.
      * apply IH, mutate_keeps_proposer, Hm.
    + intros m op n Hn. destruct op; cbn; rewrite Z.lor_spec, Hn;
        reflexivity.
Qed.

(** The flags of the LogDevice header: nodes come up valid and as
    observers, tooling as a proposer. *)
Lemma operation_mode_validity_witness :
  well_formed Instance.K = true /\
  isValid Instance.K default_mode = false /\
  exists m, forTooling Instance.K Instance.debug = Done m /\
            isProposer Instance.K m = true.
Proof.
  split; [reflexivity|].
  destruct (operation_mode_validity Instance.K Instance.debug eq_refl)
    as ((Hinv & _) & _ & (m & Hm & Hp & _) & _).
  split; [exact Hinv|]. exists m. split; assumption.
Defined.

(** ** The factories *)

Lemma well_formed_all_distinct (K : FlagBits) :
  well_formed K = true ->
  bitProposer K <> bitCoordinator K /\ bitProposer K <> bitClient K /\
  bitProposer K <> bitTooling K /\ bitProposer K <> bitStorageMember K /\
  bitProposer K <> bitSequencer K /\ bitCoordinator K <> bitClient K /\
  bitCoordinator K <> bitTooling K /\
  bitCoordinator K <> bitStorageMember K /\
  bitCoordinator K <> bitSequencer K /\ bitClient K <> bitTooling K /\
  bitClient K <> bitStorageMember K /\ bitClient K <> bitSequencer K /\
  bitTooling K <> bitStorageMember K /\ bitTooling K <> bitSequencer K /\
  bitStorageMember K <> bitSequencer K.
Proof.
  unfold well_formed, all_bits. intros H.
  apply andb_true_iff in H. destruct H as [H _]. cbn in H.
  repeat rewrite ?andb_true_iff, ?negb_true_iff, ?orb_false_iff in H.
  repeat match goal with
         | H : _ /\ _ |- _ => destruct H
         end.
  repeat match goal with
         | H : Nat.eqb _ _ = false |- _ => apply Nat.eqb_neq in H
         end.
  repeat split; assumption.
Qed.

Lemma well_formed_fits (K : FlagBits) :
  well_formed K = true ->
  Forall (fun i => (i < 16)%nat) (all_bits K).
Proof.
  unfold well_formed. intros H.
  apply andb_true_iff in H. destruct H as [_ H].
  rewrite forallb_forall in H. apply Forall_forall. intros i Hi.
  apply Nat.ltb_lt, H, Hi.
Qed.

Lemma bit_range (i : nat) : (i < 16)%nat -> 0 <= bit i < 2 ^ 16.
Proof.
  intros Hi. unfold bit. rewrite Z.shiftl_1_l. split.
  - apply Z.pow_nonneg. lia.
  - apply Z.pow_lt_mono_r; lia.
Qed.

(** Every test of a flag on a mode, read bit by bit, and decided with the
    bits known to be distinct. *)
Ltac decide_bits :=
  repeat match goal with
         | |- context [Nat.eqb ?a ?b] =>
             destruct (Nat.eqb_spec a b); [congruence|]
         | |- context [Nat.eqb ?a ?a] => rewrite Nat.eqb_refl
         end;
  cbn.

Ltac all_distinct K Hwf :=
  let Hd := fresh "Hd" in
  pose proof (well_formed_all_distinct K Hwf) as Hd;
  repeat match goal with
         | Hc : _ /\ _ |- _ => destruct Hc
         end.

Lemma forClient_flags (K : FlagBits) (b : Build) :
  well_formed K = true ->
  exists m,
    forClient K b = Done m /\ m = setFlags default_mode (kIsClient K) /\
    isValid K m = true /\ isClient K m = true /\ isClientOnly K m = true /\
    isTooling K m = false /\ isStorageMember K m = false /\
    isSequencer K m = false /\ isProposer K m = false /\
    isCoordinator K m = false.
Proof.
  intros Hwf. all_distinct K Hwf.
  exists (setFlags default_mode (kIsClient K)).
  assert (Hv : isValid K (setFlags default_mode (kIsClient K)) = true).
  { flag_bits. decide_bits. reflexivity. }
  unfold forClient, assert_valid. cbv zeta. rewrite Hv. cbn [negb andb].
  repeat match goal with |- _ /\ _ => split end;
    try reflexivity; try exact Hv;
    try (flag_bits; decide_bits; reflexivity).
  unfold isClientOnly, onlyHasFlags. cbn. apply Z.eqb_refl.
Qed.

Lemma forTooling_flags (K : FlagBits) (b : Build) :
  well_formed K = true ->
  exists m,
    forTooling K b = Done m /\
    m = setFlags default_mode (Z.lor (kIsTooling K) (kIsProposer K)) /\
    isValid K m = true /\ isTooling K m = true /\ isProposer K m = true /\
    isClient K m = false /\ isStorageMember K m = false /\
    isSequencer K m = false /\ isCoordinator K m = false.
Proof.
  intros Hwf. all_distinct K Hwf.
  exists (setFlags default_mode (Z.lor (kIsTooling K) (kIsProposer K))).
  assert (Hv : isValid K
            (setFlags default_mode (Z.lor (kIsTooling K) (kIsProposer K)))
            = true).
  { flag_bits. decide_bits. reflexivity. }
  unfold forTooling, assert_valid. cbv zeta. rewrite Hv. cbn [negb andb].
  repeat match goal with |- _ /\ _ => split end;
    try reflexivity; try exact Hv;
    flag_bits; decide_bits; reflexivity.
Qed.

Lemma forNodeRoles_flags (K : FlagBits) (b : Build) (roles : RoleSet) :
  well_formed K = true ->
  test roles SEQUENCER || test roles STORAGE = true ->
  exists m,
    forNodeRoles K b roles = Done m /\
    isValid K m = true /\
    isSequencer K m = test roles SEQUENCER /\
    isStorageMember K m = test roles STORAGE /\
    isClient K m = false /\ isTooling K m = false /\
    isProposer K m = false /\ isCoordinator K m = false.
Proof.
  intros Hwf Hr. all_distinct K Hwf.
  unfold forNodeRoles, assert_valid. cbv zeta.
  destruct (test roles SEQUENCER), (test roles STORAGE);
    try discriminate Hr;
    match goal with
    | |- exists m, (if negb (isValid K ?x) && _ then _ else _) = _ /\ _ =>
        assert (Hv : isValid K x = true)
          by (flag_bits; decide_bits; reflexivity);
        exists x; rewrite Hv; cbn [negb andb]
    end;
    repeat match goal with |- _ /\ _ => split end;
    try reflexivity; try exact Hv;
    flag_bits; decide_bits; reflexivity.
Qed.

(** X1.  For every well-formed declaration of the flags and every build,
    [forClient] and [forTooling] return a mode (their assertion holds): the
    client mode is valid and has the Client flag and no other, so it is
    client-only and no proposer; the tooling mode is valid and has exactly
    Tooling and Proposer. *)
Theorem client_and_tooling_modes (K : FlagBits) (b : Build) :
  well_formed K = true ->
  (exists m,
     forClient K b = Done m /\ isValid K m = true /\
     isClient K m = true /\ isClientOnly K m = true /\
     isTooling K m = false /\ isStorageMember K m = false /\
     isSequencer K m = false /\ isProposer K m = false /\
     isCoordinator K m = false) /\
  (exists m,
     forTooling K b = Done m /\ isValid K m = true /\
     isTooling K m = true /\ isProposer K m = true /\
     isClient K m = false /\ isClientOnly K m = false /\
     isStorageMember K m = false /\ isSequencer K m = false /\
     isCoordinator K m = false).
Proof.
  intros Hwf. split.
  - destruct (forClient_flags K b Hwf)
      as (m & H & _ & Hv & H1 & H2 & H3 & H4 & H5 & H6 & H7).
    exists m. repeat split; assumption.
  - destruct (forTooling_flags K b Hwf)
      as (m & H & Hm & Hv & H1 & H2 & H3 & H4 & H5 & H6).
    exists m. repeat split; try assumption.
    unfold isClientOnly, onlyHasFlags. apply Z.eqb_neq. intros Heq.
    assert (Hc : isClient K m = true).
    { unfold isClient, hasFlags. rewrite Heq, Z.land_diag.
      apply negb_true_iff, Z.eqb_neq. unfold kIsClient, bit.
      rewrite Z.shiftl_1_l. apply Z.pow_nonzero; lia. }
    congruence.
Qed.

Lemma client_and_tooling_modes_witness :
  well_formed Instance.K = true /\
  exists m, forClient Instance.K Instance.debug = Done m /\
            isClientOnly Instance.K m = true.
Proof.
  split; [reflexivity|].
  destruct (client_and_tooling_modes Instance.K Instance.debug eq_refl)
    as ((m & H & _ & _ & Hc & _) & _).
  exists m. split; assumption.
Defined.

(** X2.  For a role set with SEQUENCER or STORAGE in it, [forNodeRoles]
    returns a mode in every build; it is valid, has the Sequencer flag
    exactly when SEQUENCER is in the set and the StorageMember flag exactly
    when STORAGE is, and none of Client, Tooling, Proposer, Coordinator:
    nodes start as observers. *)
Theorem node_roles_start_as_observers (K : FlagBits) (b : Build)
    (roles : RoleSet) :
  well_formed K = true ->
  test roles SEQUENCER || test roles STORAGE = true ->
  exists m,
    forNodeRoles K b roles = Done m /\
    isValid K m = true /\
    isSequencer K m = test roles SEQUENCER /\
    isStorageMember K m = test roles STORAGE /\
    isClient K m = false /\ isTooling K m = false /\
    isProposer K m = false /\ isCoordinator K m = false.
Proof. apply forNodeRoles_flags. Qed.

Lemma node_roles_start_as_observers_witness :
  well_formed Instance.K = true /\
  exists m,
    forNodeRoles Instance.K Instance.debug Instance.storage_only = Done m /\
    isStorageMember Instance.K m = true /\ isProposer Instance.K m = false.
Proof.
  split; [reflexivity|].
  destruct (node_roles_start_as_observers Instance.K Instance.debug
              Instance.storage_only eq_refl eq_refl)
    as (m & H & _ & _ & Hs & _ & _ & Hp & _).
  exists m. split; [exact H|]. split; [exact Hs|exact Hp].
Defined.

(** X3.  The flags never leave the 16 bits of [Flags]: with a well-formed
    declaration the mode of every factory lies in [0, 2^16), and
    [upgradeToProposer] and [setFlags] with a 16-bit argument keep a mode
    there, so that [|=] on the [uint16_t] loses nothing. *)
Theorem mode_fits_sixteen_bits (K : FlagBits) (b : Build) :
  well_formed K = true ->
  (forall m, forClient K b = Done m -> 0 <= mode_ m < 2 ^ 16) /\
  (forall m, forTooling K b = Done m -> 0 <= mode_ m < 2 ^ 16) /\
  (forall roles m, forNodeRoles K b roles = Done m ->
                   0 <= mode_ m < 2 ^ 16) /\
  (forall m, 0 <= mode_ m < 2 ^ 16 ->
             0 <= mode_ (upgradeToProposer K m) < 2 ^ 16) /\
  (forall m flags, 0 <= mode_ m < 2 ^ 16 -> 0 <= flags < 2 ^ 16 ->
                   0 <= mode_ (setFlags m flags) < 2 ^ 16).
Proof.
  intros Hwf. pose proof (well_formed_fits K Hwf) as Hfit.
  unfold all_bits in Hfit.
  repeat match goal with
         | H : Forall _ (_ :: _) |- _ => inversion H; subst; clear H
         end.
  assert (H0 : 0 <= mode_ default_mode < 2 ^ 16) by (cbn; lia).
  assert (Hvalid : forall x m, assert_valid K b x = Done m -> m = x).
  { intros x m. unfold assert_valid.
    destruct (negb (isValid K x) && assert_aborts b); [discriminate|].
    intros H. inversion H. reflexivity. }
  split; [|split; [|split; [|split]]].
  - intros m Hm. apply Hvalid in Hm. subst m.
    apply setFlags_range; [exact H0|]. apply bit_range. assumption.
  - intros m Hm. apply Hvalid in Hm. subst m.
    apply setFlags_range; [exact H0|].
    change (Z.lor (kIsTooling K) (kIsProposer K))
      with (mode_ (setFlags {| mode_ := kIsTooling K |} (kIsProposer K))).
    apply setFlags_range; apply bit_range; assumption.
  - intros roles m Hm. apply Hvalid in Hm. subst m.
    destruct (test roles SEQUENCER), (test roles STORAGE);
      repeat apply setFlags_range; try exact H0; apply bit_range;
      assumption.
  - intros m Hm. apply setFlags_range; [exact Hm|]. apply bit_range.
    assumption.
  - intros m flags. apply setFlags_range.
Qed.

Lemma mode_fits_sixteen_bits_witness :
  well_formed Instance.K = true /\
  0 <= mode_ (upgradeToProposer Instance.K {| mode_ := 64 |}) < 2 ^ 16.
Proof.
  split; [reflexivity|].
  destruct (mode_fits_sixteen_bits Instance.K Instance.debug eq_refl)
    as (_ & _ & _ & H & _).
  apply H. cbn. lia.
Defined.

(** X4.  A proposer is never client-only: for a well-formed declaration,
    a client-only mode has the Client flag and no other, and after
    [upgradeToProposer] no mode is client-only, a client remaining a
    client. *)
Theorem proposer_is_not_client_only (K : FlagBits) (m : t) :
  well_formed K = true ->
  (isClientOnly K m = true ->
   isClient K m = true /\ isProposer K m = false /\
   isTooling K m = false /\ isStorageMember K m = false /\
   isSequencer K m = false /\ isCoordinator K m = false) /\
  isClientOnly K (upgradeToProposer K m) = false /\
  (isClient K m = true -> isClient K (upgradeToProposer K m) = true).
Proof.
  intros Hwf. all_distinct K Hwf. split; [|split].
  - unfold isClientOnly, onlyHasFlags. intros Honly.
    apply Z.eqb_eq in Honly.
    destruct m as [x]. cbn in Honly. subst x.
    repeat match goal with |- _ /\ _ => split end;
      flag_bits; decide_bits; reflexivity.
  - unfold isClientOnly, onlyHasFlags. apply Z.eqb_neq. intros Heq.
    pose proof (upgradeToProposer_isProposer K m) as Hp.
    unfold isProposer, kIsProposer in Hp. rewrite hasFlags_bit, Heq in Hp.
    unfold kIsClient in Hp. rewrite testbit_bit in Hp.
    apply Nat.eqb_eq in Hp. congruence.
  - unfold isClient, kIsClient, upgradeToProposer. apply setFlags_keeps.
Qed.

Lemma proposer_is_not_client_only_witness :
  well_formed Instance.K = true /\
  isClientOnly Instance.K {| mode_ := 16 |} = true /\
  isClientOnly Instance.K (upgradeToProposer Instance.K {| mode_ := 16 |})
    = false.
Proof.
  split; [reflexivity|]. split; [reflexivity|].
  destruct (proposer_is_not_client_only Instance.K {| mode_ := 16 |} eq_refl)
    as (_ & H & _).
  exact H.
Defined.

(** Whatever the role set, a node's mode has neither Proposer nor Tooling
    nor Client nor Coordinator. *)
Lemma forNodeRoles_observer (K : FlagBits) (b : Build) (roles : RoleSet)
    (m : t) :
  well_formed K = true ->
  forNodeRoles K b roles = Done m ->
  isProposer K m = false /\ isTooling K m = false /\
  isClient K m = false /\ isCoordinator K m = false.
Proof.
  intros Hwf Hm. all_distinct K Hwf.
  unfold forNodeRoles, assert_valid in Hm. cbv zeta in Hm.
  destruct (negb _ && _); [discriminate|]. inversion Hm; subst m.
  destruct (test roles SEQUENCER), (test roles STORAGE);
    repeat match goal with |- _ /\ _ => split end;
    flag_bits; decide_bits; reflexivity.
Qed.

(** [upgradeToProposer] gives Proposer and touches no other flag. *)
Lemma upgradeToProposer_other_flags (K : FlagBits) (m : t) :
  well_formed K = true ->
  isTooling K (upgradeToProposer K m) = isTooling K m /\
  isClient K (upgradeToProposer K m) = isClient K m /\
  isStorageMember K (upgradeToProposer K m) = isStorageMember K m /\
  isSequencer K (upgradeToProposer K m) = isSequencer K m /\
  isCoordinator K (upgradeToProposer K m) = isCoordinator K m.
Proof.
  intros Hwf. all_distinct K Hwf.
  unfold upgradeToProposer.
  repeat match goal with |- _ /\ _ => split end;
    flag_bits; decide_bits; apply orb_false_r.
Qed.

End OperationModeFacts.

(** * Properties of the manager *)

Module NCMFacts.

Import NCM.

Section Facts.

Set Default Proof Using "Type".

Variable Payload : Type.
Variable Update : Type.
Variable Tracker : Type.
Variable UserCb : Type.
Variable empty_payload : Payload.
Variable applyUpdate :
  NodesConfiguration Payload -> Update -> Status ->
  option (NodesConfiguration Payload) * Status.
Variable serialize : NodesConfiguration Payload -> Status -> string * Status.
Variable deserialize :
  string -> Status -> option (NodesConfiguration Payload) * Status.
Variable extractConfigVersion : string -> option version_t.
Variable tracker_onNewConfig :
  Tracker -> NodesConfiguration Payload -> Tracker.
Variable extractNCUpdate : Tracker -> Z -> option Update.
Variable K : OperationMode.FlagBits.

Local Abbreviation NC := (NodesConfiguration Payload).
Local Abbreviation state := (NCM.t Payload Tracker).
Local Abbreviation CompletionCb := (NCM.CompletionCb Payload Update UserCb).
Local Abbreviation Effect := (NCM.Effect Payload Update UserCb).
Local Abbreviation invoke := (@NCM.invoke Payload Update UserCb).
Local Abbreviation update := (@NCM.update Payload Update Tracker UserCb K).
Local Abbreviation update_single :=
  (@NCM.update_single Payload Update Tracker UserCb K).
Local Abbreviation overwrite :=
  (@NCM.overwrite Payload Update Tracker UserCb K).
Local Abbreviation init := (@NCM.init Payload Update Tracker UserCb).
Local Abbreviation apply_updates :=
  (@NCM.apply_updates Payload Update Tracker UserCb applyUpdate).
Local Abbreviation getLatestKnownConfig :=
  (@NCM.getLatestKnownConfig Payload Tracker empty_payload).
Local Abbreviation onUpdateRequest :=
  (@NCM.onUpdateRequest Payload Update Tracker UserCb empty_payload
     applyUpdate serialize K).
Local Abbreviation run_store_callback :=
  (@NCM.run_store_callback Payload Update UserCb deserialize
     extractConfigVersion).
Local Abbreviation maybeProcessStagedConfig :=
  (@NCM.maybeProcessStagedConfig Payload Update Tracker UserCb).
Local Abbreviation onProcessingFinished :=
  (@NCM.onProcessingFinished Payload Update Tracker UserCb).
Local Abbreviation advanceIntermediaryShardStates :=
  (@NCM.advanceIntermediaryShardStates Payload Update Tracker UserCb
     extractNCUpdate K).
Local Abbreviation onNewConfig :=
  (@NCM.onNewConfig Payload Update Tracker UserCb tracker_onNewConfig
     extractNCUpdate K).
Local Abbreviation execute :=
  (@NCM.execute Payload Update Tracker UserCb tracker_onNewConfig
     extractNCUpdate K).
Local Abbreviation run :=
  (@NCM.run Payload Update Tracker UserCb tracker_onNewConfig
     extractNCUpdate K).
Local Abbreviation reachable :=
  (@NCM.reachable Payload Update Tracker UserCb tracker_onNewConfig
     extractNCUpdate K).
Local Abbreviation is_store_write :=
  (@NCM.is_store_write Payload Update UserCb).
Local Abbreviation is_post := (@NCM.is_post Payload Update UserCb).
Local Abbreviation quiet := (@NCM.quiet Payload Update UserCb).
Local Abbreviation applies := (@NCM.applies Payload Update applyUpdate).
Local Abbreviation fanout_effects :=
  (@NCM.fanout_effects Payload Update UserCb).
Local Abbreviation stage := (@NCM.stage Payload Tracker tracker_onNewConfig).

(** Tactics that work on the whole context first drop the parameters the
    goal does not mention. *)
Ltac drop_unused :=
  try clear applyUpdate; try clear serialize; try clear deserialize;
  try clear extractConfigVersion; try clear tracker_onNewConfig;
  try clear extractNCUpdate; try clear empty_payload; try clear K;
  try clear UserCb; try clear Update; try clear Tracker.

Ltac run_monad :=
  unfold bind, ret, get, put, emit, emits, fail, call, with_err,
    ld_check, ld_assert, shutdownSignaled; cbn.

(** Decide the tests of a method with the equations at hand. *)
Ltac decide_tests :=
  repeat (progress
    (cbn;
     repeat match goal with
            | H : _ = true |- _ => rewrite H
            | H : _ = false |- _ => rewrite H
            | H : _ = None |- _ => rewrite H
            | H : _ = Some _ |- _ => rewrite H
            end)).

(** ** Callbacks only reach the caller, the tracer and the reporter *)

Lemma invoke_quiet (live : bool) (cb : CompletionCb) (status : Status)
    (nc : option NC) :
  Forall quiet (invoke live cb status nc).
Proof.
  induction cb as [k|cb IH updates|cb IH configuration|]; cbn.
  - repeat constructor.
  - apply Forall_app. split; [|exact IH].
    destruct (is_OK status && live); repeat constructor.
  - apply Forall_app. split; [|exact IH].
    destruct (is_OK status && live); repeat constructor.
  - destruct (is_OK status || is_VERSION_MISMATCH status);
      [constructor|].
    destruct live; repeat constructor.
Qed.

(** Without success nothing is traced: a failure reaches the caller's
    function and nothing else. *)
Lemma invoke_failure_caller (live : bool) (k : UserCb) (status : Status)
    (nc : option NC) :
  invoke live (Caller k) status nc = [CallerInvoked k status nc].
Proof. reflexivity. Qed.

(** C6.  Mode gating of the public entry points.  [update]: with shutdown
    signaled the callback is invoked with (SHUTDOWN, null); otherwise,
    without the Proposer flag, with (ACCESS, null).  [overwrite]: shutdown
    gives (SHUTDOWN, null), a mode without Tooling gives (ACCESS, null), a
    null configuration gives (INVALID_PARAM, null).  In all five cases the
    manager is left as it was and the invocation of the callback is all
    that happens; it posts no request and does not reach the store. *)
Theorem update_overwrite_gating (st : state) (updates : list Update)
    (configuration : option NC) (callback : CompletionCb) :
  (shutdown_signaled_ st = true ->
   update updates callback st =
     Done (tt, st, invoke false callback SHUTDOWN None)) /\
  (shutdown_signaled_ st = false ->
   OperationMode.isProposer K (mode_ st) = false ->
   update updates callback st =
     Done (tt, st, invoke true callback ACCESS None)) /\
  (shutdown_signaled_ st = true ->
   overwrite configuration callback st =
     Done (tt, st, invoke false callback SHUTDOWN None)) /\
  (shutdown_signaled_ st = false ->
   OperationMode.isTooling K (mode_ st) = false ->
   overwrite configuration callback st =
     Done (tt, st, invoke true callback ACCESS None)) /\
  (shutdown_signaled_ st = false ->
   OperationMode.isTooling K (mode_ st) = true ->
   configuration = None ->
   overwrite configuration callback st =
     Done (tt, st, invoke true callback INVALID_PARAM None)) /\
  (forall live status,
     Forall quiet (invoke live callback status None) /\
     forall k, callback = Caller k ->
               invoke live callback status None =
                 [CallerInvoked k status None]).
Proof.
  repeat match goal with |- _ /\ _ => split end.
  - intros Hs. unfold NCM.update. run_monad. decide_tests. reflexivity.
  - intros Hs Hp. unfold NCM.update. run_monad. decide_tests. reflexivity.
  - intros Hs. unfold NCM.overwrite. run_monad. decide_tests. reflexivity.
  - intros Hs Ht. unfold NCM.overwrite. run_monad. decide_tests.
    reflexivity.
  - intros Hs Ht ->. unfold NCM.overwrite. run_monad. decide_tests.
    reflexivity.
  - intros live status. split; [apply invoke_quiet|].
    intros k ->. reflexivity.
Qed.

(** C10.  [init] after shutdown was signaled answers [true] at once: the
    dependency layer gets no init request, the latch is not waited on, and
    the manager, its three slots included, is left as it was. *)
Theorem init_after_shutdown (st : state) (init_nc : option NC)
    (wait_until_initialized latch : bool) :
  shutdown_signaled_ st = true ->
  init init_nc wait_until_initialized latch st = Done (true, st, []).
Proof.
  intros Hs. unfold NCM.init. run_monad. decide_tests. reflexivity.
Qed.

(** Where shutdown was not signaled [init] does hand the configuration
    over, and waits if asked to. *)
Lemma init_running (st : state) (init_nc : option NC)
    (wait_until_initialized latch : bool) :
  shutdown_signaled_ st = false ->
  init init_nc wait_until_initialized latch st =
    if wait_until_initialized
    then Done (latch, st,
               [DepsInit init_nc; DcheckNotOnProcessor; TryWaitInitialized 10])
    else Done (true, st, [DepsInit init_nc]).
Proof.
  intros Hs. unfold NCM.init. run_monad. decide_tests.
  destruct wait_until_initialized; reflexivity.
Qed.

(** ** The steps of the pipeline *)

Lemma bind_Done {A B : Type} (m : M Payload Update Tracker UserCb A)
    (f : A -> M Payload Update Tracker UserCb B) (st st' : state) (b : B)
    (es : list Effect) :
  bind m f st = Done (b, st', es) ->
  exists a st1 es1 es2,
    m st = Done (a, st1, es1) /\ f a st1 = Done (b, st', es2) /\
    es = es1 ++ es2.
Proof.
  unfold bind. destruct (m st) as [[[a st1] es1]|x] eqn:Hm; [|discriminate].
  destruct (f a st1) as [[[b' st2] es2]|x] eqn:Hf; [|discriminate].
  intros H. inversion H; subst. exists a, st1, es1, es2. auto.
Qed.

Lemma maybeProcess_idle (b : Build) (st : state) :
  staged_nodes_config_ st = None \/ pending_nodes_config_ st <> None ->
  maybeProcessStagedConfig b st = Done (tt, st, []).
Proof.
  intros H. unfold NCM.maybeProcessStagedConfig. run_monad.
  destruct (staged_nodes_config_ st) as [s|];
    destruct (pending_nodes_config_ st) as [p|]; try reflexivity.
  destruct H as [H|H]; [discriminate|]. exfalso. apply H. reflexivity.
Qed.

Lemma maybeProcess_moves (b : Build) (st : state) (s : NC) :
  staged_nodes_config_ st = Some s ->
  pending_nodes_config_ st = None ->
  check_aborts b = false \/ hasProcessedVersion st (getVersion s) = false ->
  maybeProcessStagedConfig b st = Done (tt, moved st s, fanout_effects s).
Proof.
  intros Hs Hp Hc. unfold NCM.maybeProcessStagedConfig. run_monad.
  rewrite Hs, Hp. cbn.
  destruct Hc as [Hc|Hc]; rewrite Hc; cbn; rewrite ?andb_false_r;
    reflexivity.
Qed.

Lemma maybeProcess_aborts (b : Build) (st : state) (s : NC) :
  staged_nodes_config_ st = Some s ->
  pending_nodes_config_ st = None ->
  check_aborts b = true ->
  hasProcessedVersion st (getVersion s) = true ->
  maybeProcessStagedConfig b st = Fail CheckFailure.
Proof.
  intros Hs Hp Hc Hh. unfold NCM.maybeProcessStagedConfig. run_monad.
  rewrite Hs, Hp. cbn. rewrite Hc, Hh. reflexivity.
Qed.

Lemma maybeProcess_cases (b : Build) (st st' : state) (es : list Effect) :
  maybeProcessStagedConfig b st = Done (tt, st', es) ->
  (st' = st /\ es = [] /\
   (staged_nodes_config_ st = None \/ pending_nodes_config_ st <> None)) \/
  (exists s, staged_nodes_config_ st = Some s /\
             pending_nodes_config_ st = None /\
             st' = moved st s /\ es = fanout_effects s).
Proof.
  destruct (staged_nodes_config_ st) as [s|] eqn:Hs.
  - destruct (pending_nodes_config_ st) as [p|] eqn:Hp.
    + rewrite maybeProcess_idle by (right; rewrite Hp; discriminate).
      intros H. inversion H. left. repeat split. right. discriminate.
    + destruct (check_aborts b) eqn:Hc;
        [destruct (hasProcessedVersion st (getVersion s)) eqn:Hh|].
      * rewrite (maybeProcess_aborts b st s) by assumption. discriminate.
      * rewrite (maybeProcess_moves b st s) by auto.
        intros H. inversion H. right. exists s. auto.
      * rewrite (maybeProcess_moves b st s) by auto.
        intros H. inversion H. right. exists s. auto.
  - rewrite maybeProcess_idle by (left; assumption).
    intros H. inversion H. left. auto.
Qed.

Arguments NCM.advanceIntermediaryShardStates : simpl never.
Arguments NCM.maybeProcessStagedConfig : simpl never.
Arguments NCM.update : simpl never.
Arguments NCM.update_single : simpl never.

(** Proposing from the NCM thread leaves the manager as it was and writes
    no gauge. *)
Lemma update_proposes (st : state) (updates : list Update)
    (callback : CompletionCb) :
  shutdown_signaled_ st = false ->
  OperationMode.isProposer K (mode_ st) = true ->
  update updates callback st =
    Done (tt, st, [StatIncr updates_requested;
                   PostUpdateRequest updates (UpdateTraced callback updates)]).
Proof.
  intros Hs Hp. unfold NCM.update. run_monad. decide_tests. reflexivity.
Qed.

Lemma update_single_proposes (st : state) (u : Update)
    (callback : CompletionCb) :
  shutdown_signaled_ st = false ->
  OperationMode.isProposer K (mode_ st) = true ->
  update_single u callback st =
    Done (tt, st, [StatIncr updates_requested;
                   PostUpdateRequest [u] (UpdateTraced callback [u])]).
Proof.
  intros Hs Hp. unfold NCM.update_single. run_monad. rewrite Hs.
  rewrite update_proposes by assumption. reflexivity.
Qed.

Lemma advance_idle (st : state) (now : Z) :
  OperationMode.isProposer K (mode_ st) = false \/
  shutdown_signaled_ st = true ->
  advanceIntermediaryShardStates now st = Done (tt, st, []).
Proof.
  intros H. unfold NCM.advanceIntermediaryShardStates. run_monad.
  destruct H as [H|H]; rewrite H; cbn; rewrite ?orb_true_r; reflexivity.
Qed.

Lemma advance_active (st : state) (now : Z) :
  OperationMode.isProposer K (mode_ st) = true ->
  shutdown_signaled_ st = false ->
  advanceIntermediaryShardStates now st =
    match extractNCUpdate (tracker_ st)
            (now - nodes_configuration_manager_intermediary_shard_state_timeout
                     (settings st)) with
    | Some u =>
        Done (tt, st, [StatIncr updates_requested;
                       PostUpdateRequest [u] (UpdateTraced AdvanceCb [u])])
    | None => Done (tt, st, [])
    end.
Proof.
  intros Hp Hs. unfold NCM.advanceIntermediaryShardStates. run_monad.
  rewrite Hp, Hs. cbn.
  destruct (extractNCUpdate _ _) as [u|]; [|reflexivity].
  rewrite update_single_proposes by assumption. reflexivity.
Qed.

Lemma advance_total (st : state) (now : Z) :
  exists es,
    advanceIntermediaryShardStates now st = Done (tt, st, es) /\
    forall s v, count_stat_set s v es = 0%nat.
Proof.
  destruct (OperationMode.isProposer K (mode_ st)) eqn:Hp.
  - destruct (shutdown_signaled_ st) eqn:Hs.
    + exists []. rewrite advance_idle by auto. auto.
    + rewrite advance_active by assumption.
      destruct (extractNCUpdate _ _) as [u|]; eexists; split;
        try reflexivity; intros s v; destruct s; reflexivity.
  - exists []. rewrite advance_idle by auto. auto.
Qed.

(** [onNewConfig] drops a configuration it should not stage. *)
Lemma onNewConfig_drops (b : Build) (now : Z) (nc : NC) (st : state) :
  shutdown_signaled_ st = true \/
  shouldStageVersion st (getVersion nc) = false ->
  onNewConfig b now (Some nc) st = Done (tt, st, []).
Proof.
  intros H. unfold NCM.onNewConfig. run_monad.
  destruct (shutdown_signaled_ st); [reflexivity|].
  destruct H as [H|H]; [discriminate|]. rewrite H. reflexivity.
Qed.

Lemma shouldStage_not_processed (st : state) (v : version_t) :
  shouldStageVersion st v = true -> hasProcessedVersion st v = false.
Proof.
  unfold shouldStageVersion. intros H.
  apply andb_true_iff in H. destruct H as [_ H].
  apply negb_true_iff in H. exact H.
Qed.

(** ... and otherwise stages it, tells the tracker, lets the proposer
    advance shards, and hands it on if the pending slot is free. *)
Lemma onNewConfig_stages (b : Build) (now : Z) (nc : NC) (st : state) :
  shutdown_signaled_ st = false ->
  shouldStageVersion st (getVersion nc) = true ->
  exists es_adv,
    advanceIntermediaryShardStates now (stage st nc) =
      Done (tt, stage st nc, es_adv) /\
    (forall s v, count_stat_set s v es_adv = 0%nat) /\
    onNewConfig b now (Some nc) st =
      Done (tt,
            match pending_nodes_config_ st with
            | None => moved (stage st nc) nc
            | Some _ => stage st nc
            end,
            es_adv ++ StatSet staged_version (getVersion nc) ::
              match pending_nodes_config_ st with
              | None => fanout_effects nc
              | Some _ => []
              end).
Proof.
  intros Hs Hv.
  destruct (advance_total (stage st nc) now) as (es_adv & Hadv & Hcount).
  exists es_adv. split; [exact Hadv|]. split; [exact Hcount|].
  unfold NCM.onNewConfig. run_monad. rewrite Hs, Hv. cbn.
  fold (stage st nc). rewrite Hadv.
  destruct (pending_nodes_config_ st) as [p|] eqn:Hp.
  - rewrite maybeProcess_idle by (right; cbn; rewrite Hp; discriminate).
    reflexivity.
  - rewrite (maybeProcess_moves b (stage st nc) nc); try reflexivity.
    + exact Hp.
    + right. apply shouldStage_not_processed in Hv. exact Hv.
Qed.

Lemma onProcessingFinished_cases (b : Build) (nc : option NC)
    (st st' : state) (es : list Effect) :
  onProcessingFinished b nc st = Done (tt, st', es) ->
  exists p es2,
    pending_nodes_config_ st = Some p /\
    maybeProcessStagedConfig b (publish st p) = Done (tt, st', es2) /\
    es = StatIncr config_published ::
         StatSet published_version (getVersion p) :: es2 /\
    (check_aborts b = true ->
     exists c, nc = Some c /\ getVersion c = getVersion p /\
               hasProcessedVersion st (getVersion c) = false).
Proof.
  unfold NCM.onProcessingFinished. run_monad.
  destruct nc as [c|]; cbn.
  2:{ destruct (check_aborts b); discriminate. }
  destruct (pending_nodes_config_ st) as [p|] eqn:Hp; cbn.
  2:{ destruct (check_aborts b); discriminate. }
  destruct (check_aborts b) eqn:Hc; cbn; rewrite ?andb_false_r; cbn.
  - destruct (getVersion c =? getVersion p) eqn:He; cbn; [|discriminate].
    destruct (hasProcessedVersion st (getVersion c)) eqn:Hh; cbn;
      [discriminate|].
    fold (publish st p).
    destruct (maybeProcessStagedConfig b (publish st p))
      as [[[u st2] es2]|x] eqn:Hm; [|discriminate].
    intros H. inversion H; subst.
    exists p, es2. split; [reflexivity|]. split; [assumption|].
    split; [reflexivity|]. intros _. exists c.
    split; [reflexivity|]. split; [lia|assumption].
  - fold (publish st p).
    destruct (maybeProcessStagedConfig b (publish st p))
      as [[[u st2] es2]|x] eqn:Hm; [|discriminate].
    intros H. inversion H; subst.
    exists p, es2. split; [reflexivity|]. split; [assumption|].
    split; [reflexivity|]. discriminate.
Qed.

Lemma onNewConfig_null (b : Build) (now : Z) (st st' : state)
    (es : list Effect) :
  onNewConfig b now None st = Done (tt, st', es) -> st' = st /\ es = [].
Proof.
  unfold NCM.onNewConfig. run_monad.
  destruct (check_aborts b); cbn; [discriminate|].
  destruct (shutdown_signaled_ st); [|discriminate].
  intros H. inversion H. auto.
Qed.

(** ** The order of the slots is kept *)

Ltac slots st :=
  drop_unused;
  unfold ordered, lt_version, reached, shouldStageVersion,
    isProcessingEqualOrHigherVersion, hasProcessedVersion,
    stage, NCM.stage, moved, publish, getVersion in *;
  destruct st as [?m ?down ?l ?p ?s ?tr ?i ?se ?e];
  cbn in *;
  repeat match goal with
         | c : option (NodesConfiguration _) |- _ => destruct c
         end;
  cbn in *.

Lemma ordered_stage (st : state) (nc : NC) :
  ordered st -> shouldStageVersion st (getVersion nc) = true ->
  ordered (stage st nc).
Proof. intros Ho Hv. slots st; lia. Qed.

Lemma ordered_moved (st : state) (s : NC) :
  ordered st -> staged_nodes_config_ st = Some s ->
  pending_nodes_config_ st = None -> ordered (moved st s).
Proof.
  intros Ho Hs Hp. unfold ordered, lt_version, moved in Ho |- *. cbn.
  rewrite Hs, Hp in Ho. destruct (local_nodes_config_ st); drop_unused; tauto.
Qed.

Lemma ordered_publish (st : state) (p : NC) :
  ordered st -> pending_nodes_config_ st = Some p -> ordered (publish st p).
Proof.
  intros Ho Hp. unfold ordered, lt_version, publish in Ho |- *. cbn.
  rewrite Hp in Ho. destruct (staged_nodes_config_ st); drop_unused; tauto.
Qed.

Lemma ordered_not_processed (st : state) (s : NC) :
  ordered st -> staged_nodes_config_ st = Some s ->
  hasProcessedVersion st (getVersion s) = false.
Proof.
  intros Ho Hs. unfold ordered, lt_version, hasProcessedVersion in Ho |- *.
  rewrite Hs in Ho. destruct (local_nodes_config_ st); [|reflexivity].
  unfold getVersion in Ho |- *. lia.
Qed.

Lemma maybeProcess_ordered (b : Build) (st st' : state) (es : list Effect) :
  ordered st -> maybeProcessStagedConfig b st = Done (tt, st', es) ->
  ordered st'.
Proof.
  intros Ho H. apply maybeProcess_cases in H.
  destruct H as [(-> & _)|(s & Hs & Hp & -> & _)]; [assumption|].
  apply ordered_moved; assumption.
Qed.

Lemma onNewConfig_ordered (b : Build) (now : Z) (nc : option NC)
    (st st' : state) (es : list Effect) :
  ordered st -> onNewConfig b now nc st = Done (tt, st', es) -> ordered st'.
Proof.
  intros Ho H. destruct nc as [c|].
  2:{ apply onNewConfig_null in H. destruct H as [-> _]. assumption. }
  destruct (shutdown_signaled_ st) eqn:Hs.
  { rewrite onNewConfig_drops in H by auto. inversion H; subst. assumption. }
  destruct (shouldStageVersion st (getVersion c)) eqn:Hv.
  2:{ rewrite onNewConfig_drops in H by auto. inversion H; subst.
      assumption. }
  destruct (onNewConfig_stages b now c st Hs Hv) as (es_adv & _ & _ & Heq).
  rewrite Heq in H. inversion H; subst. clear H Heq.
  pose proof (ordered_stage st c Ho Hv) as Ho1.
  destruct (pending_nodes_config_ st) as [p|] eqn:Hp; [assumption|].
  apply ordered_moved; [assumption|reflexivity|exact Hp].
Qed.

Lemma onProcessingFinished_ordered (b : Build) (nc : option NC)
    (st st' : state) (es : list Effect) :
  ordered st -> onProcessingFinished b nc st = Done (tt, st', es) ->
  ordered st'.
Proof.
  intros Ho H. apply onProcessingFinished_cases in H.
  destruct H as (p & es2 & Hp & Hm & _).
  apply (maybeProcess_ordered b (publish st p) st' es2); [|assumption].
  apply ordered_publish; assumption.
Qed.

Lemma all_empty_ordered (st : state) : all_empty st -> ordered st.
Proof.
  intros (Hl & Hp & Hs). unfold ordered, lt_version.
  rewrite ?Hl, ?Hp, ?Hs. auto.
Qed.

(** C4.  The strict order local.version < pending.version < staged.version,
    for the slots that are present, holds in every empty state and is kept
    by [onNewConfig] (staging), by [maybeProcessStagedConfig] (staged into
    pending) and by [onProcessingFinished] (pending into local), whatever
    their arguments; so it holds in every state the pipeline reaches from
    an empty one. *)
Theorem pipeline_order (b : Build) :
  (forall st : state, all_empty st -> ordered st) /\
  (forall (st st' : state) now nc es,
     ordered st -> onNewConfig b now nc st = Done (tt, st', es) ->
     ordered st') /\
  (forall (st st' : state) es,
     ordered st -> maybeProcessStagedConfig b st = Done (tt, st', es) ->
     ordered st') /\
  (forall (st st' : state) nc es,
     ordered st -> onProcessingFinished b nc st = Done (tt, st', es) ->
     ordered st') /\
  (forall st : state, reachable b st -> ordered st).
Proof.
  split; [exact all_empty_ordered|].
  split; [intros st st' now nc es; apply onNewConfig_ordered|].
  split; [intros st st' es; apply maybeProcess_ordered|].
  split; [intros st st' nc es; apply onProcessingFinished_ordered|].
  intros st Hr. induction Hr as
    [st He|st now nc st' es _ IH H|st st' es _ IH H|st nc st' es _ IH H].
  - apply all_empty_ordered, He.
  - exact (onNewConfig_ordered b now nc st st' es IH H).
  - exact (maybeProcess_ordered b st st' es IH H).
  - exact (onProcessingFinished_ordered b nc st st' es IH H).
Qed.

(** C5.  At most one pending configuration.  A call of
    [maybeProcessStagedConfig] with nothing staged, or with a pending
    configuration, returns with the manager unchanged and nothing started.
    With a staged configuration and an empty pending slot it moves the
    staged configuration into the pending slot, leaves the staged slot
    empty and the local one alone, and starts the fan-out for it.  And it
    never acts in any other situation: a call that changed a slot or
    started anything found a staged configuration and no pending one. *)
Theorem staged_to_pending_only_when_free (b : Build) (st : state) :
  (staged_nodes_config_ st = None \/ pending_nodes_config_ st <> None ->
   maybeProcessStagedConfig b st = Done (tt, st, [])) /\
  (forall s,
     staged_nodes_config_ st = Some s ->
     pending_nodes_config_ st = None ->
     check_aborts b = false \/
       hasProcessedVersion st (getVersion s) = false ->
     maybeProcessStagedConfig b st =
       Done (tt, moved st s, fanout_effects s) /\
     pending_nodes_config_ (moved st s) = Some s /\
     staged_nodes_config_ (moved st s) = None /\
     local_nodes_config_ (moved st s) = local_nodes_config_ st /\
     In (FulfillOnAllWorkers s) (fanout_effects s)) /\
  (forall st' es,
     maybeProcessStagedConfig b st = Done (tt, st', es) ->
     st' <> st \/ es <> [] ->
     exists s, staged_nodes_config_ st = Some s /\
               pending_nodes_config_ st = None /\
               pending_nodes_config_ st' = Some s).
Proof.
  split; [apply maybeProcess_idle|]. split.
  - intros s Hs Hp Hc. split; [apply maybeProcess_moves; assumption|].
    cbn. repeat split. right. right. left. reflexivity.
  - intros st' es H Hch. apply maybeProcess_cases in H.
    destruct H as [(-> & -> & _)|(s & Hs & Hp & -> & _)].
    + destruct Hch as [Hch|Hch]; exfalso; apply Hch; reflexivity.
    + exists s. repeat split; assumption.
Qed.

(** ** A version is staged, handed out and published at most once *)

Lemma count_stat_set_app (s : Stat) (v : Z) (es1 es2 : list Effect) :
  count_stat_set s v (es1 ++ es2) =
  (count_stat_set s v es1 + count_stat_set s v es2)%nat.
Proof.
  unfold count_stat_set. rewrite filter_app, length_app. reflexivity.
Qed.

Ltac settle st :=
  slots st; unfold NCM.fanout_effects, count_stat_set in *; cbn in *;
  repeat match goal with
         | |- context [Z.eqb ?a ?b] => destruct (Z.eqb_spec a b)
         end;
  cbn in *; try discriminate;
  repeat match goal with
         | H : Some _ = Some _ |- _ => inversion H; subst; clear H
         end;
  unfold getVersion in *;
  repeat split; intros; cbn in *; try lia.

(** What a call of [maybeProcessStagedConfig] adds to the counts. *)
Lemma maybeProcess_step (b : Build) (st st1 : state) (es1 : list Effect)
    (s : Stat) (v : version_t) :
  ordered st ->
  maybeProcessStagedConfig b st = Done (tt, st1, es1) ->
  (reached s st v = true ->
   reached s st1 v = true /\ count_stat_set s v es1 = 0%nat) /\
  (count_stat_set s v es1 <= 1)%nat /\
  (count_stat_set s v es1 = 1%nat -> reached s st1 v = true).
Proof.
  intros Ho H. apply maybeProcess_cases in H.
  destruct H as [(-> & -> & _)|(c & Hs & Hp & -> & ->)].
  - cbn. repeat split; auto; lia.
  - destruct s; settle st.
Qed.

Lemma execute_step (b : Build) (r : Request Payload) (st st1 : state)
    (es1 : list Effect) (s : Stat) (v : version_t) :
  ordered st ->
  execute b r st = Done (tt, st1, es1) ->
  ordered st1 /\
  (reached s st v = true ->
   reached s st1 v = true /\ count_stat_set s v es1 = 0%nat) /\
  (count_stat_set s v es1 <= 1)%nat /\
  (count_stat_set s v es1 = 1%nat -> reached s st1 v = true).
Proof.
  intros Ho H. destruct r as [now nc|nc]; cbn [NCM.execute] in H.
  - split; [exact (onNewConfig_ordered b now (Some nc) st st1 es1 Ho H)|].
    destruct (shutdown_signaled_ st) eqn:Hs.
    { rewrite onNewConfig_drops in H by auto. inversion H; subst.
      cbn. repeat split; auto; lia. }
    destruct (shouldStageVersion st (getVersion nc)) eqn:Hv.
    2:{ rewrite onNewConfig_drops in H by auto. inversion H; subst.
        cbn. repeat split; auto; lia. }
    destruct (onNewConfig_stages b now nc st Hs Hv)
      as (es_adv & _ & Hcount & Heq).
    rewrite Heq in H. inversion H; subst. clear H Heq.
    rewrite count_stat_set_app, Hcount.
    destruct s; settle st.
  - pose proof H as Hcases. apply onProcessingFinished_cases in Hcases.
    destruct Hcases as (p & es2 & Hp & Hm & -> & _).
    split; [exact (onProcessingFinished_ordered b (Some nc) st st1 _ Ho H)|].
    pose proof (ordered_publish st p Ho Hp) as Ho1.
    destruct (maybeProcess_step b (publish st p) st1 es2 s v Ho1 Hm)
      as (Hkeep & Hle & Hone).
    pose (pub := [StatIncr config_published;
                  StatSet published_version (getVersion p)] : list Effect).
    change (StatIncr config_published ::
            StatSet published_version (getVersion p) :: es2)
      with (pub ++ es2).
    rewrite count_stat_set_app.
    assert (Hpub : (reached s st v = true -> reached s (publish st p) v = true)
                   /\ (count_stat_set s v pub <= 1)%nat
                   /\ (count_stat_set s v pub <> 0%nat ->
                       reached s st v = false /\
                       reached s (publish st p) v = true)).
    { clear Hkeep Hle Hone Hm Ho1 H. subst pub. destruct s; settle st. }
    destruct Hpub as (Hmono & Hle0 & Hone0).
    destruct (Nat.eq_dec (count_stat_set s v pub) 0) as [Hz|Hnz].
    + rewrite Hz. cbn [Nat.add]. split; [|split].
      * intros Hr. apply Hkeep, Hmono, Hr.
      * exact Hle.
      * exact Hone.
    + destruct (Hone0 Hnz) as [Hf Ht]. destruct (Hkeep Ht) as [Hr1 Hc1].
      rewrite Hc1. split; [|split].
      * intros Hr. congruence.
      * lia.
      * intros _. exact Hr1.
Qed.

Lemma run_counts (b : Build) (rs : list (Request Payload)) (s : Stat)
    (v : version_t) :
  forall (st st' : state) (es : list Effect),
    ordered st ->
    run b rs st = Done (tt, st', es) ->
    ordered st' /\
    (reached s st v = true ->
     reached s st' v = true /\ count_stat_set s v es = 0%nat) /\
    (count_stat_set s v es <= 1)%nat /\
    (count_stat_set s v es = 1%nat -> reached s st' v = true).
Proof.
  induction rs as [|r rs IH]; intros st st' es Ho H.
  - inversion H; subst. unfold count_stat_set. cbn.
    split; [assumption|]. split; [auto|]. split; [lia|discriminate].
  - cbn [NCM.run] in H. apply bind_Done in H.
    destruct H as ([] & st1 & es1 & es2 & H1 & H2 & ->).
    destruct (execute_step b r st st1 es1 s v Ho H1)
      as (Ho1 & Hkeep1 & Hle1 & Hone1).
    destruct (IH st1 st' es2 Ho1 H2) as (Ho2 & Hkeep2 & Hle2 & Hone2).
    rewrite count_stat_set_app.
    split; [exact Ho2|]. split; [|split].
    + intros Hr. destruct (Hkeep1 Hr) as [Hr1 ->].
      destruct (Hkeep2 Hr1) as [Hr2 ->]. auto.
    + destruct (Nat.eq_dec (count_stat_set s v es1) 1) as [He|Hne].
      * destruct (Hkeep2 (Hone1 He)) as [_ ->]. lia.
      * lia.
    + intros Hsum.
      destruct (Nat.eq_dec (count_stat_set s v es1) 1) as [He|Hne].
      * destruct (Hkeep2 (Hone1 He)) as [Hr2 _]. exact Hr2.
      * apply Hone2. lia.
Qed.

Lemma execute_delivery_total (b : Build) (now : Z) (nc : NC) (st : state) :
  exists st' es, execute b (NewConfigRequest now nc) st = Done (tt, st', es).
Proof.
  cbn [NCM.execute].
  destruct (shutdown_signaled_ st) eqn:Hs.
  { exists st, []. apply onNewConfig_drops. auto. }
  destruct (shouldStageVersion st (getVersion nc)) eqn:Hv.
  2:{ exists st, []. apply onNewConfig_drops. auto. }
  destruct (onNewConfig_stages b now nc st Hs Hv) as (es_adv & _ & _ & Heq).
  rewrite Heq. eauto.
Qed.

Lemma deliveries_total (b : Build) (now : Z) (nc : NC) (n : nat) :
  forall st : state,
  exists st' es,
    run b (repeat (NewConfigRequest now nc) n) st = Done (tt, st', es).
Proof.
  induction n as [|n IH]; intros st; cbn [repeat NCM.run].
  - exists st, []. reflexivity.
  - destruct (execute_delivery_total b now nc st) as (st1 & es1 & H1).
    destruct (IH st1) as (st2 & es2 & H2).
    exists st2, (es1 ++ es2). unfold bind. rewrite H1, H2. reflexivity.
Qed.

Lemma shouldStage_iff (st : state) (nc : NC) :
  shouldStageVersion st (getVersion nc) = true <->
  lt_version (staged_nodes_config_ st) (Some nc) /\
  lt_version (pending_nodes_config_ st) (Some nc) /\
  lt_version (local_nodes_config_ st) (Some nc).
Proof.
  unfold shouldStageVersion, isProcessingEqualOrHigherVersion,
    hasProcessedVersion, lt_version, getVersion.
  destruct (staged_nodes_config_ st), (pending_nodes_config_ st),
    (local_nodes_config_ st); cbn; split; intros; try lia; tauto.
Qed.

(** C3.  Staging.  (1) [shouldStageVersion] accepts the version of an
    incoming configuration exactly when it is strictly above the staged,
    the pending and the local version, for the slots that are present.
    (2) With shutdown not signaled, [onNewConfig] leaves the manager, its
    three slots included, as it was when the version is not accepted, and
    (3) stages the configuration when it is: the configuration ends in the
    pending slot if that was free and in the staged slot otherwise, the
    local slot is untouched, and the staged gauge is written once.
    (4) In every run of the pipeline from an ordered state, whatever
    configurations are delivered and whatever fan-outs finish in between,
    a given version is staged at most once, handed to the workers at most
    once and published at most once.  (5) In particular delivering the
    same configuration n times in a row runs to the end and stages it, and
    hands it to the workers, at most once. *)
Theorem staging_rule (b : Build) :
  (forall (st : state) (nc : NC),
     shouldStageVersion st (getVersion nc) = true <->
     lt_version (staged_nodes_config_ st) (Some nc) /\
     lt_version (pending_nodes_config_ st) (Some nc) /\
     lt_version (local_nodes_config_ st) (Some nc)) /\
  (forall (st : state) now (nc : NC),
     shutdown_signaled_ st = false ->
     shouldStageVersion st (getVersion nc) = false ->
     onNewConfig b now (Some nc) st = Done (tt, st, [])) /\
  (forall (st : state) now (nc : NC),
     shutdown_signaled_ st = false ->
     shouldStageVersion st (getVersion nc) = true ->
     exists st' es,
       onNewConfig b now (Some nc) st = Done (tt, st', es) /\
       local_nodes_config_ st' = local_nodes_config_ st /\
       match pending_nodes_config_ st with
       | None => pending_nodes_config_ st' = Some nc /\
                 staged_nodes_config_ st' = None
       | Some p => pending_nodes_config_ st' = Some p /\
                   staged_nodes_config_ st' = Some nc
       end /\
       count_stat_set staged_version (getVersion nc) es = 1%nat) /\
  (forall (st st' : state) rs es v,
     ordered st ->
     run b rs st = Done (tt, st', es) ->
     (count_stat_set staged_version v es <= 1)%nat /\
     (count_stat_set pending_version v es <= 1)%nat /\
     (count_stat_set published_version v es <= 1)%nat) /\
  (forall (st : state) now (nc : NC) n,
     ordered st ->
     exists st' es,
       run b (repeat (NewConfigRequest now nc) n) st = Done (tt, st', es) /\
       (count_stat_set staged_version (getVersion nc) es <= 1)%nat /\
       (count_stat_set pending_version (getVersion nc) es <= 1)%nat).
Proof.
  split; [exact shouldStage_iff|].
  split; [intros st now nc Hs Hv; apply onNewConfig_drops; auto|].
  split; [|split].
  - intros st now nc Hs Hv.
    destruct (onNewConfig_stages b now nc st Hs Hv)
      as (es_adv & _ & Hcount & Heq).
    rewrite Heq. eexists. eexists. split; [reflexivity|].
    rewrite count_stat_set_app, Hcount.
    destruct (pending_nodes_config_ st) as [p|] eqn:Hp; cbn;
      rewrite ?Hp; unfold count_stat_set; cbn; rewrite Z.eqb_refl;
      repeat split.
  - intros st st' rs es v Ho H.
    destruct (run_counts b rs staged_version v st st' es Ho H)
      as (_ & _ & H1 & _).
    destruct (run_counts b rs pending_version v st st' es Ho H)
      as (_ & _ & H2 & _).
    destruct (run_counts b rs published_version v st st' es Ho H)
      as (_ & _ & H3 & _).
    auto.
  - intros st now nc n Ho.
    destruct (deliveries_total b now nc n st) as (st' & es & H).
    exists st', es. split; [exact H|].
    destruct (run_counts b _ staged_version (getVersion nc) st st' es Ho H)
      as (_ & _ & H1 & _).
    destruct (run_counts b _ pending_version (getVersion nc) st st' es Ho H)
      as (_ & _ & H2 & _).
    auto.
Qed.

(** ** The proposer *)

Lemma set_err_twice (st : state) (e1 e2 : Status) :
  set_err (set_err st e1) e2 = set_err st e2.
Proof. reflexivity. Qed.

Lemma set_err_same (st : state) : set_err st (err st) = st.
Proof. destruct st. reflexivity. Qed.

Lemma apply_updates_applies (us : list Update) :
  forall (c c' : NC) (e' : Status) (st : state),
    applies c (err st) us c' e' ->
    apply_updates c us st = Done (Some c', set_err st e', []).
Proof.
  induction us as [|u us IH]; intros c c' e' st H; inversion H; subst.
  - cbn. rewrite set_err_same. reflexivity.
  - cbn [NCM.apply_updates]. unfold bind, with_err.
    match goal with Ha : applyUpdate _ _ _ = _ |- _ => rewrite Ha end.
    rewrite (IH c1 c' e' (set_err st e1)) by assumption.
    reflexivity.
Qed.

Lemma apply_updates_fails (pre : list Update) :
  forall (c c1 : NC) (e1 e2 : Status) (u : Update) (post : list Update)
         (st : state),
    applies c (err st) pre c1 e1 ->
    applyUpdate c1 u e1 = (None, e2) ->
    apply_updates c (pre ++ u :: post) st = Done (None, set_err st e2, []).
Proof.
  induction pre as [|x pre IH]; intros c c1 e1 e2 u post st H Hu;
    inversion H; subst.
  - cbn [app NCM.apply_updates]. unfold bind, with_err. rewrite Hu.
    reflexivity.
  - cbn [app NCM.apply_updates]. unfold bind, with_err.
    match goal with Ha : applyUpdate _ x _ = _ |- _ => rewrite Ha end.
    rewrite (IH c2 c1 e1 e2 u post (set_err st e0)) by assumption.
    reflexivity.
Qed.

(** Every batch either applies as a whole or has a first update that
    fails. *)
Lemma applies_or_fails (us : list Update) :
  forall (c : NC) (e : Status),
    (exists c' e', applies c e us c' e') \/
    (exists pre u post c1 e1 e2,
       us = pre ++ u :: post /\ applies c e pre c1 e1 /\
       applyUpdate c1 u e1 = (None, e2)).
Proof.
  induction us as [|u us IH]; intros c e.
  - left. exists c, e. constructor.
  - destruct (applyUpdate c u e) as [[c1|] e1] eqn:Hu.
    + destruct (IH c1 e1) as [(c' & e' & H)|
                              (pre & x & post & c2 & e2 & e3 & -> & H & Hx)].
      * left. exists c', e'. econstructor; eassumption.
      * right. exists (u :: pre), x, post, c2, e2, e3.
        split; [reflexivity|]. split; [|exact Hx].
        econstructor; eassumption.
    + right. exists [], u, us, c, e, e1.
      split; [reflexivity|]. split; [constructor|exact Hu].
Qed.

(** The base of a proposal is a configuration of greatest version among
    the three slots, and the empty configuration when all are empty. *)
Lemma getLatestKnownConfig_max (st : state) :
  (forall c,
     In (Some c) [local_nodes_config_ st; pending_nodes_config_ st;
                  staged_nodes_config_ st] ->
     getVersion c <= getVersion (getLatestKnownConfig st)) /\
  (In (Some (getLatestKnownConfig st))
      [local_nodes_config_ st; pending_nodes_config_ st;
       staged_nodes_config_ st] \/
   (all_empty st /\ getLatestKnownConfig st = NCM.empty_nc empty_payload /\
    getVersion (getLatestKnownConfig st) = EMPTY_VERSION)).
Proof.
  drop_unused.
  unfold NCM.getLatestKnownConfig, getConfig, all_empty, NCM.max,
    getVersion.
  destruct st as [m down l p s tr i se e]; cbn.
  destruct l as [l|], p as [p|], s as [s|]; cbn;
    repeat match goal with
           | |- context [Z.gtb ?a ?b] => destruct (Z.gtb_spec a b); cbn
           end;
    (split;
     [intros c Hin;
      repeat match goal with
             | H : _ \/ _ |- _ => destruct H
             | H : Some _ = Some _ |- _ => inversion H; subst; clear H
             | H : None = Some _ |- _ => discriminate H
             | H : False |- _ => destruct H
             end; lia
     | first [left; tauto | right; repeat split; reflexivity]]).
Qed.

(** ** Requests reach the NCM thread from proposers only *)

(** [update] posts a request only when the manager is a proposer ... *)
Lemma update_posts_only_for_proposer (st st' : state)
    (updates us : list Update) (callback cb : CompletionCb)
    (es : list Effect) :
  update updates callback st = Done (tt, st', es) ->
  In (PostUpdateRequest us cb) es ->
  st' = st /\ shutdown_signaled_ st = false /\
  OperationMode.isProposer K (mode_ st) = true /\
  us = updates /\ cb = UpdateTraced callback updates.
Proof.
  destruct (shutdown_signaled_ st) eqn:Hs;
    [|destruct (OperationMode.isProposer K (mode_ st)) eqn:Hp].
  - unfold NCM.update. run_monad. rewrite Hs. cbn. rewrite Hs. cbn.
    intros H Hin. inversion H; subst. exfalso.
    pose proof (invoke_quiet false callback SHUTDOWN None) as Hq.
    rewrite Forall_forall in Hq. destruct (Hq _ Hin) as [_ Hpost].
    discriminate Hpost.
  - rewrite update_proposes by assumption.
    intros H Hin. inversion H; subst.
    destruct Hin as [Hin|[Hin|[]]]; [discriminate|].
    inversion Hin; subst. auto.
  - unfold NCM.update. run_monad. rewrite Hs, Hp. cbn. rewrite Hs. cbn.
    intros H Hin. inversion H; subst. exfalso.
    pose proof (invoke_quiet true callback ACCESS None) as Hq.
    rewrite Forall_forall in Hq. destruct (Hq _ Hin) as [_ Hpost].
    discriminate Hpost.
Qed.

(** ... and the pipeline never touches the mode, so that the request finds
    a proposer when it is handled. *)
Lemma execute_keeps_mode (b : Build) (r : Request Payload) (st st' : state)
    (es : list Effect) :
  execute b r st = Done (tt, st', es) -> mode_ st' = mode_ st.
Proof.
  destruct r as [now nc|nc]; cbn [NCM.execute]; intros H.
  - destruct (shutdown_signaled_ st) eqn:Hs.
    { rewrite onNewConfig_drops in H by auto. inversion H. reflexivity. }
    destruct (shouldStageVersion st (getVersion nc)) eqn:Hv.
    2:{ rewrite onNewConfig_drops in H by auto. inversion H. reflexivity. }
    destruct (onNewConfig_stages b now nc st Hs Hv) as (es_adv & _ & _ & Heq).
    rewrite Heq in H. inversion H.
    destruct (pending_nodes_config_ st); reflexivity.
  - apply onProcessingFinished_cases in H.
    destruct H as (p & es2 & _ & Hm & _).
    apply maybeProcess_cases in Hm.
    destruct Hm as [(-> & _)|(s & _ & _ & -> & _)]; reflexivity.
Qed.

Lemma run_keeps_mode (b : Build) (rs : list (Request Payload)) :
  forall (st st' : state) (es : list Effect),
    run b rs st = Done (tt, st', es) -> mode_ st' = mode_ st.
Proof.
  induction rs as [|r rs IH]; intros st st' es H.
  - inversion H. reflexivity.
  - cbn [NCM.run] in H. apply bind_Done in H.
    destruct H as ([] & st1 & es1 & es2 & H1 & H2 & _).
    rewrite (IH st1 st' es2 H2). exact (execute_keeps_mode b r st st1 es1 H1).
Qed.

Lemma u64_succ (v : Z) : 0 <= v < 2 ^ 64 - 1 -> u64 (v + 1) = v + 1.
Proof. intros H. unfold u64. apply Z.mod_small. lia. Qed.

(** C1.  An update request on the NCM thread, the manager being a proposer
    (requests are posted by [update] only for a proposer, and the flag is
    never cleared).
    (1) The base is a configuration of greatest version among local,
        pending and staged, and the empty configuration, of version 0,
        when all three are absent.
    (2) The updates are applied to it left to right; when the updates
        before [u] apply and [u] does not, the callback is invoked with
        ([err], null), [err] being what the failed [applyUpdate] left, and
        nothing else happens: no write to the store.
    (3) When all updates apply, to [c] say, the proposal is [c] with its
        version set to the version of the base plus one in 64-bit
        arithmetic, hence exactly to the version of the base plus one below
        the top value, however many updates the batch has; the proposal is
        serialized, and a non-empty blob is written to the store with the
        version of the base as the expected one, while an empty blob has
        the callback invoked with ([err], null) and nothing written.
    (4) Every batch falls under (2) or (3). *)
Theorem update_request_proposal (st : state) (updates : list Update)
    (callback : CompletionCb) :
  OperationMode.isProposer K (mode_ st) = true ->
  let base := getLatestKnownConfig st in
  let base_version := getVersion base in
  let live := negb (shutdown_signaled_ st) in
  ((forall c,
      In (Some c) [local_nodes_config_ st; pending_nodes_config_ st;
                   staged_nodes_config_ st] ->
      getVersion c <= base_version) /\
   (In (Some base) [local_nodes_config_ st; pending_nodes_config_ st;
                    staged_nodes_config_ st] \/
    (all_empty st /\ base = NCM.empty_nc empty_payload /\
     base_version = 0))) /\
  (forall pre u post c1 e1 e2,
     updates = pre ++ u :: post ->
     applies base (err st) pre c1 e1 ->
     applyUpdate c1 u e1 = (None, e2) ->
     onUpdateRequest updates callback st =
       Done (tt, set_err st e2, invoke live callback e2 None) /\
     Forall quiet (invoke live callback e2 None)) /\
  (forall c e1,
     applies base (err st) updates c e1 ->
     let new_config := withVersion c (u64 (base_version + 1)) in
     getVersion new_config = u64 (base_version + 1) /\
     (0 <= base_version < 2 ^ 64 - 1 ->
      getVersion new_config = base_version + 1) /\
     payload new_config = payload c /\
     onUpdateRequest updates callback st =
       let (serialized, e2) := serialize new_config e1 in
       if string_empty serialized
       then Done (tt, set_err st e2, invoke live callback e2 None)
       else Done (tt, set_err st e2,
                  [StoreUpdateConfig serialized base_version
                     (UpdateStoreCb callback new_config)])) /\
  ((exists c e1, applies base (err st) updates c e1) \/
   (exists pre u post c1 e1 e2,
      updates = pre ++ u :: post /\ applies base (err st) pre c1 e1 /\
      applyUpdate c1 u e1 = (None, e2))).
Proof.
  intros Hp base base_version live.
  split; [apply getLatestKnownConfig_max|].
  split; [|split].
  - intros pre u post c1 e1 e2 -> Ha Hu.
    split; [|apply invoke_quiet].
    unfold NCM.onUpdateRequest. unfold bind at 1. unfold get at 1.
    rewrite Hp. cbn [negb]. unfold bind at 1.
    fold base. rewrite (apply_updates_fails pre base c1 e1 e2 u post st Ha Hu).
    run_monad. reflexivity.
  - intros c e1 Ha new_config.
    split; [reflexivity|]. split; [apply u64_succ|]. split; [reflexivity|].
    unfold NCM.onUpdateRequest. unfold bind at 1. unfold get at 1.
    rewrite Hp. cbn [negb]. unfold bind at 1.
    fold base. rewrite (apply_updates_applies updates base c e1 st Ha).
    fold base_version. fold new_config. run_monad.
    destruct (serialize new_config e1) as [serialized e2].
    destruct (string_empty serialized); reflexivity.
  - apply applies_or_fails.
Qed.

(** ** The callback of the store *)


(** ** Advancing intermediary shard states *)

(** C8, as the code has it.  [advanceIntermediaryShardStates] does nothing
    without the Proposer flag or with shutdown signaled.  Otherwise it
    proposes the update the tracker extracts, if there is one, through
    [update], with its own callback.  That callback does nothing on OK and
    on VERSION_MISMATCH; on any other status it writes the rate-limited
    error line, and reports ADVANCE_INTERMEDIARY_SHARD_STATES_FAILED
    provided the manager is still there and shutdown has not been signaled;
    it never calls a caller's function. *)
Theorem advance_intermediary_shard_states (st : state) (now : Z)
    (live : bool) (status : Status) (nc : option NC) :
  (OperationMode.isProposer K (mode_ st) = false \/
   shutdown_signaled_ st = true ->
   advanceIntermediaryShardStates now st = Done (tt, st, [])) /\
  (OperationMode.isProposer K (mode_ st) = true ->
   shutdown_signaled_ st = false ->
   advanceIntermediaryShardStates now st =
     match extractNCUpdate (tracker_ st)
             (now -
              nodes_configuration_manager_intermediary_shard_state_timeout
                (settings st)) with
     | Some u =>
         Done (tt, st, [StatIncr updates_requested;
                        PostUpdateRequest [u] (UpdateTraced AdvanceCb [u])])
     | None => Done (tt, st, [])
     end) /\
  (is_OK status || is_VERSION_MISMATCH status = true ->
   invoke live AdvanceCb status nc = []) /\
  (is_OK status || is_VERSION_MISMATCH status = false ->
   invoke live AdvanceCb status nc =
     RatelimitError status ::
     (if live then [ReportEvent ADVANCE_INTERMEDIARY_SHARD_STATES_FAILED]
      else [])) /\
  (forall k s c, ~ In (CallerInvoked k s c) (invoke live AdvanceCb status nc)).
Proof.
  split; [apply advance_idle|].
  split; [apply advance_active|].
  split; [|split].
  - intros H. cbn. rewrite H. reflexivity.
  - intros H. cbn. rewrite H. reflexivity.
  - intros k s c. cbn.
    destruct (is_OK status || is_VERSION_MISMATCH status); cbn; [tauto|].
    destruct live; cbn; intuition discriminate.
Qed.

(** * Further properties of the manager *)

Local Abbreviation upgrade :=
  (@NCM.upgradeToProposer Payload Update Tracker UserCb K).
Local Abbreviation onNewConfig_serialized :=
  (@NCM.onNewConfig_serialized Payload Update Tracker UserCb deserialize
     extractConfigVersion tracker_onNewConfig extractNCUpdate K).
Local Abbreviation onHeartBeat :=
  (@NCM.onHeartBeat Payload Update Tracker UserCb extractNCUpdate K).
Local Abbreviation initOnNCM :=
  (@NCM.initOnNCM Payload Update Tracker UserCb tracker_onNewConfig
     extractNCUpdate K).
Local Abbreviation run_fanout_continuation :=
  (@NCM.run_fanout_continuation Payload Update UserCb).
Local Abbreviation shouldDoConsistentConfigFetch :=
  (@NCM.shouldDoConsistentConfigFetch Payload Tracker K).
Local Abbreviation newest_slot :=
  (@NCM.newest_slot Payload Tracker empty_payload).

(** ** Who may propose and who may overwrite *)

Lemma update_refused (st : state) (updates : list Update)
    (callback : CompletionCb) :
  shutdown_signaled_ st = false ->
  OperationMode.isProposer K (mode_ st) = false ->
  update updates callback st =
    Done (tt, st, invoke true callback ACCESS None).
Proof.
  intros Hs Hp. unfold NCM.update. run_monad. decide_tests. reflexivity.
Qed.

Lemma overwrite_refused (st : state) (configuration : option NC)
    (callback : CompletionCb) :
  shutdown_signaled_ st = false ->
  OperationMode.isTooling K (mode_ st) = false ->
  overwrite configuration callback st =
    Done (tt, st, invoke true callback ACCESS None).
Proof.
  intros Hs Hp. unfold NCM.overwrite. run_monad. decide_tests. reflexivity.
Qed.

Lemma overwrite_hands_over (st : state) (c : NC) (callback : CompletionCb) :
  shutdown_signaled_ st = false ->
  OperationMode.isTooling K (mode_ st) = true ->
  overwrite (Some c) callback st =
    Done (tt, st, [StatIncr overwrites_requested;
                   DepsOverwrite c (OverwriteTraced callback c)]).
Proof.
  intros Hs Hp. unfold NCM.overwrite. run_monad. decide_tests. reflexivity.
Qed.

(** X5.  The factories of OperationMode against the gates of the manager,
    shutdown not signaled.  A manager in the tooling mode posts the update
    request and hands an overwrite to the dependency layer.  A manager in
    the client mode, or in the mode of any role set, has both refused with
    ACCESS.  After [upgradeToProposer] the node posts update requests, and
    its overwrites are still refused with ACCESS; the upgrade changes
    nothing but the mode. *)
Theorem who_may_propose_and_overwrite (b : Build) (st : state)
    (updates : list Update) (c : NC) (callback : CompletionCb) :
  OperationMode.well_formed K = true ->
  shutdown_signaled_ st = false ->
  (OperationMode.forTooling K b = Done (mode_ st) ->
   update updates callback st =
     Done (tt, st, [StatIncr updates_requested;
                    PostUpdateRequest updates
                      (UpdateTraced callback updates)]) /\
   overwrite (Some c) callback st =
     Done (tt, st, [StatIncr overwrites_requested;
                    DepsOverwrite c (OverwriteTraced callback c)])) /\
  (OperationMode.forClient K b = Done (mode_ st) ->
   update updates callback st =
     Done (tt, st, invoke true callback ACCESS None) /\
   overwrite (Some c) callback st =
     Done (tt, st, invoke true callback ACCESS None)) /\
  (forall roles,
     OperationMode.forNodeRoles K b roles = Done (mode_ st) ->
     update updates callback st =
       Done (tt, st, invoke true callback ACCESS None) /\
     overwrite (Some c) callback st =
       Done (tt, st, invoke true callback ACCESS None) /\
     let st' :=
       set_mode st (OperationMode.upgradeToProposer K (mode_ st)) in
     upgrade st = Done (tt, st', []) /\
     update updates callback st' =
       Done (tt, st', [StatIncr updates_requested;
                       PostUpdateRequest updates
                         (UpdateTraced callback updates)]) /\
     overwrite (Some c) callback st' =
       Done (tt, st', invoke true callback ACCESS None)).
Proof.
  intros Hwf Hs. split; [|split].
  - intros Hm.
    destruct (OperationModeFacts.forTooling_flags K b Hwf)
      as (m & Hm' & _ & _ & Ht & Hp & _).
    rewrite Hm in Hm'. inversion Hm'; subst m.
    split; [apply update_proposes|apply overwrite_hands_over]; assumption.
  - intros Hm.
    destruct (OperationModeFacts.forClient_flags K b Hwf)
      as (m & Hm' & _ & _ & _ & _ & Ht & _ & _ & Hp & _).
    rewrite Hm in Hm'. inversion Hm'; subst m.
    split; [apply update_refused|apply overwrite_refused]; assumption.
  - intros roles Hm.
    destruct (OperationModeFacts.forNodeRoles_observer K b roles (mode_ st)
                Hwf Hm) as (Hp & Ht & _).
    split; [apply update_refused; assumption|].
    split; [apply overwrite_refused; assumption|].
    cbv zeta. split; [reflexivity|]. split.
    + apply update_proposes; [exact Hs|]. cbn.
      apply OperationModeFacts.upgradeToProposer_isProposer.
    + apply overwrite_refused; [exact Hs|]. cbn.
      destruct (OperationModeFacts.upgradeToProposer_other_flags K (mode_ st)
                  Hwf) as (Hk & _).
      rewrite Hk. exact Ht.
Qed.

(** X6.  The overload of [update] for one update is the overload for a
    batch on the batch of that update: same effects, same state, in every
    state of the manager. *)
Theorem update_single_is_update (st : state) (u : Update)
    (callback : CompletionCb) :
  update_single u callback st = update [u] callback st.
Proof.
  destruct (shutdown_signaled_ st) eqn:Hs.
  - unfold NCM.update_single, NCM.update. run_monad. decide_tests.
    reflexivity.
  - unfold NCM.update_single. run_monad. rewrite Hs.
    destruct (update [u] callback st) as [[[[] st2] es2]|x]; reflexivity.
Qed.

(** ** Callbacks *)

Lemma filter_caller_invoke (live : bool) (cb : CompletionCb)
    (status : Status) (nc : option NC) :
  filter is_caller_invoked (invoke live cb status nc) =
  match innermost cb with
  | Some k => [CallerInvoked k status nc]
  | None => []
  end.
Proof.
  induction cb as [k|cb IH updates|cb IH configuration|]; cbn.
  - reflexivity.
  - rewrite filter_app, IH. destruct (is_OK status && live); reflexivity.
  - rewrite filter_app, IH. destruct (is_OK status && live); reflexivity.
  - destruct (is_OK status || is_VERSION_MISMATCH status); [reflexivity|].
    destruct live; reflexivity.
Qed.

(** X7.  Whatever wrappers the manager put around it, a caller's callback
    is invoked exactly once per completion, with the status and the
    configuration of the completion, and after everything else; what comes
    before are trace samples only, and none at all unless the status is OK
    and the manager is alive.  A callback built on the advancement callback
    never calls a caller. *)
Theorem callbacks_reach_the_caller_once (live : bool) (cb : CompletionCb)
    (status : Status) (nc : option NC) :
  (forall k,
     innermost cb = Some k ->
     filter is_caller_invoked (invoke live cb status nc) =
       [CallerInvoked k status nc] /\
     exists traces,
       invoke live cb status nc = traces ++ [CallerInvoked k status nc] /\
       forallb is_trace traces = true /\
       (is_OK status && live = false -> traces = [])) /\
  (innermost cb = None ->
   filter is_caller_invoked (invoke live cb status nc) = []).
Proof.
  split.
  - intros k Hk. split; [rewrite filter_caller_invoke, Hk; reflexivity|].
    induction cb as [k0|cb IH updates|cb IH configuration|]; cbn in Hk |- *.
    + inversion Hk; subst. exists []. repeat split.
    + destruct (IH Hk) as (traces & -> & Ht & Hn).
      destruct (is_OK status && live) eqn:Hl.
      * eexists (_ :: traces). split; [reflexivity|]. split; [exact Ht|].
        discriminate.
      * exists traces. auto.
    + destruct (IH Hk) as (traces & -> & Ht & Hn).
      destruct (is_OK status && live) eqn:Hl.
      * eexists (_ :: traces). split; [reflexivity|]. split; [exact Ht|].
        discriminate.
      * exists traces. auto.
    + discriminate.
  - intros Hk. rewrite filter_caller_invoke, Hk. reflexivity.
Qed.

(** ** Shutdown *)

Lemma onNewConfig_serialized_shutdown (b : Build) (now : Z) (s : string)
    (st : state) :
  shutdown_signaled_ st = true ->
  onNewConfig_serialized b now s st =
    Done (tt, st, [StatIncr config_received]).
Proof.
  intros Hs. unfold NCM.onNewConfig_serialized. run_monad. rewrite Hs.
  reflexivity.
Qed.

Lemma execute_keeps_shutdown (b : Build) (r : Request Payload)
    (st st' : state) (es : list Effect) :
  execute b r st = Done (tt, st', es) ->
  shutdown_signaled_ st' = shutdown_signaled_ st.
Proof.
  destruct r as [now nc|nc]; cbn [NCM.execute]; intros H.
  - destruct (shutdown_signaled_ st) eqn:Hs.
    { rewrite onNewConfig_drops in H by auto. inversion H; subst.
      exact Hs. }
    destruct (shouldStageVersion st (getVersion nc)) eqn:Hv.
    2:{ rewrite onNewConfig_drops in H by auto. inversion H; subst.
        exact Hs. }
    destruct (onNewConfig_stages b now nc st Hs Hv) as (es_adv & _ & _ & Heq).
    rewrite Heq in H. inversion H.
    destruct (pending_nodes_config_ st); exact Hs.
  - apply onProcessingFinished_cases in H.
    destruct H as (p & es2 & _ & Hm & _).
    apply maybeProcess_cases in Hm.
    destruct Hm as [(-> & _)|(s & _ & _ & -> & _)]; reflexivity.
Qed.

(** X8.  Once shutdown is signaled the manager takes nothing in.  A new
    configuration is dropped, as an object and as a blob (the blob is
    counted as received, nothing more); any sequence of new-configuration
    requests leaves the manager as it was and has no effect; the overload
    of [update] for one update answers (SHUTDOWN, null); and no request of
    the pipeline ever clears the signal. *)
Theorem shutdown_freezes_intake (b : Build) (st : state) :
  shutdown_signaled_ st = true ->
  (forall now c, onNewConfig b now (Some c) st = Done (tt, st, [])) /\
  (forall now s,
     onNewConfig_serialized b now s st =
       Done (tt, st, [StatIncr config_received])) /\
  (forall rs,
     (forall r, In r rs -> exists now c, r = NewConfigRequest now c) ->
     run b rs st = Done (tt, st, [])) /\
  (forall u callback,
     update_single u callback st =
       Done (tt, st, invoke false callback SHUTDOWN None)) /\
  (forall rs st' es,
     run b rs st = Done (tt, st', es) -> shutdown_signaled_ st' = true).
Proof.
  intros Hs. split; [|split; [|split; [|split]]].
  - intros now c. apply onNewConfig_drops. auto.
  - intros now s. apply onNewConfig_serialized_shutdown, Hs.
  - intros rs. induction rs as [|r rs IH]; intros Hall; cbn [NCM.run].
    + reflexivity.
    + destruct (Hall r (or_introl eq_refl)) as (now & c & ->).
      unfold bind. cbn [NCM.execute].
      rewrite onNewConfig_drops by auto.
      rewrite IH; [reflexivity|]. intros r Hr. apply Hall. right. exact Hr.
  - intros u callback. unfold NCM.update_single. run_monad. rewrite Hs.
    cbn. rewrite Hs. reflexivity.
  - intros rs. revert Hs. generalize st.
    induction rs as [|r rs IH]; intros st0 Hs0 st' es H.
    + inversion H; subst. exact Hs0.
    + cbn [NCM.run] in H. apply bind_Done in H.
      destruct H as ([] & st1 & es1 & es2 & H1 & H2 & _).
      apply (IH st1) in H2; [exact H2|].
      rewrite (execute_keeps_shutdown b r st0 st1 es1 H1). exact Hs0.
Qed.

(** ** Blobs *)

Arguments NCM.onNewConfig : simpl never.

Lemma serialized_invalid (b : Build) (now : Z) (s : string) (st : state) :
  shutdown_signaled_ st = false ->
  extractConfigVersion s = None ->
  onNewConfig_serialized b now s st =
    Done (tt, set_err st BADMSG,
          [StatIncr config_received; StatIncr serialization_errors]).
Proof.
  intros Hs Hx. unfold NCM.onNewConfig_serialized. run_monad.
  rewrite Hs, Hx. reflexivity.
Qed.

Lemma serialized_known (b : Build) (now : Z) (s : string) (st : state)
    (v : version_t) :
  shutdown_signaled_ st = false ->
  extractConfigVersion s = Some v ->
  hasProcessedVersion st v = true ->
  onNewConfig_serialized b now s st =
    Done (tt, st, [StatIncr config_received]).
Proof.
  intros Hs Hx Hh. unfold NCM.onNewConfig_serialized. run_monad.
  rewrite Hs, Hx, Hh. reflexivity.
Qed.

Lemma serialized_undecodable (b : Build) (now : Z) (s : string)
    (st : state) (v : version_t) (e : Status) :
  shutdown_signaled_ st = false ->
  extractConfigVersion s = Some v ->
  hasProcessedVersion st v = false ->
  deserialize s (err st) = (None, e) ->
  onNewConfig_serialized b now s st =
    Done (tt, set_err st e,
          [StatIncr config_received; StatIncr serialization_errors]).
Proof.
  intros Hs Hx Hh Hd. unfold NCM.onNewConfig_serialized. run_monad.
  rewrite Hs, Hx, Hh, Hd. reflexivity.
Qed.

Lemma serialized_decoded (b : Build) (now : Z) (s : string) (st : state)
    (v : version_t) (c : NC) (e : Status) :
  shutdown_signaled_ st = false ->
  extractConfigVersion s = Some v ->
  hasProcessedVersion st v = false ->
  deserialize s (err st) = (Some c, e) ->
  onNewConfig_serialized b now s st =
    match onNewConfig b now (Some c) (set_err st e) with
    | Done (_, st', es) =>
        Done (tt, st',
              StatIncr config_received :: ReportPropagationLatency c :: es)
    | Fail x => Fail x
    end.
Proof.
  intros Hs Hx Hh Hd. unfold NCM.onNewConfig_serialized. run_monad.
  rewrite Hs, Hx, Hh, Hd. cbn.
  destruct (onNewConfig b now (Some c) (set_err st e))
    as [[[[] st'] es]|x]; reflexivity.
Qed.

(** X9.  A blob that cannot be used never reaches the slots.  With
    shutdown not signaled: a blob without a readable version leaves BADMSG
    in [err] and counts one serialization error; a blob whose version is
    already published is dropped before it is decoded, the manager staying
    exactly as it was; a blob that does not decode counts one serialization
    error and leaves the [err] of the decoder.  In all three cases the
    local, pending and staged slots are untouched and nothing is handed to
    the workers. *)
Theorem unusable_blob_is_dropped (b : Build) (now : Z) (s : string)
    (st : state) :
  shutdown_signaled_ st = false ->
  (extractConfigVersion s = None ->
   onNewConfig_serialized b now s st =
     Done (tt, set_err st BADMSG,
           [StatIncr config_received; StatIncr serialization_errors])) /\
  (forall v,
     extractConfigVersion s = Some v ->
     hasProcessedVersion st v = true ->
     onNewConfig_serialized b now s st =
       Done (tt, st, [StatIncr config_received])) /\
  (forall v e,
     extractConfigVersion s = Some v ->
     hasProcessedVersion st v = false ->
     deserialize s (err st) = (None, e) ->
     onNewConfig_serialized b now s st =
       Done (tt, set_err st e,
             [StatIncr config_received; StatIncr serialization_errors])) /\
  (forall e,
     local_nodes_config_ (set_err st e) = local_nodes_config_ st /\
     pending_nodes_config_ (set_err st e) = pending_nodes_config_ st /\
     staged_nodes_config_ (set_err st e) = staged_nodes_config_ st).
Proof.
  intros Hs. split; [|split; [|split]].
  - apply serialized_invalid, Hs.
  - intros v. apply serialized_known, Hs.
  - intros v e. apply serialized_undecodable, Hs.
  - intros e. repeat split.
Qed.

Lemma onNewConfig_total (b : Build) (now : Z) (c : NC) (st : state) :
  exists st' es,
    onNewConfig b now (Some c) st = Done (tt, st', es) /\
    (ordered st -> ordered st').
Proof.
  destruct (execute_delivery_total b now c st) as (st' & es & H).
  cbn [NCM.execute] in H. exists st', es. split; [exact H|].
  intros Ho. exact (onNewConfig_ordered b now (Some c) st st' es Ho H).
Qed.

(** X10.  Delivering a blob never trips a check, in any state and any
    build, and keeps the slots in order.  When the blob is taken (shutdown
    not signaled, a version not yet published, a blob that decodes), the
    delivery is the delivery of the decoded configuration, after the
    receipt is counted and the propagation latency reported. *)
Theorem blob_delivery (b : Build) (now : Z) (s : string) (st : state) :
  (exists st' es,
     onNewConfig_serialized b now s st = Done (tt, st', es) /\
     (ordered st -> ordered st')) /\
  (forall v c e,
     shutdown_signaled_ st = false ->
     extractConfigVersion s = Some v ->
     hasProcessedVersion st v = false ->
     deserialize s (err st) = (Some c, e) ->
     exists st' es,
       onNewConfig b now (Some c) (set_err st e) = Done (tt, st', es) /\
       onNewConfig_serialized b now s st =
         Done (tt, st',
               StatIncr config_received ::
               ReportPropagationLatency c :: es)).
Proof.
  split.
  - destruct (shutdown_signaled_ st) eqn:Hs.
    { rewrite onNewConfig_serialized_shutdown by exact Hs. eauto. }
    destruct (extractConfigVersion s) as [v|] eqn:Hx.
    2:{ rewrite serialized_invalid by assumption. eauto. }
    destruct (hasProcessedVersion st v) eqn:Hh.
    { rewrite (serialized_known b now s st v) by assumption. eauto. }
    destruct (deserialize s (err st)) as [[c|] e] eqn:Hd.
    2:{ rewrite (serialized_undecodable b now s st v e) by assumption.
        eauto. }
    rewrite (serialized_decoded b now s st v c e) by assumption.
    destruct (onNewConfig_total b now c (set_err st e))
      as (st' & es & -> & Ho).
    eauto.
  - intros v c e Hs Hx Hh Hd.
    rewrite (serialized_decoded b now s st v c e) by assumption.
    destruct (onNewConfig_total b now c (set_err st e))
      as (st' & es & -> & _).
    eauto.
Qed.

(** ** The latest known configuration *)

Lemma shouldStage_latest (st : state) (v : version_t) :
  shouldStageVersion st v = true <->
  all_empty st \/ getVersion (getLatestKnownConfig st) < v.
Proof.
  drop_unused.
  unfold shouldStageVersion, isProcessingEqualOrHigherVersion,
    hasProcessedVersion, NCM.getLatestKnownConfig, getConfig, all_empty,
    NCM.max, getVersion.
  destruct st as [m down l p s tr i se e]; cbn.
  destruct l as [l|], p as [p|], s as [s|]; cbn;
    repeat match goal with
           | |- context [Z.gtb ?a ?b] => destruct (Z.gtb_spec a b); cbn
           end;
    split; intros Hx;
    try (right; lia);
    try (left; repeat split; reflexivity);
    try reflexivity;
    destruct Hx as [(Hx1 & Hx2 & Hx3)|Hx]; try discriminate; lia.
Qed.

(** X11.  A version is accepted for staging exactly when the manager holds
    nothing at all or the version is above that of the latest known
    configuration; so an empty manager accepts any version, version 0
    included, and a manager that holds something never accepts the version
    of its latest known configuration again. *)
Theorem shouldStage_iff_above_latest (st : state) (v : version_t) :
  (shouldStageVersion st v = true <->
   all_empty st \/ getVersion (getLatestKnownConfig st) < v) /\
  (all_empty st -> shouldStageVersion st EMPTY_VERSION = true) /\
  (~ all_empty st ->
   shouldStageVersion st (getVersion (getLatestKnownConfig st)) = false).
Proof.
  split; [apply shouldStage_latest|]. split.
  - intros He. apply shouldStage_latest. left. exact He.
  - intros Hne.
    destruct (shouldStageVersion st (getVersion (getLatestKnownConfig st)))
      eqn:Hv; [|reflexivity].
    apply shouldStage_latest in Hv. destruct Hv as [Hv|Hv]; [tauto|lia].
Qed.

(** X14.  With the slots in order the latest known configuration is the
    staged one if there is one, else the pending one, else the local one,
    else the empty configuration. *)
Theorem latest_known_is_newest_slot (st : state) :
  ordered st -> getLatestKnownConfig st = newest_slot st.
Proof.
  drop_unused.
  unfold ordered, lt_version, NCM.getLatestKnownConfig, NCM.newest_slot,
    getConfig, NCM.max, getVersion.
  destruct st as [m down l p s tr i se e]; cbn.
  destruct l as [l|], p as [p|], s as [s|]; cbn; intros (H1 & H2 & H3);
    repeat match goal with
           | |- context [Z.gtb ?a ?b] => destruct (Z.gtb_spec a b); cbn
           end;
    try reflexivity; lia.
Qed.

Lemma not_staged_is_known (st : state) (v : version_t) :
  shouldStageVersion st v = false ->
  exists c,
    In (Some c) [local_nodes_config_ st; pending_nodes_config_ st;
                 staged_nodes_config_ st] /\
    v <= getVersion c.
Proof.
  drop_unused.
  unfold shouldStageVersion, isProcessingEqualOrHigherVersion,
    hasProcessedVersion, getVersion.
  destruct st as [m down l p s tr i se e]; cbn.
  destruct l as [l|], p as [p|], s as [s|]; cbn; intros Hx;
    try discriminate;
    repeat match goal with
           | Hy : context [Z.ltb ?a ?b] |- _ =>
               destruct (Z.ltb_spec a b); cbn in Hy
           | Hy : context [Z.geb ?a ?b] |- _ =>
               destruct (Z.geb_spec a b); cbn in Hy
           end;
    try discriminate;
    first [exists l; split; [auto 6|lia]
          |exists p; split; [auto 6|lia]
          |exists s; split; [auto 6|lia]].
Qed.

Lemma slot_is_known (st : state) (c : NC) :
  In (Some c) [local_nodes_config_ st; pending_nodes_config_ st;
               staged_nodes_config_ st] ->
  shouldStageVersion st (getVersion c) = false.
Proof.
  drop_unused.
  unfold shouldStageVersion, isProcessingEqualOrHigherVersion,
    hasProcessedVersion, getVersion.
  destruct st as [m down l p s tr i se e]; cbn.
  intros [H|[H|[H|[]]]]; subst;
    repeat match goal with
           | |- context [match ?x with Some _ => _ | None => _ end] =>
               destruct x
           end; lia.
Qed.

(** X15.  Publishing is monotonic.  Along every run of the pipeline from
    an ordered state the local configuration never disappears and its
    version never goes down; a version at or below the local one is never
    published again; and every configuration held in a slot at the start
    is at or below the latest known configuration at the end. *)
Theorem publish_is_monotonic (b : Build) (rs : list (Request Payload))
    (st st' : state) (es : list Effect) :
  ordered st ->
  run b rs st = Done (tt, st', es) ->
  le_version (local_nodes_config_ st) (local_nodes_config_ st') /\
  (forall v, hasProcessedVersion st v = true ->
             count_stat_set published_version v es = 0%nat) /\
  (forall c,
     In (Some c) [local_nodes_config_ st; pending_nodes_config_ st;
                  staged_nodes_config_ st] ->
     getVersion c <= getVersion (getLatestKnownConfig st')).
Proof.
  intros Ho H. split; [|split].
  - destruct (local_nodes_config_ st) as [l|] eqn:Hl; [|exact I].
    destruct (run_counts b rs published_version (getVersion l) st st' es
                Ho H) as (_ & Hkeep & _).
    cbn [reached] in Hkeep. unfold hasProcessedVersion in Hkeep.
    rewrite Hl in Hkeep. destruct Hkeep as [Hk _]; [lia|].
    unfold le_version. destruct (local_nodes_config_ st'); [lia|].
    discriminate.
  - intros v Hv.
    destruct (run_counts b rs published_version v st st' es Ho H)
      as (_ & Hkeep & _).
    apply Hkeep. exact Hv.
  - intros c Hc.
    destruct (run_counts b rs staged_version (getVersion c) st st' es Ho H)
      as (_ & Hkeep & _).
    cbn [reached] in Hkeep. rewrite (slot_is_known st c Hc) in Hkeep.
    destruct (Hkeep eq_refl) as [Hk _]. apply negb_true_iff in Hk.
    destruct (not_staged_is_known st' (getVersion c) Hk) as (c' & Hin & Hle).
    destruct (getLatestKnownConfig_max st') as [Hmax _].
    specialize (Hmax c' Hin). lia.
Qed.

(** ** The fan-out *)

Lemma onProcessingFinished_publishes (b : Build) (nc p : NC) (st : state) :
  pending_nodes_config_ st = Some p ->
  getVersion nc = getVersion p ->
  hasProcessedVersion st (getVersion nc) = false ->
  onProcessingFinished b (Some nc) st =
    match maybeProcessStagedConfig b (publish st p) with
    | Done (_, st2, es2) =>
        Done (tt, st2,
              StatIncr config_published ::
              StatSet published_version (getVersion p) :: es2)
    | Fail x => Fail x
    end.
Proof.
  intros Hp Hv Hh. unfold NCM.onProcessingFinished. run_monad.
  rewrite Hp. cbn. rewrite Hv, Z.eqb_refl. rewrite Hv in Hh. rewrite Hh.
  cbn. fold (publish st p).
  destruct (maybeProcessStagedConfig b (publish st p))
    as [[[[] st2] es2]|x]; reflexivity.
Qed.

Lemma maybeProcess_total (b : Build) (st : state) :
  ordered st ->
  exists st' es, maybeProcessStagedConfig b st = Done (tt, st', es).
Proof.
  intros Ho.
  destruct (staged_nodes_config_ st) as [s|] eqn:Hs.
  - destruct (pending_nodes_config_ st) as [p|] eqn:Hp.
    + rewrite maybeProcess_idle by (right; rewrite Hp; discriminate). eauto.
    + rewrite (maybeProcess_moves b st s); eauto.
      right. apply ordered_not_processed; assumption.
  - rewrite maybeProcess_idle by (left; assumption). eauto.
Qed.

Lemma pending_not_processed (st : state) (p : NC) :
  ordered st -> pending_nodes_config_ st = Some p ->
  hasProcessedVersion st (getVersion p) = false.
Proof.
  intros Ho Hp. unfold ordered, lt_version, hasProcessedVersion in Ho |- *.
  rewrite Hp in Ho. destruct (local_nodes_config_ st); [|reflexivity].
  unfold getVersion in Ho |- *. lia.
Qed.

(** X16.  The round trip of a fan-out.  From an ordered state with a
    staged configuration and no pending one, [maybeProcessStagedConfig]
    starts the fan-out; its continuation, the workers done and the manager
    alive, posts the processing-finished request for that configuration
    (and posts nothing when the manager is gone or shutting down); and
    handling that request passes every check in every build, publishes the
    configuration as the local one, posts the initialization latch and
    leaves the pending and staged slots empty. *)
Theorem fan_out_round_trip (b : Build) (st : state) (s : NC) :
  ordered st ->
  staged_nodes_config_ st = Some s ->
  pending_nodes_config_ st = None ->
  maybeProcessStagedConfig b st = Done (tt, moved st s, fanout_effects s) /\
  run_fanout_continuation b true s true =
    Done (tt, [PostProcessingFinishedRequest s]) /\
  run_fanout_continuation b false s true = Done (tt, []) /\
  onProcessingFinished b (Some s) (moved st s) =
    Done (tt, publish (moved st s) s,
          [StatIncr config_published;
           StatSet published_version (getVersion s)]) /\
  local_nodes_config_ (publish (moved st s) s) = Some s /\
  pending_nodes_config_ (publish (moved st s) s) = None /\
  staged_nodes_config_ (publish (moved st s) s) = None /\
  initialized_ (publish (moved st s) s) = true.
Proof.
  intros Ho Hs Hp.
  pose proof (ordered_not_processed st s Ho Hs) as Hh.
  split; [apply maybeProcess_moves; auto|].
  split; [reflexivity|]. split; [reflexivity|].
  split; [|repeat split].
  rewrite (onProcessingFinished_publishes b s s (moved st s));
    [|reflexivity|reflexivity|exact Hh].
  rewrite maybeProcess_idle by (left; reflexivity). reflexivity.
Qed.

(** X20.  The checks of the pipeline never fire on its own traffic, in any
    build: delivering a configuration never fails, in any state at all;
    with the slots in order [maybeProcessStagedConfig] never fails, and
    neither does [onProcessingFinished] for the pending configuration. *)
Theorem checks_never_fire (b : Build) (st : state) :
  (forall now c,
     exists st' es, onNewConfig b now (Some c) st = Done (tt, st', es)) /\
  (ordered st ->
   exists st' es, maybeProcessStagedConfig b st = Done (tt, st', es)) /\
  (forall p,
     ordered st ->
     pending_nodes_config_ st = Some p ->
     exists st' es,
       onProcessingFinished b (Some p) st = Done (tt, st', es) /\
       local_nodes_config_ st' = Some p).
Proof.
  split; [|split].
  - intros now c. destruct (onNewConfig_total b now c st) as (st' & es & H & _).
    eauto.
  - apply maybeProcess_total.
  - intros p Ho Hp.
    rewrite (onProcessingFinished_publishes b p p st);
      [|exact Hp|reflexivity|apply pending_not_processed; assumption].
    pose proof (ordered_publish st p Ho Hp) as Ho1.
    destruct (maybeProcess_total b (publish st p) Ho1) as (st' & es & Hm).
    rewrite Hm. exists st'. eexists. split; [reflexivity|].
    apply maybeProcess_cases in Hm.
    destruct Hm as [(-> & _)|(s & _ & _ & -> & _)]; reflexivity.
Qed.

(** ** A proposal, from the request to the pipeline *)

Lemma onUpdateRequest_writes (st : state) (updates : list Update)
    (callback : CompletionCb) (c : NC) (e1 : Status) :
  OperationMode.isProposer K (mode_ st) = true ->
  applies (getLatestKnownConfig st) (err st) updates c e1 ->
  onUpdateRequest updates callback st =
    let base_version := getVersion (getLatestKnownConfig st) in
    let new_config := withVersion c (u64 (base_version + 1)) in
    let (serialized, e2) := serialize new_config e1 in
    if string_empty serialized
    then Done (tt, set_err st e2,
               invoke (negb (shutdown_signaled_ st)) callback e2 None)
    else Done (tt, set_err st e2,
               [StoreUpdateConfig serialized base_version
                  (UpdateStoreCb callback new_config)]).
Proof.
  intros Hp Ha.
  unfold NCM.onUpdateRequest. unfold bind at 1. unfold get at 1.
  rewrite Hp. cbn [negb]. unfold bind at 1.
  rewrite (apply_updates_applies updates _ c e1 st Ha).
  run_monad.
  destruct (serialize _ e1) as [serialized e2].
  destruct (string_empty serialized); reflexivity.
Qed.

Lemma store_callback_ok (b : Build) (live : bool) (thread_err : Status)
    (callback : CompletionCb) (new_config : NC) (stored_data : string) :
  run_store_callback b live thread_err (UpdateStoreCb callback new_config)
    OK (getVersion new_config) stored_data =
    Done (tt, (if live then [PostNewConfigRequest new_config] else []) ++
              invoke live callback OK (Some new_config)).
Proof.
  unfold NCM.run_store_callback. cbn. rewrite Z.eqb_refl.
  unfold w_check, notify_ncm_of_new_config, wbind, wret, wemits. cbn.
  destruct live; reflexivity.
Qed.

Lemma store_callback_mismatch (b : Build) (live : bool)
    (thread_err : Status) (callback : CompletionCb)
    (new_config stored_nc : NC) (stored_version : version_t)
    (stored_data : string) :
  stored_version <> EMPTY_VERSION ->
  string_empty stored_data = false ->
  fst (deserialize stored_data thread_err) = Some stored_nc ->
  kIsDebug b = false \/
    (extractConfigVersion stored_data = Some stored_version /\
     getVersion new_config < stored_version) ->
  run_store_callback b live thread_err (UpdateStoreCb callback new_config)
    VERSION_MISMATCH stored_version stored_data =
    Done (tt, (if live then [PostNewConfigRequest stored_nc] else []) ++
              invoke live callback VERSION_MISMATCH (Some stored_nc)).
Proof.
  intros Hv He Hd Hdbg. unfold NCM.run_store_callback.
  replace (stored_version =? EMPTY_VERSION) with false
    by (symmetry; apply Z.eqb_neq; exact Hv).
  rewrite He. cbn [is_VERSION_MISMATCH negb andb].
  unfold NCM.debug_asserts. rewrite Hd.
  destruct Hdbg as [Hdbg|[Hx Hgt]].
  - rewrite Hdbg.
    unfold w_assert, notify_ncm_of_new_config, wbind, wret, wemits. cbn.
    destruct live; reflexivity.
  - rewrite Hx.
    replace (stored_version =? stored_version) with true
      by (symmetry; apply Z.eqb_refl).
    replace (stored_version >? getVersion new_config) with true
      by (symmetry; apply Z.gtb_lt; exact Hgt).
    unfold w_assert, notify_ncm_of_new_config, wbind, wret, wemits. cbn.
    destruct (kIsDebug b), live; reflexivity.
Qed.

(** A configuration above the latest known one becomes the latest known
    one when it is delivered. *)
Lemma deliver_above_latest (b : Build) (now : Z) (c : NC) (st : state) :
  shutdown_signaled_ st = false ->
  all_empty st \/ getVersion (getLatestKnownConfig st) < getVersion c ->
  exists st' es,
    onNewConfig b now (Some c) st = Done (tt, st', es) /\
    getLatestKnownConfig st' = c /\
    local_nodes_config_ st' = local_nodes_config_ st /\
    (pending_nodes_config_ st' = Some c \/ staged_nodes_config_ st' = Some c).
Proof.
  intros Hs Habove. apply shouldStage_latest in Habove.
  destruct (onNewConfig_stages b now c st Hs Habove)
    as (es_adv & _ & _ & Heq).
  rewrite Heq. eexists. eexists. split; [reflexivity|].
  clear Heq. drop_unused.
  unfold shouldStageVersion, isProcessingEqualOrHigherVersion,
    hasProcessedVersion, NCM.getLatestKnownConfig, getConfig, NCM.max,
    NCM.stage, moved, getVersion in Habove |- *.
  destruct st as [m down l p s tr i se e]; cbn in Habove |- *.
  destruct l as [l|], p as [p|], s as [s|]; cbn in Habove |- *;
    repeat match goal with
           | |- context [Z.gtb ?a ?b] => destruct (Z.gtb_spec a b); cbn
           end;
    repeat split; auto; lia.
Qed.

(** X12.  A proposal that wins.  A proposer, not shutting down, whose
    latest known version is below the top of the 64 bits, gets a batch that
    applies and a proposal that serializes.  Then [onUpdateRequest] writes
    the proposal expecting the latest known version; when the store answers
    OK the callback posts the proposal back to the manager, traces the
    update and invokes the callback given to [update] with (OK, proposal);
    and the manager, handed the proposal, takes it: the proposal is then
    its latest known configuration, one version above the former one. *)
Theorem winning_proposal_round_trip (b : Build) (now : Z) (st : state)
    (updates : list Update) (callback : CompletionCb) (c : NC)
    (e1 e2 thread_err : Status) (blob stored_data : string) :
  OperationMode.isProposer K (mode_ st) = true ->
  shutdown_signaled_ st = false ->
  let base_version := getVersion (getLatestKnownConfig st) in
  let new_config := withVersion c (u64 (base_version + 1)) in
  let wrapped := UpdateTraced callback updates in
  0 <= base_version < 2 ^ 64 - 1 ->
  applies (getLatestKnownConfig st) (err st) updates c e1 ->
  serialize new_config e1 = (blob, e2) ->
  string_empty blob = false ->
  onUpdateRequest updates wrapped st =
    Done (tt, set_err st e2,
          [StoreUpdateConfig blob base_version
             (UpdateStoreCb wrapped new_config)]) /\
  run_store_callback b true thread_err (UpdateStoreCb wrapped new_config)
    OK (getVersion new_config) stored_data =
    Done (tt, PostNewConfigRequest new_config ::
              Trace {| nc_update_gen_ := GenUpdates updates;
                       published_nc_ := Some new_config;
                       source_ := NCM_UPDATE |} ::
              invoke true callback OK (Some new_config)) /\
  exists st' es,
    onNewConfig b now (Some new_config) (set_err st e2) =
      Done (tt, st', es) /\
    getLatestKnownConfig st' = new_config /\
    getVersion (getLatestKnownConfig st') = base_version + 1.
Proof.
  intros Hp Hs base_version new_config wrapped Hrange Ha Hser Hne.
  split; [|split].
  - rewrite (onUpdateRequest_writes st updates wrapped c e1 Hp Ha).
    cbv zeta. fold base_version. fold new_config. rewrite Hser, Hne.
    reflexivity.
  - rewrite store_callback_ok. reflexivity.
  - destruct (deliver_above_latest b now new_config (set_err st e2))
      as (st' & es & Hrun & Hlatest & _).
    + exact Hs.
    + right. change (getLatestKnownConfig (set_err st e2))
        with (getLatestKnownConfig st).
      fold base_version. cbn. rewrite u64_succ by exact Hrange. lia.
    + exists st', es. split; [exact Hrun|]. split; [exact Hlatest|].
      rewrite Hlatest. cbn. apply u64_succ. exact Hrange.
Qed.

(** X13.  At the top of the version range a proposal is lost to its own
    proposer: when the latest known version is 2^64 - 1 the proposal gets
    version 0, and the manager, which then holds something, drops it on
    delivery and stays as it was. *)
Theorem proposal_wraps_at_top_version (b : Build) (now : Z) (st : state)
    (c : NC) :
  shutdown_signaled_ st = false ->
  getVersion (getLatestKnownConfig st) = 2 ^ 64 - 1 ->
  let new_config :=
    withVersion c (u64 (getVersion (getLatestKnownConfig st) + 1)) in
  getVersion new_config = 0 /\
  onNewConfig b now (Some new_config) st = Done (tt, st, []).
Proof.
  intros Hs Htop new_config.
  assert (Hv : getVersion new_config = 0).
  { unfold new_config. cbn. rewrite Htop. reflexivity. }
  split; [exact Hv|].
  apply onNewConfig_drops. right. rewrite Hv.
  destruct (shouldStageVersion st 0) eqn:Hst; [|reflexivity].
  apply shouldStage_latest in Hst. destruct Hst as [He|Hlt].
  - destruct (getLatestKnownConfig_max st) as [_ [Hin|(_ & _ & H0)]].
    + destruct He as (Hl & Hq & Hg). rewrite Hl, Hq, Hg in Hin.
      cbn in Hin. drop_unused. intuition discriminate.
    + unfold EMPTY_VERSION in H0. rewrite H0 in Htop. discriminate Htop.
  - rewrite Htop in Hlt. discriminate Hlt.
Qed.

(** X17.  A proposal that loses.  The store answers VERSION_MISMATCH with
    the version and the blob that won, the blob decoding to a configuration
    above the latest known one.  With the manager alive the callback posts
    that configuration to the manager before it invokes the caller's
    callback with (VERSION_MISMATCH, winner); and the manager, handed the
    winner, takes it as its latest known configuration. *)
Theorem lost_proposal_catches_up (b : Build) (now : Z) (st : state)
    (callback : CompletionCb) (new_config stored_nc : NC)
    (thread_err : Status) (stored_version : version_t)
    (stored_data : string) :
  shutdown_signaled_ st = false ->
  stored_version <> EMPTY_VERSION ->
  string_empty stored_data = false ->
  fst (deserialize stored_data thread_err) = Some stored_nc ->
  kIsDebug b = false \/
    (extractConfigVersion stored_data = Some stored_version /\
     getVersion new_config < stored_version) ->
  getVersion (getLatestKnownConfig st) < getVersion stored_nc ->
  run_store_callback b true thread_err (UpdateStoreCb callback new_config)
    VERSION_MISMATCH stored_version stored_data =
    Done (tt, PostNewConfigRequest stored_nc ::
              invoke true callback VERSION_MISMATCH (Some stored_nc)) /\
  exists st' es,
    onNewConfig b now (Some stored_nc) st = Done (tt, st', es) /\
    getLatestKnownConfig st' = stored_nc.
Proof.
  intros Hs Hv He Hd Hdbg Habove. split.
  - rewrite (store_callback_mismatch b true thread_err callback new_config
               stored_nc stored_version stored_data Hv He Hd Hdbg).
    reflexivity.
  - destruct (deliver_above_latest b now stored_nc st Hs (or_intror Habove))
      as (st' & es & Hrun & Hlatest & _).
    exists st', es. auto.
Qed.

(** ** Bursts *)

(** X18.  The newest staged configuration wins.  While a configuration
    is with the workers, two newer configurations arrive one after the
    other, each above what the manager holds; then the workers finish.
    The run passes every check; the first arrival is overwritten in the
    staged slot and is never handed to the workers; the second is handed
    out as soon as the pending one is published. *)
Theorem newest_staged_wins (b : Build) (t1 t2 : Z) (st : state)
    (p n1 n2 : NC) :
  ordered st ->
  shutdown_signaled_ st = false ->
  pending_nodes_config_ st = Some p ->
  lt_version (staged_nodes_config_ st) (Some n1) ->
  getVersion p < getVersion n1 ->
  getVersion n1 < getVersion n2 ->
  exists st' es,
    run b [NewConfigRequest t1 n1; NewConfigRequest t2 n2;
           ProcessingFinishedRequest p] st = Done (tt, st', es) /\
    local_nodes_config_ st' = Some p /\
    pending_nodes_config_ st' = Some n2 /\
    staged_nodes_config_ st' = None /\
    count_stat_set pending_version (getVersion n1) es = 0%nat /\
    count_stat_set pending_version (getVersion n2) es = 1%nat /\
    count_stat_set published_version (getVersion p) es = 1%nat.
Proof.
  intros Ho Hs Hp Hst Hpn Hnn.
  assert (Hv1 : shouldStageVersion st (getVersion n1) = true).
  { apply shouldStage_iff. split; [exact Hst|].
    unfold ordered, lt_version in Ho |- *. rewrite Hp in Ho |- *.
    split; [exact Hpn|].
    destruct (local_nodes_config_ st); [|exact I].
    unfold getVersion in Ho, Hpn |- *. lia. }
  destruct (onNewConfig_stages b t1 n1 st Hs Hv1)
    as (es1 & _ & Hc1 & Heq1).
  rewrite Hp in Heq1.
  pose proof (ordered_stage st n1 Ho Hv1) as Ho1.
  assert (Hv2 : shouldStageVersion (stage st n1) (getVersion n2) = true).
  { apply shouldStage_iff. cbn. rewrite Hp.
    unfold ordered, lt_version in Ho |- *. rewrite Hp in Ho.
    split; [exact Hnn|]. split; [unfold getVersion in *; lia|].
    destruct (local_nodes_config_ st); [|exact I].
    unfold getVersion in *. lia. }
  destruct (onNewConfig_stages b t2 n2 (stage st n1) Hs Hv2)
    as (es2 & _ & Hc2 & Heq2).
  cbn [pending_nodes_config_ NCM.stage set_tracker set_staged] in Heq2.
  rewrite Hp in Heq2.
  pose proof (ordered_stage (stage st n1) n2 Ho1 Hv2) as Ho2.
  set (st2 := stage (stage st n1) n2) in *.
  assert (Hp2 : pending_nodes_config_ st2 = Some p) by exact Hp.
  pose proof (pending_not_processed st2 p Ho2 Hp2) as Hh.
  assert (Hm : maybeProcessStagedConfig b (publish st2 p) =
               Done (tt, moved (publish st2 p) n2, fanout_effects n2)).
  { apply maybeProcess_moves; [reflexivity|reflexivity|].
    right. cbn. unfold getVersion in Hpn, Hnn |- *. lia. }
  exists (moved (publish st2 p) n2). eexists. split.
  - cbn [NCM.run NCM.execute]. unfold bind.
    rewrite Heq1, Heq2.
    rewrite (onProcessingFinished_publishes b p p st2 Hp2 eq_refl Hh), Hm.
    reflexivity.
  - split; [reflexivity|]. split; [reflexivity|]. split; [reflexivity|].
    rewrite !count_stat_set_app, !Hc1, !Hc2.
    unfold count_stat_set, NCM.fanout_effects. cbn.
    unfold getVersion in *.
    repeat match goal with
           | |- context [Z.eqb ?a ?c] => destruct (Z.eqb_spec a c)
           end; cbn; repeat split; lia.
Qed.

(** ** Heart beats and the cold start *)

Arguments NCM.shouldDoConsistentConfigFetch : simpl never.

Lemma onHeartBeat_reads (now : Z) (st : state) :
  exists es,
    advanceIntermediaryShardStates now st = Done (tt, st, es) /\
    onHeartBeat now st =
      Done (tt, st,
            ReadFromStore (shouldDoConsistentConfigFetch st) ::
            es ++ (if server (settings st)
                   then [CheckAndReportConsistency] else [])).
Proof.
  destruct (advance_total st now) as (es & Hadv & _).
  exists es. split; [exact Hadv|].
  unfold NCM.onHeartBeat. run_monad. rewrite Hadv.
  destruct (server (settings st)); reflexivity.
Qed.

Lemma local_stays (b : Build) (rs : list (Request Payload))
    (st st' : state) (es : list Effect) (l : NC) :
  ordered st ->
  run b rs st = Done (tt, st', es) ->
  local_nodes_config_ st = Some l ->
  exists l', local_nodes_config_ st' = Some l'.
Proof.
  intros Ho H Hl.
  destruct (run_counts b rs published_version (getVersion l) st st' es
              Ho H) as (_ & Hkeep & _).
  cbn [reached] in Hkeep. unfold hasProcessedVersion in Hkeep.
  rewrite Hl in Hkeep. destruct Hkeep as [Hk _]; [lia|].
  destruct (local_nodes_config_ st') as [l'|]; [eauto|discriminate].
Qed.

(** X19.  A consistent read of the store is asked for by storage
    members only, and only until something is published: the heart beat
    reads the store consistently exactly when the mode has StorageMember
    and the local slot is empty, it reads the store once and leaves the
    manager as it was; and once the answer is no it stays no along every
    run of the pipeline from an ordered state. *)
Theorem consistent_fetch_until_first_publish (b : Build) (now : Z)
    (st : state) :
  (shouldDoConsistentConfigFetch st = true <->
   OperationMode.isStorageMember K (mode_ st) = true /\
   local_nodes_config_ st = None) /\
  (exists es,
     onHeartBeat now st =
       Done (tt, st, ReadFromStore (shouldDoConsistentConfigFetch st) :: es)
     /\ forall c, ~ In (ReadFromStore c) es) /\
  (forall rs st' es,
     ordered st ->
     run b rs st = Done (tt, st', es) ->
     shouldDoConsistentConfigFetch st = false ->
     shouldDoConsistentConfigFetch st' = false).
Proof.
  split; [|split].
  - unfold NCM.shouldDoConsistentConfigFetch, getConfig.
    destruct (OperationMode.isStorageMember K (mode_ st)),
      (local_nodes_config_ st); cbn; split; intros H;
      try discriminate; try reflexivity; auto;
      destruct H; discriminate.
  - destruct (onHeartBeat_reads now st) as (es & Hadv & ->).
    eexists. split; [reflexivity|].
    intros c Hin. apply in_app_or in Hin. destruct Hin as [Hin|Hin].
    + destruct (OperationMode.isProposer K (mode_ st)) eqn:Hp;
        [destruct (shutdown_signaled_ st) eqn:Hs|].
      * rewrite advance_idle in Hadv by auto. inversion Hadv; subst.
        destruct Hin.
      * rewrite advance_active in Hadv by assumption.
        destruct (extractNCUpdate _ _); inversion Hadv; subst;
          cbn in Hin; drop_unused; intuition discriminate.
      * rewrite advance_idle in Hadv by auto. inversion Hadv; subst.
        destruct Hin.
    + destruct (server (settings st)); cbn in Hin; drop_unused;
        intuition discriminate.
  - intros rs st' es Ho H Hno.
    unfold NCM.shouldDoConsistentConfigFetch, getConfig in Hno |- *.
    rewrite (run_keeps_mode b rs st st' es H).
    destruct (OperationMode.isStorageMember K (mode_ st));
      [|reflexivity].
    destruct (local_nodes_config_ st) as [l|] eqn:Hl; [|discriminate].
    destruct (local_stays b rs st st' es l Ho H Hl) as (l' & ->).
    reflexivity.
Qed.

(** X21.  The cold start.  [initOnNCM] on an empty manager, shutdown not
    signaled, first reads the store, consistently exactly for a storage
    member, and ends with the initial configuration handed to the workers;
    when these are done the configuration is published: it is the local
    and the latest known configuration, the initialization latch is
    posted, and no consistent read is asked for any more. *)
Theorem cold_start (b : Build) (now : Z) (st : state) (nc : NC) :
  all_empty st ->
  shutdown_signaled_ st = false ->
  exists es st2,
    initOnNCM b now (Some nc) st =
      Done (tt, moved (stage st nc) nc,
            ReadFromStore (OperationMode.isStorageMember K (mode_ st)) ::
            es) /\
    In (FulfillOnAllWorkers nc) es /\
    pending_nodes_config_ (moved (stage st nc) nc) = Some nc /\
    onProcessingFinished b (Some nc) (moved (stage st nc) nc) =
      Done (tt, st2, [StatIncr config_published;
                      StatSet published_version (getVersion nc)]) /\
    local_nodes_config_ st2 = Some nc /\
    getLatestKnownConfig st2 = nc /\
    initialized_ st2 = true /\
    shouldDoConsistentConfigFetch st2 = false.
Proof.
  intros He Hs. pose proof He as (Hl & Hp & Hg).
  assert (Hv : shouldStageVersion st (getVersion nc) = true).
  { apply shouldStage_latest. left. exact He. }
  destruct (onHeartBeat_reads now st) as (es0 & _ & Hhb).
  destruct (onNewConfig_stages b now nc st Hs Hv) as (es1 & _ & _ & Heq).
  rewrite Hp in Heq.
  assert (Hfetch : shouldDoConsistentConfigFetch st =
                   OperationMode.isStorageMember K (mode_ st)).
  { unfold NCM.shouldDoConsistentConfigFetch, getConfig. rewrite Hl.
    apply andb_true_r. }
  set (st1 := moved (stage st nc) nc) in *.
  assert (Ho1 : ordered st1).
  { apply ordered_moved; [|reflexivity|exact Hp].
    apply ordered_stage; [apply all_empty_ordered; exact He|exact Hv]. }
  assert (Hp1 : pending_nodes_config_ st1 = Some nc) by reflexivity.
  eexists. exists (publish st1 nc). split; [|split; [|split; [|split]]].
  - unfold NCM.initOnNCM. unfold bind. rewrite Hhb.
    unfold emit, ld_assert. cbn [negb andb]. unfold ret. rewrite Heq.
    rewrite Hfetch. cbn [app]. reflexivity.
  - apply in_or_app. right. cbn. right. right. apply in_or_app. right.
    cbn. drop_unused. auto 6.
  - exact Hp1.
  - rewrite (onProcessingFinished_publishes b nc nc st1 Hp1 eq_refl
               (pending_not_processed st1 nc Ho1 Hp1)).
    rewrite maybeProcess_idle by (left; reflexivity). reflexivity.
  - split; [reflexivity|]. split; [|split; [reflexivity|]].
    + unfold NCM.getLatestKnownConfig, getConfig. cbn. reflexivity.
    + unfold NCM.shouldDoConsistentConfigFetch, getConfig. cbn.
      apply andb_false_r.
Qed.

(** ** A winner that does not decode *)

(** X22.  When the store reports a mismatch with a blob that does not
    decode, the caller is never told of a winner: a build whose assertions
    abort stops at the assertion on the decoded configuration; a build
    whose assertions do not abort dereferences the null configuration when
    the manager is alive, and hands the caller (VERSION_MISMATCH, null)
    when the manager is gone or shutting down. *)
Theorem undecodable_winner (b : Build) (live : bool) (thread_err : Status)
    (callback : CompletionCb) (new_config : NC)
    (stored_version : version_t) (stored_data : string) :
  stored_version <> EMPTY_VERSION ->
  string_empty stored_data = false ->
  fst (deserialize stored_data thread_err) = None ->
  kIsDebug b = false \/
    (extractConfigVersion stored_data = Some stored_version /\
     getVersion new_config < stored_version) ->
  run_store_callback b live thread_err (UpdateStoreCb callback new_config)
    VERSION_MISMATCH stored_version stored_data =
    if assert_aborts b then Fail CheckFailure
    else if live then Fail NullDereference
    else Done (tt, invoke false callback VERSION_MISMATCH None).
Proof.
  intros Hv He Hd Hdbg. unfold NCM.run_store_callback.
  replace (stored_version =? EMPTY_VERSION) with false
    by (symmetry; apply Z.eqb_neq; exact Hv).
  rewrite He. cbn [is_VERSION_MISMATCH negb andb].
  unfold NCM.debug_asserts. rewrite Hd.
  destruct Hdbg as [Hdbg|[Hx Hgt]].
  - rewrite Hdbg.
    unfold w_assert, notify_ncm_of_new_config, wbind, wret, wemits. cbn.
    destruct (assert_aborts b), live; reflexivity.
  - rewrite Hx.
    replace (stored_version =? stored_version) with true
      by (symmetry; apply Z.eqb_refl).
    replace (stored_version >? getVersion new_config) with true
      by (symmetry; apply Z.gtb_lt; exact Hgt).
    unfold w_assert, notify_ncm_of_new_config, wbind, wret, wemits. cbn.
    destruct (kIsDebug b), (assert_aborts b), live; reflexivity.
Qed.

End Facts.

End NCMFacts.

(** * Properties of SequencerWorkflow *)

Module SequencerWorkflowFacts.

Import SequencerWorkflow.

(** C9.  The move assignment of SequencerWorkflow ignores its right-hand
    side: [a = std::move(b)] returns a reference to [a], leaves every
    object of the store as it was, in particular the node index, the target
    state, the current sequencing state and the skip flag of [a], and has
    the same result whatever [b] is. *)
Theorem move_assign_ignores_rhs (S : Type) (s : Store S) (a b : addr) :
  snd (move_assign s a b) = a /\
  (forall x, fst (move_assign s a b) x = s x) /\
  (forall wa,
     s a = Some wa ->
     exists wa',
       fst (move_assign s a b) a = Some wa' /\
       getNodeIndex wa' = getNodeIndex wa /\
       target_op_state_ wa' = target_op_state_ wa /\
       current_sequencing_state_ wa' = current_sequencing_state_ wa /\
       skip_safety_check_ wa' = skip_safety_check_ wa) /\
  (forall b', move_assign s a b' = move_assign s a b).
Proof.
  split; [reflexivity|]. split; [reflexivity|]. split; [|reflexivity].
  intros wa Ha. exists wa. cbn. rewrite Ha. repeat split.
Qed.

(** The defaulted move constructor next to it does take the fields of its
    argument. *)
Lemma move_construct_copies (S : Type) (wf : t S) : move_construct wf = wf.
Proof. destruct wf. reflexivity. Qed.

(** After [a = std::move(b)] the workflow at 0 is still the one for node
    3, where a member by member assignment would have made it the one for
    node 5. *)
Lemma move_assign_ignores_rhs_witness :
  Instance.two_workflows 0%nat =
    Some (Instance.workflow 3 Instance.ENABLED false) /\
  fst (move_assign Instance.two_workflows 0%nat 1%nat) 0%nat =
    Some (Instance.workflow 3 Instance.ENABLED false) /\
  fst (memberwise_move_assign Instance.two_workflows 0%nat 1%nat) 0%nat =
    Some (Instance.workflow 5 Instance.DISABLED true).
Proof.
  split; [reflexivity|]. split; [|reflexivity].
  destruct (move_assign_ignores_rhs _ Instance.two_workflows 0%nat 1%nat)
    as (_ & Hsame & _).
  rewrite Hsame. reflexivity.
Defined.

End SequencerWorkflowFacts.

(** * The properties at work on the small instance *)

Module Examples.

Import NCM.
Import Instance.

(** A proposer that has published version 7 is handed one update: it
    writes version 8 to the store, expecting version 7 there. *)
Lemma update_request_proposal_witness :
  OperationMode.isProposer K (mode_ proposer_v7) = true /\
  onUpdateRequest [3%nat] (Caller 0%nat) proposer_v7 =
    Done (tt, proposer_v7,
          [StoreUpdateConfig (blob_of 8) 7
             (UpdateStoreCb (Caller 0%nat) (nc 8 [3%nat]))]).
Proof.
  split; [reflexivity|].
  pose proof (NCMFacts.update_request_proposal Payload Update Tracker UserCb
                [] applyUpdate serialize K proposer_v7 [3%nat]
                (Caller 0%nat) eq_refl) as H.
  cbv zeta in H. destruct H as (_ & _ & H & _).
  destruct (H (nc 8 [3%nat]) OK) as (_ & _ & _ & Hrun).
  - econstructor; [reflexivity|constructor].
  - exact Hrun.
Defined.



(** Version 8 arrives at a manager that has published version 7 and has
    nothing in flight: it goes to the workers at once. *)
Lemma staging_rule_witness :
  shutdown_signaled_ client_v7 = false /\
  shouldStageVersion client_v7 (getVersion nc8) = true /\
  exists st' es,
    onNewConfig debug 0 (Some nc8) client_v7 = Done (tt, st', es) /\
    pending_nodes_config_ st' = Some nc8 /\
    count_stat_set staged_version 8 es = 1%nat.
Proof.
  split; [reflexivity|]. split; [reflexivity|].
  destruct (NCMFacts.staging_rule Payload Update Tracker UserCb
              tracker_onNewConfig extractNCUpdate K debug)
    as (_ & _ & H & _).
  destruct (H client_v7 0 nc8 eq_refl eq_refl)
    as (st' & es & Hrun & _ & Hslots & Hcount).
  exists st', es. split; [exact Hrun|]. split; [|exact Hcount].
  cbn in Hslots. destruct Hslots as [Hp _]. exact Hp.
Defined.

(** Version 7 arrives at an empty manager and is published; versions 8
    and 9 arrive while 8 is with the workers.  The state with all three
    slots filled is reached, and ordered: 7 < 8 < 9. *)
Lemma pipeline_order_witness :
  NCM.reachable Payload Update Tracker UserCb tracker_onNewConfig
    extractNCUpdate K debug client_v7_v8_v9 /\
  ordered client_v7_v8_v9 /\
  (getVersion nc7 < getVersion nc8 /\ getVersion nc8 < getVersion nc9).
Proof.
  assert (H1 : NCM.reachable Payload Update Tracker UserCb
                 tracker_onNewConfig extractNCUpdate K debug
                 client_v7_pending).
  { apply (reach_onNewConfig Payload Update Tracker UserCb
             tracker_onNewConfig extractNCUpdate K debug client_empty 0
             (Some nc7) client_v7_pending
             [StatSet staged_version 7; StatSet pending_version 7;
              UpdateNCMNodesConfiguration nc7; FulfillOnAllWorkers nc7]).
    - apply reach_empty. repeat split.
    - reflexivity. }
  assert (H2 : NCM.reachable Payload Update Tracker UserCb
                 tracker_onNewConfig extractNCUpdate K debug
                 client_v7_local).
  { apply (reach_onProcessingFinished Payload Update Tracker UserCb
             tracker_onNewConfig extractNCUpdate K debug client_v7_pending
             (Some nc7) client_v7_local
             [StatIncr config_published; StatSet published_version 7]).
    - exact H1.
    - reflexivity. }
  assert (H3 : NCM.reachable Payload Update Tracker UserCb
                 tracker_onNewConfig extractNCUpdate K debug
                 client_v7_v8).
  { apply (reach_onNewConfig Payload Update Tracker UserCb
             tracker_onNewConfig extractNCUpdate K debug client_v7_local 0
             (Some nc8) client_v7_v8
             [StatSet staged_version 8; StatSet pending_version 8;
              UpdateNCMNodesConfiguration nc8; FulfillOnAllWorkers nc8]).
    - exact H2.
    - reflexivity. }
  assert (H4 : NCM.reachable Payload Update Tracker UserCb
                 tracker_onNewConfig extractNCUpdate K debug
                 client_v7_v8_v9).
  { apply (reach_onNewConfig Payload Update Tracker UserCb
             tracker_onNewConfig extractNCUpdate K debug client_v7_v8 0
             (Some nc9) client_v7_v8_v9 [StatSet staged_version 9]).
    - exact H3.
    - reflexivity. }
  split; [exact H4|].
  destruct (NCMFacts.pipeline_order Payload Update Tracker UserCb
              tracker_onNewConfig extractNCUpdate K debug)
    as (_ & _ & _ & _ & H).
  pose proof (H client_v7_v8_v9 H4) as Ho.
  split; [exact Ho|].
  destruct Ho as (_ & Hps & _).
  destruct (H client_v7_v8 H3) as (Hlp & _).
  split; [exact Hlp|exact Hps].
Defined.

(** Version 8 is staged and nothing is pending: it becomes the pending
    configuration and its fan-out starts. *)
Lemma staged_to_pending_only_when_free_witness :
  staged_nodes_config_ client_v7_staged_v8 = Some nc8 /\
  pending_nodes_config_ client_v7_staged_v8 = None /\
  hasProcessedVersion client_v7_staged_v8 (getVersion nc8) = false /\
  maybeProcessStagedConfig debug client_v7_staged_v8 =
    Done (tt, manager client_mode false (Some nc7) (Some nc8) None,
          [StatSet pending_version 8; UpdateNCMNodesConfiguration nc8;
           FulfillOnAllWorkers nc8]).
Proof.
  split; [reflexivity|]. split; [reflexivity|]. split; [reflexivity|].
  destruct (NCMFacts.staged_to_pending_only_when_free Payload Update Tracker
              UserCb debug client_v7_staged_v8) as (_ & H & _).
  destruct (H nc8 eq_refl eq_refl (or_intror eq_refl)) as (Hrun & _).
  exact Hrun.
Defined.

(** A client is no proposer: its update is refused with ACCESS. *)
Lemma update_overwrite_gating_witness :
  shutdown_signaled_ client_v7 = false /\
  OperationMode.isProposer K (mode_ client_v7) = false /\
  update [3%nat] (Caller 0%nat) client_v7 =
    Done (tt, client_v7, [CallerInvoked 0%nat ACCESS None]).
Proof.
  split; [reflexivity|]. split; [reflexivity|].
  destruct (NCMFacts.update_overwrite_gating Payload Update Tracker UserCb K
              client_v7 [3%nat] None (Caller 0%nat)) as (_ & H & _).
  exact (H eq_refl eq_refl).
Defined.

(** The store answered AGAIN after the manager was shut down: the callback
    of the advancement writes its error line and reports nothing. *)
Lemma advance_intermediary_shard_states_witness :
  is_OK AGAIN || is_VERSION_MISMATCH AGAIN = false /\
  invoke false AdvanceCb AGAIN None = [RatelimitError AGAIN] /\
  OperationMode.isProposer K (mode_ proposer_v7) = true /\
  shutdown_signaled_ proposer_v7 = false /\
  advanceIntermediaryShardStates 40 proposer_v7 =
    Done (tt, proposer_v7,
          [StatIncr updates_requested;
           PostUpdateRequest [3%nat] (UpdateTraced AdvanceCb [3%nat])]).
Proof.
  destruct (NCMFacts.advance_intermediary_shard_states Payload Update
              Tracker UserCb extractNCUpdate K proposer_v7 40 false AGAIN
              None) as (_ & Hact & _ & Hcb & _).
  split; [reflexivity|]. split; [exact (Hcb eq_refl)|].
  split; [reflexivity|]. split; [reflexivity|].
  exact (Hact eq_refl eq_refl).
Defined.

(** C8 as the specification words it fails: with the manager gone the
    callback does not report the event on status AGAIN. *)
Lemma advance_callback_report_skipped :
  invoke false AdvanceCb AGAIN None = [RatelimitError AGAIN] /\
  ~ (forall (live : bool) (status : Status) (c : option NC),
       is_OK status || is_VERSION_MISMATCH status = false ->
       In (ReportEvent ADVANCE_INTERMEDIARY_SHARD_STATES_FAILED)
          (invoke live AdvanceCb status c)).
Proof.
  split; [reflexivity|].
  intros H. specialize (H false AGAIN None eq_refl). cbn in H.
  destruct H as [H|[]]. discriminate H.
Qed.

(** [init] on a manager that was shut down. *)
Lemma init_after_shutdown_witness :
  shutdown_signaled_ client_down = true /\
  init (Some nc7) true false client_down = Done (true, client_down, []).
Proof.
  split; [reflexivity|].
  exact (NCMFacts.init_after_shutdown Payload Update Tracker UserCb
           client_down (Some nc7) true false eq_refl).
Defined.

(** Scenario D of the specification: versions 9 and 10 arrive while
    version 8 is with the workers; when those are done version 10 goes
    out and version 9 never does. *)
Example burst_and_skip :
  run debug
    [NewConfigRequest 0 nc8; NewConfigRequest 0 nc9;
     NewConfigRequest 0 (nc 10 []); ProcessingFinishedRequest nc8]
    client_v7 =
  Done (tt,
        NCM.set_initialized
          (manager client_mode false (Some nc8) (Some (nc 10 [])) None) true,
        [StatSet staged_version 8; StatSet pending_version 8;
         UpdateNCMNodesConfiguration nc8; FulfillOnAllWorkers nc8;
         StatSet staged_version 9; StatSet staged_version 10;
         StatIncr config_published; StatSet published_version 8;
         StatSet pending_version 10;
         UpdateNCMNodesConfiguration (nc 10 []);
         FulfillOnAllWorkers (nc 10 [])]).
Proof. reflexivity. Qed.

End Examples.

(** * The further properties at work on the small instance *)

Module MoreExamples.

Import NCM.
Import Instance.

Lemma who_may_propose_and_overwrite_witness :
  OperationMode.well_formed K = true /\
  shutdown_signaled_ tooling_v7 = false /\
  OperationMode.forTooling K debug = Done (mode_ tooling_v7) /\
  overwrite (Some nc9) (Caller 0%nat) tooling_v7 =
    Done (tt, tooling_v7,
          [StatIncr overwrites_requested;
           DepsOverwrite nc9 (OverwriteTraced (Caller 0%nat) nc9)]).
Proof.
  split; [reflexivity|]. split; [reflexivity|]. split; [reflexivity|].
  destruct (NCMFacts.who_may_propose_and_overwrite Payload Update Tracker
              UserCb K debug tooling_v7 [3%nat] nc9 (Caller 0%nat)
              eq_refl eq_refl) as (H & _).
  destruct (H eq_refl) as (_ & Hov). exact Hov.
Defined.

Lemma callbacks_reach_the_caller_once_witness :
  innermost traced_caller = Some 0%nat /\
  filter is_caller_invoked (invoke true traced_caller OK (Some nc8)) =
    [CallerInvoked 0%nat OK (Some nc8)].
Proof.
  split; [reflexivity|].
  destruct (NCMFacts.callbacks_reach_the_caller_once Payload Update UserCb
              true traced_caller OK (Some nc8))
    as (H & _).
  destruct (H 0%nat eq_refl) as (Hf & _). exact Hf.
Defined.

Lemma shutdown_freezes_intake_witness :
  shutdown_signaled_ client_down = true /\
  onNewConfig debug 0 (Some nc8) client_down = Done (tt, client_down, []).
Proof.
  split; [reflexivity|].
  destruct (NCMFacts.shutdown_freezes_intake Payload Update Tracker UserCb
              deserialize extractConfigVersion tracker_onNewConfig
              extractNCUpdate K debug client_down eq_refl) as (H & _).
  exact (H 0 nc8).
Defined.

Lemma unusable_blob_is_dropped_witness :
  shutdown_signaled_ client_v7 = false /\
  extractConfigVersion bad_blob = None /\
  onNewConfig_serialized debug 0 bad_blob client_v7 =
    Done (tt, NCM.set_err client_v7 BADMSG,
          [StatIncr config_received; StatIncr serialization_errors]).
Proof.
  split; [reflexivity|]. split; [reflexivity|].
  destruct (NCMFacts.unusable_blob_is_dropped Payload Update Tracker UserCb
              deserialize extractConfigVersion tracker_onNewConfig
              extractNCUpdate K debug 0 bad_blob client_v7 eq_refl)
    as (H & _).
  exact (H eq_refl).
Defined.

Lemma blob_delivery_witness :
  shutdown_signaled_ client_v7 = false /\
  extractConfigVersion (blob_of 8) = Some 8 /\
  hasProcessedVersion client_v7 8 = false /\
  deserialize (blob_of 8) (err client_v7) = (Some nc8, OK) /\
  exists st' es,
    onNewConfig_serialized debug 0 (blob_of 8) client_v7 =
      Done (tt, st',
            StatIncr config_received :: ReportPropagationLatency nc8 :: es).
Proof.
  split; [reflexivity|]. split; [reflexivity|]. split; [reflexivity|].
  split; [reflexivity|].
  destruct (NCMFacts.blob_delivery Payload Update Tracker UserCb
              deserialize extractConfigVersion tracker_onNewConfig
              extractNCUpdate K debug 0 (blob_of 8) client_v7) as (_ & H).
  destruct (H 8 nc8 OK eq_refl eq_refl eq_refl eq_refl)
    as (st' & es & _ & Hrun).
  exists st', es. exact Hrun.
Defined.

Lemma shouldStage_iff_above_latest_witness :
  all_empty client_empty /\
  shouldStageVersion client_empty EMPTY_VERSION = true.
Proof.
  assert (He : all_empty client_empty) by (repeat split).
  split; [exact He|].
  destruct (NCMFacts.shouldStage_iff_above_latest Payload Tracker []
              client_empty 0) as (_ & H & _).
  exact (H He).
Defined.

Lemma winning_proposal_round_trip_witness :
  OperationMode.isProposer K (mode_ proposer_v7) = true /\
  shutdown_signaled_ proposer_v7 = false /\
  onUpdateRequest [3%nat] (UpdateTraced (Caller 0%nat) [3%nat]) proposer_v7 =
    Done (tt, proposer_v7,
          [StoreUpdateConfig (blob_of 8) 7
             (UpdateStoreCb (UpdateTraced (Caller 0%nat) [3%nat])
                (nc 8 [3%nat]))]).
Proof.
  split; [reflexivity|]. split; [reflexivity|].
  pose proof (NCMFacts.winning_proposal_round_trip Payload Update Tracker
                UserCb [] applyUpdate serialize deserialize
                extractConfigVersion tracker_onNewConfig extractNCUpdate K
                debug 0 proposer_v7 [3%nat] (Caller 0%nat) (nc 8 [3%nat])
                OK OK OK (blob_of 8) (blob_of 8) eq_refl eq_refl) as H.
  cbv zeta in H. destruct H as (Hw & _).
  - cbn. lia.
  - econstructor; [reflexivity|constructor].
  - reflexivity.
  - reflexivity.
  - exact Hw.
Defined.

Lemma proposal_wraps_at_top_version_witness :
  shutdown_signaled_ proposer_top = false /\
  getVersion (getLatestKnownConfig proposer_top) = 2 ^ 64 - 1 /\
  onNewConfig debug 0 (Some (nc 0 [5%nat])) proposer_top =
    Done (tt, proposer_top, []).
Proof.
  split; [reflexivity|]. split; [reflexivity|].
  pose proof (NCMFacts.proposal_wraps_at_top_version Payload Update Tracker
                UserCb [] tracker_onNewConfig extractNCUpdate K debug 0
                proposer_top (nc 9 [5%nat]) eq_refl eq_refl) as H.
  cbv zeta in H. destruct H as (_ & Hrun). exact Hrun.
Defined.

Lemma latest_known_is_newest_slot_witness :
  ordered client_v7_staged_v8 /\
  getLatestKnownConfig client_v7_staged_v8 = nc8.
Proof.
  assert (Ho : ordered client_v7_staged_v8).
  { unfold ordered, lt_version. cbn. lia. }
  split; [exact Ho|].
  exact (NCMFacts.latest_known_is_newest_slot Payload Tracker []
           client_v7_staged_v8 Ho).
Defined.

Lemma publish_is_monotonic_witness :
  ordered client_v7 /\
  run debug [NewConfigRequest 0 nc8; ProcessingFinishedRequest nc8]
    client_v7 =
    Done (tt, client_v8_published,
          [StatSet staged_version 8; StatSet pending_version 8;
           UpdateNCMNodesConfiguration nc8; FulfillOnAllWorkers nc8;
           StatIncr config_published; StatSet published_version 8]) /\
  le_version (local_nodes_config_ client_v7)
    (local_nodes_config_ client_v8_published).
Proof.
  assert (Ho : ordered client_v7).
  { unfold ordered, lt_version. cbn. auto. }
  split; [exact Ho|]. split; [reflexivity|].
  destruct (NCMFacts.publish_is_monotonic Payload Update Tracker UserCb []
              tracker_onNewConfig extractNCUpdate K debug
              [NewConfigRequest 0 nc8; ProcessingFinishedRequest nc8]
              client_v7 client_v8_published _ Ho eq_refl) as (H & _).
  exact H.
Defined.

Lemma fan_out_round_trip_witness :
  ordered client_v7_staged_v8 /\
  staged_nodes_config_ client_v7_staged_v8 = Some nc8 /\
  pending_nodes_config_ client_v7_staged_v8 = None /\
  onProcessingFinished debug (Some nc8) (moved client_v7_staged_v8 nc8) =
    Done (tt, client_v8_published,
          [StatIncr config_published; StatSet published_version 8]).
Proof.
  assert (Ho : ordered client_v7_staged_v8).
  { unfold ordered, lt_version. cbn. lia. }
  split; [exact Ho|]. split; [reflexivity|]. split; [reflexivity|].
  destruct (NCMFacts.fan_out_round_trip Payload Update Tracker UserCb debug
              client_v7_staged_v8 nc8 Ho eq_refl eq_refl)
    as (_ & _ & _ & H & _).
  exact H.
Defined.

Lemma lost_proposal_catches_up_witness :
  shutdown_signaled_ proposer_v7 = false /\
  fst (deserialize (blob_of 9) OK) = Some nc9 /\
  getVersion (getLatestKnownConfig proposer_v7) < getVersion nc9 /\
  exists st' es,
    onNewConfig debug 0 (Some nc9) proposer_v7 = Done (tt, st', es) /\
    NCM.getLatestKnownConfig Payload Tracker [] st' = nc9.
Proof.
  split; [reflexivity|]. split; [reflexivity|].
  assert (Hlt : getVersion (getLatestKnownConfig proposer_v7)
                < getVersion nc9) by (cbn; lia).
  split; [exact Hlt|].
  assert (Hne : (9 : version_t) <> EMPTY_VERSION) by discriminate.
  assert (Hd : kIsDebug debug = false \/
               (extractConfigVersion (blob_of 9) = Some 9 /\
                getVersion nc8 < 9)).
  { right. split; [reflexivity|]. cbn. lia. }
  destruct (NCMFacts.lost_proposal_catches_up Payload Update Tracker UserCb
              [] deserialize extractConfigVersion tracker_onNewConfig
              extractNCUpdate K debug 0 proposer_v7 (Caller 0%nat) nc8 nc9
              OK 9 (blob_of 9) eq_refl Hne eq_refl eq_refl Hd Hlt)
    as (_ & H).
  exact H.
Defined.

Lemma newest_staged_wins_witness :
  ordered client_v7_v8_pending /\
  pending_nodes_config_ client_v7_v8_pending = Some nc8 /\
  exists st' es,
    run debug [NewConfigRequest 0 nc9; NewConfigRequest 0 (nc 10 []);
               ProcessingFinishedRequest nc8] client_v7_v8_pending =
      Done (tt, st', es) /\
    pending_nodes_config_ st' = Some (nc 10 []) /\
    count_stat_set pending_version 9 es = 0%nat.
Proof.
  assert (Ho : ordered client_v7_v8_pending).
  { unfold ordered, lt_version. cbn. lia. }
  split; [exact Ho|]. split; [reflexivity|].
  destruct (NCMFacts.newest_staged_wins Payload Update Tracker UserCb
              tracker_onNewConfig extractNCUpdate K debug 0 0
              client_v7_v8_pending nc8 nc9 (nc 10 []) Ho eq_refl eq_refl)
    as (st' & es & Hrun & _ & Hp & _ & Hc & _).
  - exact I.
  - cbn. lia.
  - cbn. lia.
  - exists st', es. split; [exact Hrun|]. split; [exact Hp|exact Hc].
Defined.

Lemma consistent_fetch_until_first_publish_witness :
  ordered storage_v7 /\
  shouldDoConsistentConfigFetch storage_empty = true /\
  shouldDoConsistentConfigFetch storage_v7 = false /\
  forall st' es,
    run debug [NewConfigRequest 0 nc8] storage_v7 = Done (tt, st', es) ->
    NCM.shouldDoConsistentConfigFetch Payload Tracker K st' = false.
Proof.
  assert (Ho : ordered storage_v7).
  { unfold ordered, lt_version. cbn. auto. }
  split; [exact Ho|]. split; [reflexivity|]. split; [reflexivity|].
  intros st' es Hrun.
  destruct (NCMFacts.consistent_fetch_until_first_publish Payload Update
              Tracker UserCb tracker_onNewConfig extractNCUpdate K debug 0
              storage_v7) as (_ & _ & H).
  exact (H [NewConfigRequest 0 nc8] st' es Ho Hrun eq_refl).
Defined.

Lemma checks_never_fire_witness :
  ordered client_v7_v8_pending /\
  pending_nodes_config_ client_v7_v8_pending = Some nc8 /\
  exists st' es,
    onProcessingFinished debug (Some nc8) client_v7_v8_pending =
      Done (tt, st', es) /\
    local_nodes_config_ st' = Some nc8.
Proof.
  assert (Ho : ordered client_v7_v8_pending).
  { unfold ordered, lt_version. cbn. lia. }
  split; [exact Ho|]. split; [reflexivity|].
  destruct (NCMFacts.checks_never_fire Payload Update Tracker UserCb
              tracker_onNewConfig extractNCUpdate K debug
              client_v7_v8_pending) as (_ & _ & H).
  exact (H nc8 Ho eq_refl).
Defined.

Lemma cold_start_witness :
  all_empty storage_empty /\
  shutdown_signaled_ storage_empty = false /\
  exists es st2,
    initOnNCM debug 0 (Some nc7) storage_empty =
      Done (tt, NCM.moved
                  (NCM.stage Payload Tracker tracker_onNewConfig
                     storage_empty nc7) nc7,
            ReadFromStore true :: es) /\
    local_nodes_config_ st2 = Some nc7 /\
    NCM.shouldDoConsistentConfigFetch Payload Tracker K st2 = false.
Proof.
  assert (He : all_empty storage_empty) by (repeat split).
  split; [exact He|]. split; [reflexivity|].
  destruct (NCMFacts.cold_start Payload Update Tracker UserCb []
              tracker_onNewConfig extractNCUpdate K debug 0 storage_empty
              nc7 He eq_refl)
    as (es & st2 & Hinit & _ & _ & _ & Hl & _ & _ & Hf).
  exists es, st2. split; [exact Hinit|]. split; [exact Hl|exact Hf].
Defined.

Lemma undecodable_winner_witness :
  string_empty bad_blob = false /\
  fst (deserialize bad_blob OK) = None /\
  run_store_callback release false OK (UpdateStoreCb (Caller 0%nat) nc8)
    VERSION_MISMATCH 9 bad_blob =
    Done (tt, [CallerInvoked 0%nat VERSION_MISMATCH None]) /\
  run_store_callback debug true OK (UpdateStoreCb (Caller 0%nat) nc8)
    VERSION_MISMATCH 9 (blob_of 9) <> Fail CheckFailure.
Proof.
  split; [reflexivity|]. split; [reflexivity|]. split; [|discriminate].
  assert (Hne : (9 : version_t) <> EMPTY_VERSION) by discriminate.
  exact (NCMFacts.undecodable_winner Payload Update UserCb deserialize
           extractConfigVersion release false OK (Caller 0%nat) nc8 9
           bad_blob Hne eq_refl eq_refl (or_introl eq_refl)).
Defined.

End MoreExamples.
